(** * wicked: the link-layer DHCPv4 client transport (src/dhcp/socket-linux.c)

    A shallow embedding of the checksum primitives, the IPv4+UDP header
    codec, the two BPF classifier programs and the capture / adapter layer
    of [socket-linux.c], followed by the properties stated about them. *)

From Stdlib Require Import ZArith List Lia Bool String.
From Stdlib Require Import Strings.Byte.
From stdpp Require Import base gmap list.
Import ListNotations.
Open Scope Z_scope.

(** ** Machine integers and bytes *)

Definition u8 (z : Z) : Z := z mod 256.
Definition u16 (z : Z) : Z := z mod 65536.
Definition u32 (z : Z) : Z := z mod 4294967296.

Definition Z_of_byte (b : byte) : Z := Z.of_N (Byte.to_N b).
Definition byte_of_Z (z : Z) : byte :=
  match Byte.of_N (Z.to_N (u8 z)) with
  | Some b => b
  | None => x00
  end.

(** Memory objects are byte arrays; a pointer into one is an offset. *)
Definition load8 (m : list byte) (p : Z) : Z :=
  Z_of_byte (nth (Z.to_nat p) m x00).
Definition store8 (m : list byte) (p : Z) (v : Z) : list byte :=
  <[Z.to_nat p := byte_of_Z v]> m.

(** [bytes m p n]: the [n] bytes of [m] that start at offset [p]. *)
Definition bytes_at (m : list byte) (p : Z) (n : Z) : list byte :=
  firstn (Z.to_nat n) (skipn (Z.to_nat p) m).

(** ** Classic BPF

    [struct sock_filter] and the BPF_STMT / BPF_JUMP macros of
    linux/filter.h, with the kernel's interpretation of the opcodes that the
    two programs of this file use.  Loads are in network byte order; a load
    outside the packet ends the program with 0 (drop). *)
Module Bpf.

Record sock_filter := { code : Z; jt : Z; jf : Z; k : Z }.

Definition BPF_LD : Z := 0x00.
Definition BPF_LDX : Z := 0x01.
Definition BPF_JMP : Z := 0x05.
Definition BPF_RET : Z := 0x06.
Definition BPF_H : Z := 0x08.
Definition BPF_B : Z := 0x10.
Definition BPF_ABS : Z := 0x20.
Definition BPF_IND : Z := 0x40.
Definition BPF_MSH : Z := 0xa0.
Definition BPF_JEQ : Z := 0x10.
Definition BPF_JSET : Z := 0x40.
Definition BPF_K : Z := 0x00.

Definition BPF_STMT (c k : Z) : sock_filter :=
  {| code := c; jt := 0; jf := 0; k := k |}.
Definition BPF_JUMP (c k jt jf : Z) : sock_filter :=
  {| code := c; jt := jt; jf := jf; k := k |}.

Definition pkt_len (pkt : list byte) : Z := Z.of_nat (length pkt).

Definition ld_b (pkt : list byte) (off : Z) : option Z :=
  if (0 <=? off) && (off + 1 <=? pkt_len pkt)
  then Some (load8 pkt off) else None.
Definition ld_h (pkt : list byte) (off : Z) : option Z :=
  if (0 <=? off) && (off + 2 <=? pkt_len pkt)
  then Some (load8 pkt off * 256 + load8 pkt (off + 1)) else None.

(** Jumps only go forward, so one unit of fuel per instruction is enough. *)
Fixpoint run (fuel : nat) (prog : list sock_filter) (pkt : list byte)
    (A X : Z) (pc : nat) : Z :=
  match fuel with
  | O => 0
  | S fuel' =>
      match prog !! pc with
      | None => 0
      | Some i =>
          if code i =? BPF_LD + BPF_H + BPF_ABS then
            match ld_h pkt (k i) with
            | Some v => run fuel' prog pkt v X (S pc)
            | None => 0
            end
          else if code i =? BPF_LD + BPF_B + BPF_ABS then
            match ld_b pkt (k i) with
            | Some v => run fuel' prog pkt v X (S pc)
            | None => 0
            end
          else if code i =? BPF_LD + BPF_H + BPF_IND then
            match ld_h pkt (X + k i) with
            | Some v => run fuel' prog pkt v X (S pc)
            | None => 0
            end
          else if code i =? BPF_LDX + BPF_B + BPF_MSH then
            match ld_b pkt (k i) with
            | Some v => run fuel' prog pkt A (4 * Z.land v 15) (S pc)
            | None => 0
            end
          else if code i =? BPF_JMP + BPF_JEQ + BPF_K then
            run fuel' prog pkt A X
              (S pc + Z.to_nat (if A =? k i then jt i else jf i))
          else if code i =? BPF_JMP + BPF_JSET + BPF_K then
            run fuel' prog pkt A X
              (S pc + Z.to_nat (if Z.land A (k i) =? 0 then jf i else jt i))
          else if code i =? BPF_RET + BPF_K then k i
          else 0
      end
  end.

(** What the socket filter returns for a packet: the number of bytes to
    keep, 0 to drop it. *)
Definition filter (prog : list sock_filter) (pkt : list byte) : Z :=
  run (length prog) prog pkt 0 0 0%nat.

Definition set_jf (v : Z) (i : sock_filter) : sock_filter :=
  {| code := code i; jt := jt i; jf := v; k := k i |}.
Definition sub_k (n : Z) (i : sock_filter) : sock_filter :=
  {| code := code i; jt := jt i; jf := jf i; k := u32 (k i - n) |}.

End Bpf.
Import Bpf.

Definition ETHERTYPE_IP : Z := 0x0800.
Definition ETHERTYPE_ARP : Z := 0x0806.
Definition ETH_HLEN : Z := 14.
Definition ARPOP_REPLY : Z := 2.
Definition IPPROTO_UDP : Z := 17.
Definition DHCP_CLIENT_PORT : Z := 68.
Definition DHCP_SERVER_PORT : Z := 67.
Definition IPTOS_LOWDELAY : Z := 0x10.
Definition IP_DF : Z := 0x4000.
Definition IPDEFTTL : Z := 64.
Definition INADDR_BROADCAST : Z := 0xffffffff.

(** The two programs as the file's static initialisers have them. *)
Definition dhcp_bpf_filter_init : list sock_filter :=
  [ (* Make sure this is an IP packet... *)
    BPF_STMT (BPF_LD + BPF_H + BPF_ABS) 12;
    BPF_JUMP (BPF_JMP + BPF_JEQ + BPF_K) ETHERTYPE_IP 0 8;
    (* Make sure it's a UDP packet... *)
    BPF_STMT (BPF_LD + BPF_B + BPF_ABS) 23;
    BPF_JUMP (BPF_JMP + BPF_JEQ + BPF_K) IPPROTO_UDP 0 6;
    (* Make sure this isn't a fragment... *)
    BPF_STMT (BPF_LD + BPF_H + BPF_ABS) 20;
    BPF_JUMP (BPF_JMP + BPF_JSET + BPF_K) 0x1fff 4 0;
    (* Get the IP header length... *)
    BPF_STMT (BPF_LDX + BPF_B + BPF_MSH) 14;
    (* Make sure it's to the right port... *)
    BPF_STMT (BPF_LD + BPF_H + BPF_IND) 16;
    BPF_JUMP (BPF_JMP + BPF_JEQ + BPF_K) DHCP_CLIENT_PORT 0 1;
    (* If we passed all the tests, ask for the whole packet. *)
    BPF_STMT (BPF_RET + BPF_K) 0xffffffff;
    (* Otherwise, drop it. *)
    BPF_STMT (BPF_RET + BPF_K) 0 ].

Definition arp_bpf_filter_init : list sock_filter :=
  [ (* Make sure this is an ARP packet... *)
    BPF_STMT (BPF_LD + BPF_H + BPF_ABS) 12;
    BPF_JUMP (BPF_JMP + BPF_JEQ + BPF_K) ETHERTYPE_ARP 0 3;
    (* Make sure this is an ARP REPLY... *)
    BPF_STMT (BPF_LD + BPF_H + BPF_ABS) 20;
    BPF_JUMP (BPF_JMP + BPF_JEQ + BPF_K) ARPOP_REPLY 0 1;
    (* If we passed all the tests, ask for the whole packet. *)
    BPF_STMT (BPF_RET + BPF_K) 0xffffffff;
    (* Otherwise, drop it. *)
    BPF_STMT (BPF_RET + BPF_K) 0 ].

(** ** Host byte order

    The code reads and writes 16- and 32-bit fields in host order and
    converts with htons/ntohs; the byte order of the host is a parameter. *)
Section Host.
Variable big_endian : bool.

Definition bswap16 (x : Z) : Z := u8 x * 256 + u8 (x / 256).
Definition htons (x : Z) : Z := if big_endian then u16 x else bswap16 x.
Definition ntohs (x : Z) : Z := htons x.

Definition load16 (m : list byte) (p : Z) : Z :=
  if big_endian then load8 m p * 256 + load8 m (p + 1)
  else load8 m p + load8 m (p + 1) * 256.
Definition store16 (m : list byte) (p : Z) (v : Z) : list byte :=
  if big_endian then store8 (store8 m p (v / 256)) (p + 1) v
  else store8 (store8 m p v) (p + 1) (v / 256).

Definition load32 (m : list byte) (p : Z) : Z :=
  if big_endian then load16 m p * 65536 + load16 m (p + 2)
  else load16 m p + load16 m (p + 2) * 65536.
Definition store32 (m : list byte) (p : Z) (v : Z) : list byte :=
  if big_endian then store16 (store16 m p (v / 65536)) (p + 2) v
  else store16 (store16 m p v) (p + 2) (v / 65536).

(** ** Checksum primitives *)

(** The [while (len > 1)] loop of checksum_partial; [len] is a uint16_t and
    [sum] a uint32_t.  Every iteration lowers [len] by two, so [len]
    iterations of fuel always suffice. *)
Fixpoint checksum_loop (fuel : nat) (m : list byte) (sum data len : Z)
  : Z * Z * Z :=
  match fuel with
  | O => (sum, data, len)
  | S fuel' =>
      if 1 <? len
      then checksum_loop fuel' m (u32 (sum + load16 m data)) (data + 2)
             (u16 (len - 2))
      else (sum, data, len)
  end.

Definition checksum_partial (sum : Z) (m : list byte) (data len : Z) : Z :=
  let '(sum, data, len) := checksum_loop (Z.to_nat len) m sum data len in
  if len =? 1
  then
    let a := u16 (load8 m data) in
    u32 (sum + htons (u16 (Z.shiftl a 8)))
  else sum.

Definition checksum_fold (sum : Z) : Z :=
  let sum := u32 (Z.shiftr sum 16 + Z.land sum 65535) in
  let sum := u32 (sum + Z.shiftr sum 16) in
  u16 (Z.lnot sum).

Definition checksum (m : list byte) (data length : Z) : Z :=
  let sum := checksum_partial 0 m data (u16 length) in
  checksum_fold sum.

(** struct ip and struct udphdr field offsets (netinet/ip.h, netinet/udp.h). *)
Definition ip_tos_off : Z := 1.
Definition ip_len_off : Z := 2.
Definition ip_id_off : Z := 4.
Definition ip_off_off : Z := 6.
Definition ip_ttl_off : Z := 8.
Definition ip_p_off : Z := 9.
Definition ip_sum_off : Z := 10.
Definition ip_src_off : Z := 12.
Definition ip_dst_off : Z := 16.
Definition sizeof_ip : Z := 20.

Definition uh_sport_off : Z := 0.
Definition uh_dport_off : Z := 2.
Definition uh_ulen_off : Z := 4.
Definition uh_sum_off : Z := 6.
Definition sizeof_udphdr : Z := 8.

(** The two bit-fields of the first byte: the version is the high nibble
    and the header length the low nibble of the byte on either byte order. *)
Definition ip_v (m : list byte) (iph : Z) : Z := Z.shiftr (load8 m iph) 4.
Definition ip_hl (m : list byte) (iph : Z) : Z := Z.land (load8 m iph) 15.
Definition set_ip_v (m : list byte) (iph : Z) (v : Z) : list byte :=
  store8 m iph (Z.lor (Z.shiftl (Z.land v 15) 4) (Z.land (load8 m iph) 15)).
Definition set_ip_hl (m : list byte) (iph : Z) (v : Z) : list byte :=
  store8 m iph (Z.lor (Z.land (load8 m iph) 240) (Z.land v 15)).

(** The local [fake_header] of ipudp_checksum: src, dst, mbz, proto, length. *)
Definition fake_header (m : list byte) (iph uh : Z) : list byte :=
  let fh := repeat x00 12 in
  let fh := store32 fh 0 (load32 m (iph + ip_src_off)) in
  let fh := store32 fh 4 (load32 m (iph + ip_dst_off)) in
  let fh := store8 fh 9 (load8 m (iph + ip_p_off)) in
  let fh := store16 fh 10 (load16 m (uh + uh_ulen_off)) in
  let fh := store8 fh 8 0 in
  fh.

Definition ipudp_checksum (m : list byte) (iph uh data length : Z) : Z :=
  let fh := fake_header m iph uh in
  let csum := checksum_partial 0 fh 0 12 in
  let csum := checksum_partial csum m uh sizeof_udphdr in
  let csum := checksum_partial csum m data (u16 length) in
  checksum_fold csum.

(** ** Header codec *)

(** Modelled from the spec: ni_buffer_t and its helpers ni_buffer_head,
    ni_buffer_count and ni_buffer_push_head are declared in a header that is
    not part of the source tree.  The buffer has a readable region
    [head, tail) of [base] and "supports prepending bytes before its current
    head"; without that much head room there is no pointer to write through
    and the build has no result. *)
Record ni_buffer_t := { base : list byte; head : Z; tail : Z }.

Definition ni_buffer_head (bp : ni_buffer_t) : Z := head bp.
Definition ni_buffer_count (bp : ni_buffer_t) : Z :=
  if head bp <? tail bp then u32 (tail bp - head bp) else 0.
Definition ni_buffer_push_head (bp : ni_buffer_t) (count : Z)
  : option (Z * ni_buffer_t) :=
  if head bp <? count then None
  else Some (head bp - count,
             {| base := base bp; head := head bp - count; tail := tail bp |}).
Definition ni_buffer_data (bp : ni_buffer_t) : list byte :=
  bytes_at (base bp) (head bp) (ni_buffer_count bp).

Definition ni_dhcp_build_send_header (bp : ni_buffer_t) (src dst : Z)
  : option (Z * ni_buffer_t) :=
  let payload := ni_buffer_head bp in
  let payload_len := ni_buffer_count bp in
  (* Build the UDP header *)
  match ni_buffer_push_head bp sizeof_udphdr with
  | None => None
  | Some (udp, bp) =>
  let udp_len := ni_buffer_count bp in
  let m := base bp in
  let m := store16 m (udp + uh_sport_off) (htons DHCP_CLIENT_PORT) in
  let m := store16 m (udp + uh_dport_off) (htons DHCP_SERVER_PORT) in
  let m := store16 m (udp + uh_ulen_off) (htons udp_len) in
  let m := store16 m (udp + uh_sum_off) 0 in
  (* Build the IP header *)
  match ni_buffer_push_head bp sizeof_ip with
  | None => None
  | Some (ip, bp) =>
  let m := set_ip_v m ip 4 in
  let m := set_ip_hl m ip 5 in
  let m := store16 m (ip + ip_id_off) 0 in
  let m := store8 m (ip + ip_tos_off) IPTOS_LOWDELAY in
  let m := store16 m (ip + ip_len_off) (htons (u32 (sizeof_ip + udp_len))) in
  let m := store16 m (ip + ip_id_off) 0 in
  let m := store16 m (ip + ip_off_off) (htons IP_DF) in
  let m := store8 m (ip + ip_ttl_off) IPDEFTTL in
  let m := store8 m (ip + ip_p_off) IPPROTO_UDP in
  let m := store32 m (ip + ip_src_off) src in
  let m := store32 m (ip + ip_dst_off) dst in
  let m := if load32 m (ip + ip_dst_off) =? 0
           then store32 m (ip + ip_dst_off) INADDR_BROADCAST else m in
  let m := store16 m (ip + ip_sum_off) 0 in
  (* Finally, do the checksums *)
  let m := store16 m (ip + ip_sum_off) (checksum m ip sizeof_ip) in
  let m := store16 m (udp + uh_sum_off)
             (ipudp_checksum m ip udp payload payload_len) in
  Some (0, {| base := m; head := head bp; tail := tail bp |})
  end end.

(** The outcome of check_packet_header: the returned pointer (None is
    NULL), the value of [*payload_len] after the call, and the debug
    messages it logged. *)
Record cph_result := {
  cph_payload : option Z;
  cph_payload_len : Z;
  cph_debug : list string
}.

Definition cph_drop (payload_len : Z) (msg : string) : cph_result :=
  {| cph_payload := None; cph_payload_len := payload_len;
     cph_debug := [msg] |}.

Definition check_packet_header (m : list byte) (data bytes : Z)
    (payload_len : Z) : cph_result :=
  let iph := data in
  let ihl := Z.shiftl (ip_hl m iph) 2 in
  if negb (ip_v m iph =? 4) || (ihl <? 20) then
    cph_drop payload_len "bad IP header, ignoring"
  else if bytes <? ihl then
    cph_drop payload_len "truncated IP header, ignoring"
  else if negb (checksum m iph ihl =? 0) then
    cph_drop payload_len "bad IP header checksum, ignoring"
  else if bytes <? ntohs (load16 m (iph + ip_len_off)) then
    cph_drop payload_len "truncated IP packet, ignoring"
  else
    let data := data + ihl in
    let bytes := bytes - ihl in
    if negb (load8 m (iph + ip_p_off) =? IPPROTO_UDP) then
      cph_drop payload_len "unexpected IP protocol, ignoring"
    else if bytes <? sizeof_udphdr then
      cph_drop payload_len "truncated IP packet, ignoring"
    else
      let uh := data in
      let data := data + sizeof_udphdr in
      let bytes := bytes - sizeof_udphdr in
      if negb (ipudp_checksum m iph uh data bytes =? 0) then
        cph_drop payload_len "bad UDP checksum, ignoring"
      else
        {| cph_payload := Some data;
           cph_payload_len := ntohs (load16 m (iph + ip_len_off));
           cph_debug := [] |}.

(** ** Devices, captures, sockets and the kernel *)

(** Parameters of the platform that the source takes from headers outside
    the tree: the MTU_MAX constant and the table of link-layer broadcast
    addresses by interface type ([None] where the call returns < 0). *)
Variable MTU_MAX : Z.
Variable ni_link_address_get_broadcast : Z -> option (list byte).

(** malloc does not initialise what it returns: [uninitialised p i] is the
    byte found at offset [i] of the block allocated for the object at [p].
    Nothing is assumed about it. *)
Variable uninitialised : nat -> nat -> byte.
Definition malloc (p : nat) (size : Z) : list byte :=
  map (uninitialised p) (seq 0 (Z.to_nat size)).

Record timeval := { tv_sec : Z; tv_usec : Z }.

Definition timerisset (tv : timeval) : bool :=
  negb (tv_sec tv =? 0) || negb (tv_usec tv =? 0).
Definition timerclear : timeval := {| tv_sec := 0; tv_usec := 0 |}.
(** timercmp(a, b, <) *)
Definition timercmp_lt (a b : timeval) : bool :=
  if tv_sec a =? tv_sec b then tv_usec a <? tv_usec b
  else tv_sec a <? tv_sec b.

(** The functions of this file that are installed as socket hooks. *)
Inductive data_ready_fn := ni_dhcp_socket_recv_fn | ni_arp_socket_recv_fn.
Inductive get_timeout_fn := __ni_dhcp_socket_get_timeout_fn.
Inductive check_timeout_fn := __ni_dhcp_socket_check_timeout_fn.

(** Modelled from the spec: the socket wrapper ni_socket_t of wicked/socket.h
    "holds a raw file descriptor; carries optional hooks data_ready,
    get_timeout, check_timeout, plus an opaque user pointer and an error
    flag"; [active] records its registration with the event loop. *)
Record ni_socket_t := {
  __fd : Z;
  error : bool;
  user_data : option nat;
  data_ready : option data_ready_fn;
  get_timeout : option get_timeout_fn;
  check_timeout : option check_timeout_fn;
  active : bool
}.

Record sockaddr_ll := {
  sll_family : Z;
  sll_protocol : Z;
  sll_ifindex : Z;
  sll_hatype : Z;
  sll_halen : Z;
  sll_addr : list byte
}.

Record ni_capture_t := {
  dev : option nat;
  sock : option nat;
  protocol : Z;
  sll : sockaddr_ll;
  buffer : option (list byte);
  mtu : Z
}.

(** Modelled from the spec: the device record ni_dhcp_device_t of dhcp.h,
    with the fields this file reads and writes: "interface name, interface
    index, hardware type, MTU, a listening UDP socket file descriptor, a
    currently-installed capture handle (at most one), and a retransmission
    record with a deadline timestamp". *)
Record ni_dhcp_device_t := {
  ifname : string;
  listen_fd : Z;
  capture : option nat;
  system_ifindex : Z;
  system_iftype : Z;
  system_arp_type : Z;
  system_mtu : Z;
  retrans_deadline : timeval
}.

Inductive sockopt :=
| SO_REUSEADDR (on : Z)
| SO_RCVBUF (on : Z)
| SO_BINDTODEVICE (ifr_name : string)
| SO_ATTACH_FILTER (pf : list sock_filter).

Inductive sockaddr :=
| sockaddr_in (sin_family sin_port sin_addr : Z)
| sockaddr_link (sll : sockaddr_ll).

Inductive syscall :=
| sys_socket (domain type proto : Z)
| sys_setsockopt (fd : Z) (opt : sockopt)
| sys_bind (fd : Z) (addr : sockaddr)
| sys_fcntl_cloexec (fd : Z)
| sys_close (fd : Z)
| sys_read (fd : Z) (count : Z).

(** Calls into the DHCP state machine, an external collaborator: they are
    recorded, with the reader handed over where there is one. *)
Inductive fsm_call :=
| ni_dhcp_device_retransmit_call (dev : nat)
| ni_dhcp_fsm_process_dhcp_packet_call (dev : nat) (buf : ni_buffer_t)
| ni_dhcp_fsm_process_arp_packet_call (dev : nat) (buf : ni_buffer_t).

Inductive log_entry :=
| log_error (msg : string)
| log_debug (msg : string).

(** The process state: the three heaps, the file-scope statics
    (the two BPF arrays and [done] of ni_capture_set_filter), what the
    kernel will answer to the next system calls, and what has been done. *)
Record state := {
  devices : gmap nat ni_dhcp_device_t;
  captures : gmap nat ni_capture_t;
  sockets : gmap nat ni_socket_t;
  next_ptr : nat;
  dhcp_bpf_filter : list sock_filter;
  arp_bpf_filter : list sock_filter;
  done : bool;
  kernel_ret : list Z;
  kernel_rx : list (option (list byte));
  sys_trace : list syscall;
  fsm_trace : list fsm_call;
  log : list log_entry
}.

Definition set_devices (f : gmap nat ni_dhcp_device_t -> gmap nat ni_dhcp_device_t)
    (s : state) : state :=
  {| devices := f (devices s); captures := captures s; sockets := sockets s;
     next_ptr := next_ptr s; dhcp_bpf_filter := dhcp_bpf_filter s;
     arp_bpf_filter := arp_bpf_filter s; done := done s;
     kernel_ret := kernel_ret s; kernel_rx := kernel_rx s;
     sys_trace := sys_trace s; fsm_trace := fsm_trace s; log := log s |}.
Definition set_captures (f : gmap nat ni_capture_t -> gmap nat ni_capture_t)
    (s : state) : state :=
  {| devices := devices s; captures := f (captures s); sockets := sockets s;
     next_ptr := next_ptr s; dhcp_bpf_filter := dhcp_bpf_filter s;
     arp_bpf_filter := arp_bpf_filter s; done := done s;
     kernel_ret := kernel_ret s; kernel_rx := kernel_rx s;
     sys_trace := sys_trace s; fsm_trace := fsm_trace s; log := log s |}.
Definition set_sockets (f : gmap nat ni_socket_t -> gmap nat ni_socket_t)
    (s : state) : state :=
  {| devices := devices s; captures := captures s; sockets := f (sockets s);
     next_ptr := next_ptr s; dhcp_bpf_filter := dhcp_bpf_filter s;
     arp_bpf_filter := arp_bpf_filter s; done := done s;
     kernel_ret := kernel_ret s; kernel_rx := kernel_rx s;
     sys_trace := sys_trace s; fsm_trace := fsm_trace s; log := log s |}.
Definition set_next_ptr (n : nat) (s : state) : state :=
  {| devices := devices s; captures := captures s; sockets := sockets s;
     next_ptr := n; dhcp_bpf_filter := dhcp_bpf_filter s;
     arp_bpf_filter := arp_bpf_filter s; done := done s;
     kernel_ret := kernel_ret s; kernel_rx := kernel_rx s;
     sys_trace := sys_trace s; fsm_trace := fsm_trace s; log := log s |}.
Definition set_filters (d a : list sock_filter) (b : bool) (s : state) : state :=
  {| devices := devices s; captures := captures s; sockets := sockets s;
     next_ptr := next_ptr s; dhcp_bpf_filter := d;
     arp_bpf_filter := a; done := b;
     kernel_ret := kernel_ret s; kernel_rx := kernel_rx s;
     sys_trace := sys_trace s; fsm_trace := fsm_trace s; log := log s |}.
Definition set_kernel (r : list Z) (rx : list (option (list byte)))
    (t : list syscall) (s : state) : state :=
  {| devices := devices s; captures := captures s; sockets := sockets s;
     next_ptr := next_ptr s; dhcp_bpf_filter := dhcp_bpf_filter s;
     arp_bpf_filter := arp_bpf_filter s; done := done s;
     kernel_ret := r; kernel_rx := rx;
     sys_trace := t; fsm_trace := fsm_trace s; log := log s |}.
Definition set_fsm_trace (t : list fsm_call) (s : state) : state :=
  {| devices := devices s; captures := captures s; sockets := sockets s;
     next_ptr := next_ptr s; dhcp_bpf_filter := dhcp_bpf_filter s;
     arp_bpf_filter := arp_bpf_filter s; done := done s;
     kernel_ret := kernel_ret s; kernel_rx := kernel_rx s;
     sys_trace := sys_trace s; fsm_trace := t; log := log s |}.
Definition set_log (l : list log_entry) (s : state) : state :=
  {| devices := devices s; captures := captures s; sockets := sockets s;
     next_ptr := next_ptr s; dhcp_bpf_filter := dhcp_bpf_filter s;
     arp_bpf_filter := arp_bpf_filter s; done := done s;
     kernel_ret := kernel_ret s; kernel_rx := kernel_rx s;
     sys_trace := sys_trace s; fsm_trace := fsm_trace s; log := l |}.

(** State passing with failure: [None] is a crash of the process (a NULL or
    dangling pointer dereferenced). *)
Definition M (A : Type) : Type := state -> option (A * state).
Definition ret {A} (a : A) : M A := fun s => Some (a, s).
Definition bind {A B} (m : M A) (f : A -> M B) : M B :=
  fun s => match m s with
           | Some (a, s') => f a s'
           | None => None
           end.
Definition crash {A} : M A := fun _ => None.

Notation "x <- m ;; f" := (bind m (fun x => f))
  (at level 100, m at next level, right associativity).
Notation "m ;;; f" := (bind m (fun _ => f))
  (at level 100, right associativity).

Definition deref {A} (heap : state -> gmap nat A) (p : nat) : M A :=
  fun s => match heap s !! p with
           | Some a => Some (a, s)
           | None => None
           end.
Definition modify (f : state -> state) : M unit := fun s => Some (tt, f s).

(** Messages are recorded as they are printed, a [%s] argument filled in
    between the text before and the text after it; [%m], the text of errno,
    is left as it stands. *)
Definition fmt_s (before arg after : string) : string :=
  String.append before (String.append arg after).

Definition ni_error (msg : string) : M unit :=
  modify (fun s => set_log (log s ++ [log_error msg]) s).
Definition ni_debug_dhcp (msg : string) : M unit :=
  modify (fun s => set_log (log s ++ [log_debug msg]) s).

(** A system call whose result the code looks at: the kernel's next answer,
    -1 when it has none left. *)
Definition sys (c : syscall) : M Z :=
  fun s => Some (hd (-1) (kernel_ret s),
                 set_kernel (tl (kernel_ret s)) (kernel_rx s)
                   (sys_trace s ++ [c]) s).
(** close and fcntl: the result is ignored by every caller. *)
Definition sys_ (c : syscall) : M unit :=
  modify (fun s => set_kernel (kernel_ret s) (kernel_rx s) (sys_trace s ++ [c]) s).

(** read(fd, buffer, count) on a packet socket: the next frame, cut to
    [count] bytes, overwrites the start of the buffer; -1 on error or when
    nothing is there. *)
Definition sys_read_into (fd : Z) (buf : list byte) (count : Z)
  : M (Z * list byte) :=
  fun s =>
    let s' := set_kernel (kernel_ret s) (tl (kernel_rx s))
                (sys_trace s ++ [sys_read fd count]) s in
    match kernel_rx s with
    | Some frame :: _ =>
        let got := firstn (Z.to_nat count) frame in
        Some ((Z.of_nat (length got), got ++ skipn (length got) buf), s')
    | _ => Some ((-1, buf), s')
    end.

Definition PF_INET : Z := 2.
Definition AF_INET : Z := 2.
Definition PF_PACKET : Z := 17.
Definition AF_PACKET : Z := 17.
Definition SOCK_DGRAM : Z := 2.

(** Modelled from the spec: ni_socket_wrap, ni_socket_activate and
    ni_socket_close of the event-loop collaborator.  Wrapping allocates a
    socket wrapper around the fd; activation is "a registration operation
    that causes the loop to poll the fd"; closing "deregisters it from the
    event loop" and closes the fd. *)
Definition ni_socket_wrap (fd : Z) (type : Z) : M nat :=
  fun s =>
    let p := next_ptr s in
    let sk := {| __fd := fd; error := false; user_data := None;
                 data_ready := None; get_timeout := None;
                 check_timeout := None; active := false |} in
    Some (p, set_next_ptr (S p) (set_sockets (insert p sk) s)).
Definition update_sock (p : nat) (f : ni_socket_t -> ni_socket_t) : M unit :=
  sk <- deref sockets p ;;
  modify (set_sockets (insert p (f sk))).
Definition ni_socket_activate (p : nat) : M unit :=
  update_sock p (fun sk =>
    {| __fd := __fd sk; error := error sk; user_data := user_data sk;
       data_ready := data_ready sk; get_timeout := get_timeout sk;
       check_timeout := check_timeout sk; active := true |}).
Definition ni_socket_close (p : nat) : M unit :=
  sk <- deref sockets p ;;
  sys_ (sys_close (__fd sk)) ;;;
  modify (set_sockets (delete p)).

Definition update_capture (p : nat) (f : ni_capture_t -> ni_capture_t) : M unit :=
  c <- deref captures p ;;
  modify (set_captures (insert p (f c))).
Definition update_dev (p : nat) (f : ni_dhcp_device_t -> ni_dhcp_device_t) : M unit :=
  d <- deref devices p ;;
  modify (set_devices (insert p (f d))).

Definition set_dev_capture (c : option nat) (d : ni_dhcp_device_t) :=
  {| ifname := ifname d; listen_fd := listen_fd d; capture := c;
     system_ifindex := system_ifindex d; system_iftype := system_iftype d;
     system_arp_type := system_arp_type d; system_mtu := system_mtu d;
     retrans_deadline := retrans_deadline d |}.
Definition set_dev_listen_fd (fd : Z) (d : ni_dhcp_device_t) :=
  {| ifname := ifname d; listen_fd := fd; capture := capture d;
     system_ifindex := system_ifindex d; system_iftype := system_iftype d;
     system_arp_type := system_arp_type d; system_mtu := system_mtu d;
     retrans_deadline := retrans_deadline d |}.

(** Modelled from the spec: the FSM's retransmit operation, "called on
    deadline expiry"; the call is recorded. *)
Definition ni_dhcp_device_retransmit (dev : nat) : M unit :=
  modify (fun s => set_fsm_trace (fsm_trace s ++ [ni_dhcp_device_retransmit_call dev]) s).
Definition ni_dhcp_fsm_process_dhcp_packet (dev : nat) (buf : ni_buffer_t) : M unit :=
  modify (fun s => set_fsm_trace
            (fsm_trace s ++ [ni_dhcp_fsm_process_dhcp_packet_call dev buf]) s).
Definition ni_dhcp_fsm_process_arp_packet (dev : nat) (buf : ni_buffer_t) : M unit :=
  modify (fun s => set_fsm_trace
            (fsm_trace s ++ [ni_dhcp_fsm_process_arp_packet_call dev buf]) s).

(** Modelled from the spec: ni_buffer_init_reader(bp, base, len) makes a
    reader over the [len] bytes that start at [base]. *)
Definition ni_buffer_init_reader (m : list byte) (base_ptr len : Z) : ni_buffer_t :=
  {| base := skipn (Z.to_nat base_ptr) m; head := 0; tail := len |}.

(** ** Timeout hooks *)

(** [tv] is the value behind the out-pointer before the call; the result
    pairs the return value with the value behind it afterwards. *)
Definition __ni_dhcp_socket_get_timeout (sock : nat) (tv : timeval)
  : M (Z * timeval) :=
  sk <- deref sockets sock ;;
  match user_data sk with
  | None => ni_error "dhcp socket without capture?!" ;;; ret (-1, tv)
  | Some cp =>
      cap <- deref captures cp ;;
      match dev cap with
      | None => ni_error "dhcp socket without device?!" ;;; ret (-1, tv)
      | Some dp =>
          d <- deref devices dp ;;
          let tv := timerclear in
          let tv := if timerisset (retrans_deadline d)
                    then retrans_deadline d else tv in
          ret (if timerisset tv then 0 else -1, tv)
      end
  end.

Definition __ni_dhcp_socket_check_timeout (sock : nat) (now : timeval)
  : M unit :=
  sk <- deref sockets sock ;;
  match user_data sk with
  | None => ni_error "dhcp socket without capture?!"
  | Some cp =>
      cap <- deref captures cp ;;
      match dev cap with
      | None => ni_error "dhcp socket without device?!"
      | Some dp =>
          d <- deref devices dp ;;
          if timerisset (retrans_deadline d)
             && timercmp_lt (retrans_deadline d) now
          then ni_dhcp_device_retransmit dp
          else ret tt
      end
  end.

(** ** The capture handle *)

(** calloc of one struct ni_capture: a fresh capture, every field zero. *)
Definition calloc_capture : M nat :=
  fun s =>
    let p := next_ptr s in
    let cap :=
      {| dev := None; sock := None; protocol := 0;
         sll := {| sll_family := 0; sll_protocol := 0; sll_ifindex := 0;
                   sll_hatype := 0; sll_halen := 0; sll_addr := [] |};
         buffer := None; mtu := 0 |} in
    Some (p, set_next_ptr (S p) (set_captures (insert p cap) s)).

Definition ni_capture_free (cp : nat) : M unit :=
  cap <- deref captures cp ;;
  match sock cap with
  | Some sp => ni_socket_close sp
  | None => ret tt
  end ;;;
  modify (set_captures (delete cp)).

Definition ni_capture_set_filter (cp : nat) (proto : Z) : M Z :=
  (* Initialize packet filters if we haven't done so *)
  modify (fun s =>
    if done s then s
    else
      (* We need to massage the filters for Linux cooked packets *)
      let d := dhcp_bpf_filter s in
      let d := alter (set_jf 0) 1%nat d in
      let d := alter (sub_k ETH_HLEN) 2%nat d in
      let d := alter (sub_k ETH_HLEN) 4%nat d in
      let d := alter (sub_k ETH_HLEN) 6%nat d in
      let d := alter (sub_k ETH_HLEN) 7%nat d in
      let a := arp_bpf_filter s in
      let a := alter (set_jf 0) 1%nat a in
      let a := alter (sub_k ETH_HLEN) 2%nat a in
      set_filters d a true s) ;;;
  (* Install the DHCP filter *)
  pf <- (fun s => Some (if proto =? ETHERTYPE_ARP then arp_bpf_filter s
                        else dhcp_bpf_filter s, s)) ;;
  cap <- deref captures cp ;;
  match sock cap with
  | None => crash
  | Some sp =>
      sk <- deref sockets sp ;;
      r <- sys (sys_setsockopt (__fd sk) (SO_ATTACH_FILTER pf)) ;;
      if r <? 0 then ni_error "SO_ATTACH_FILTER: %m" ;;; ret (-1)
      else ret 0
  end.

Definition ni_capture_open (dp : nat) (proto : Z) (cb : data_ready_fn)
  : M (option nat) :=
  d <- deref devices dp ;;
  if system_ifindex d =? 0 then
    ni_error (fmt_s "no ifindex for interface `" (ifname d) "'") ;;; ret None
  else
  match ni_link_address_get_broadcast (system_iftype d) with
  | None =>
      ni_error (fmt_s "cannot get broadcast address for " (ifname d)
                  " (bad iftype)") ;;; ret None
  | Some brdaddr =>
  fd <- sys (sys_socket PF_PACKET SOCK_DGRAM (htons proto)) ;;
  if fd <? 0 then ni_error "socket: %m" ;;; ret None
  else
  sys_ (sys_fcntl_cloexec fd) ;;;
  cp <- calloc_capture ;;
  sp <- ni_socket_wrap fd SOCK_DGRAM ;;
  update_capture cp (fun cap =>
    {| dev := dev cap; sock := Some sp; protocol := proto;
       sll := {| sll_family := AF_PACKET;
                 sll_protocol := htons proto;
                 sll_ifindex := system_ifindex d;
                 sll_hatype := htons (system_arp_type d);
                 sll_halen := Z.of_nat (length brdaddr);
                 sll_addr := brdaddr |};
       buffer := buffer cap; mtu := mtu cap |}) ;;;
  r <- ni_capture_set_filter cp proto ;;
  if r <? 0 then ni_capture_free cp ;;; ret None
  else
  r <- sys (sys_bind fd (sockaddr_link
              {| sll_family := PF_PACKET; sll_protocol := htons proto;
                 sll_ifindex := system_ifindex d; sll_hatype := 0;
                 sll_halen := 0; sll_addr := [] |})) ;;
  if r =? -1 then ni_error "bind: %m" ;;; ni_capture_free cp ;;; ret None
  else
  let m := if system_mtu d =? 0 then MTU_MAX else system_mtu d in
  update_capture cp (fun cap =>
    {| dev := dev cap; sock := sock cap; protocol := protocol cap;
       sll := sll cap; buffer := Some (malloc cp m);
       mtu := m |}) ;;;
  update_sock sp (fun sk =>
    {| __fd := __fd sk; error := error sk; user_data := Some cp;
       data_ready := Some cb; get_timeout := get_timeout sk;
       check_timeout := check_timeout sk; active := active sk |}) ;;;
  ni_socket_activate sp ;;;
  ret (Some cp)
  end.

(** ** Client adapters *)

Definition __ni_dhcp_common_open (dp : nat) (proto : Z) (cb : data_ready_fn)
  : M Z :=
  d <- deref devices dp ;;
  reuse <-
    match capture d with
    | Some cp =>
        cap <- deref captures cp ;;
        sk_ok <-
          match sock cap with
          | Some sp => sk <- deref sockets sp ;; ret (negb (error sk))
          | None => ret false
          end ;;
        if sk_ok && (protocol cap =? proto) then ret true
        else
          ni_capture_free cp ;;;
          update_dev dp (set_dev_capture None) ;;;
          ret false
    | None => ret false
    end ;;
  if (reuse : bool) then ret 0
  else
    c <- ni_capture_open dp proto cb ;;
    match c with
    | None => ret (-1)
    | Some cp =>
        cap <- deref captures cp ;;
        match sock cap with
        | None => crash
        | Some sp =>
            update_sock sp (fun sk =>
              {| __fd := __fd sk; error := error sk;
                 user_data := user_data sk; data_ready := data_ready sk;
                 get_timeout := Some __ni_dhcp_socket_get_timeout_fn;
                 check_timeout := Some __ni_dhcp_socket_check_timeout_fn;
                 active := active sk |}) ;;;
            update_dev dp (set_dev_capture (Some cp)) ;;;
            update_capture cp (fun cap =>
              {| dev := Some dp; sock := sock cap; protocol := protocol cap;
                 sll := sll cap; buffer := buffer cap; mtu := mtu cap |}) ;;;
            ret 0
        end
    end.

Definition ni_dhcp_socket_recv (sp : nat) : M unit :=
  sk <- deref sockets sp ;;
  match user_data sk with
  | None => crash
  | Some cp =>
  cap <- deref captures cp ;;
  match dev cap, buffer cap with
  | Some dp, Some buf =>
      d <- deref devices dp ;;
      ni_debug_dhcp (String.append (ifname d) ": incoming DHCP packet") ;;;
      rd <- sys_read_into (__fd sk) buf (mtu cap) ;;
      let '(bytes, buf) := rd in
      update_capture cp (fun cap =>
        {| dev := dev cap; sock := sock cap; protocol := protocol cap;
           sll := sll cap; buffer := Some buf; mtu := mtu cap |}) ;;;
      if bytes <? 0 then
        ni_error "ni_dhcp_socket_recv: cannot read from socket: %m"
      else
        (* Make sure IP and UDP header are sane *)
        let r := check_packet_header buf 0 bytes 0 in
        modify (fun s => set_log (log s ++ map log_debug (cph_debug r)) s) ;;;
        match cph_payload r with
        | None => ni_debug_dhcp "bad IP/UDP packet header"
        | Some payload =>
            ni_dhcp_fsm_process_dhcp_packet dp
              (ni_buffer_init_reader buf payload (cph_payload_len r))
        end
  | _, _ => crash
  end
  end.

(** strncpy(dst, src, n) into a zeroed field of [n] bytes: at most [n]
    characters of the name, without a terminator when there are [n]. *)
Definition IFNAMSIZ : nat := 16.
Definition strncpy (src : string) (n : nat) : string := substring 0 n src.

(** Open a DHCP socket for send and receive *)
Definition ni_dhcp_socket_open (dp : nat) : M Z :=
  d <- deref devices dp ;;
  failed <-
    (if listen_fd d =? -1 then
       fd <- sys (sys_socket PF_INET SOCK_DGRAM IPPROTO_UDP) ;;
       if fd =? -1 then ni_error "socket: %m" ;;; ret true
       else
         r <- sys (sys_setsockopt fd (SO_REUSEADDR 1)) ;;
         (if r =? -1 then ni_error "SO_REUSEADDR: %m" else ret tt) ;;;
         r <- sys (sys_setsockopt fd (SO_RCVBUF 1)) ;;
         (if r =? -1 then ni_error "SO_RCVBUF: %m" else ret tt) ;;;
         r <- sys (sys_setsockopt fd
                     (SO_BINDTODEVICE (strncpy (ifname d) IFNAMSIZ))) ;;
         (if r =? -1 then ni_error "SO_SOBINDTODEVICE: %m" else ret tt) ;;;
         r <- sys (sys_bind fd (sockaddr_in AF_INET (htons DHCP_CLIENT_PORT) 0)) ;;
         (if r =? -1 then
            ni_error "bind: %m" ;;;
            sys_ (sys_close fd)
          else
            update_dev dp (set_dev_listen_fd fd) ;;;
            sys_ (sys_fcntl_cloexec fd)) ;;;
         ret false
     else ret false) ;;
  if (failed : bool) then ret (-1)
  else __ni_dhcp_common_open dp ETHERTYPE_IP ni_dhcp_socket_recv_fn.

Definition ni_arp_socket_recv (sp : nat) : M unit :=
  sk <- deref sockets sp ;;
  match user_data sk with
  | None => crash
  | Some cp =>
  cap <- deref captures cp ;;
  match dev cap, buffer cap with
  | Some dp, Some buf =>
      d <- deref devices dp ;;
      ni_debug_dhcp (String.append (ifname d) ": incoming ARP packet") ;;;
      rd <- sys_read_into (__fd sk) buf (mtu cap) ;;
      let '(bytes, buf) := rd in
      update_capture cp (fun cap =>
        {| dev := dev cap; sock := sock cap; protocol := protocol cap;
           sll := sll cap; buffer := Some buf; mtu := mtu cap |}) ;;;
      if bytes <? 0 then
        ni_error "ni_arp_socket_recv: cannot read from socket: %m"
      else
        ni_dhcp_fsm_process_arp_packet dp
          (ni_buffer_init_reader buf 0 (mtu cap))
  | _, _ => crash
  end
  end.

Definition ni_arp_socket_open (dp : nat) : M Z :=
  __ni_dhcp_common_open dp ETHERTYPE_ARP ni_arp_socket_recv_fn.

(** ** Specification-level notions *)

(** The sum of the [n] host-order 16-bit words at [p], and the value the
    checksum adds for the [len] bytes at [p], before any wrap-around. *)
Fixpoint wordsum (m : list byte) (p : Z) (n : nat) : Z :=
  match n with
  | O => 0
  | S n' => load16 m p + wordsum m (p + 2) n'
  end.
Definition odd_word (m : list byte) (p : Z) : Z :=
  htons (u16 (Z.shiftl (u16 (load8 m p)) 8)).
Definition region_sum (m : list byte) (p len : Z) : Z :=
  wordsum m p (Z.to_nat (len / 2))
  + (if len mod 2 =? 1 then odd_word m (p + 2 * (len / 2)) else 0).

(** The same value as a weighted sum of the bytes of a list: the first
    byte of each 16-bit word and the second one carry the weights of the
    host's byte order. *)
Definition byte_weight (first : bool) : Z :=
  if first then (if big_endian then 256 else 1)
  else (if big_endian then 1 else 256).
Fixpoint lsum (first : bool) (l : list byte) : Z :=
  match l with
  | [] => 0
  | b :: r => byte_weight first * Z_of_byte b + lsum (negb first) r
  end.

(** The 32-bit sum that ipudp_checksum folds. *)
Definition udp_sum (m : list byte) (iph uh data length : Z) : Z :=
  lsum true (fake_header m iph uh)
  + lsum true (bytes_at m uh sizeof_udphdr)
  + lsum true (bytes_at m data (u16 length)).

Definition byte_at (m : list byte) (p : Z) : byte := nth (Z.to_nat p) m x00.

(** The tests that check_packet_header makes before it returns a payload,
    in the terms of the code: its own two checksum functions, the UDP one
    called on as many bytes as were read behind the UDP header.  The same
    conditions on the bytes of the packet are [valid_read] below. *)
Definition acceptable (m : list byte) (data bytes : Z) : Prop :=
  let ihl := 4 * ip_hl m data in
  ip_v m data = 4
  /\ 5 <= ip_hl m data
  /\ ntohs (load16 m (data + ip_len_off)) <= bytes
  /\ checksum m data ihl = 0
  /\ load8 m (data + ip_p_off) = IPPROTO_UDP
  /\ ipudp_checksum m data (data + ihl) (data + ihl + sizeof_udphdr)
       (bytes - ihl - sizeof_udphdr) = 0.

(** ** The outbound wire format, as the specification gives it

    An IPv4 header of 20 bytes (V=4, IHL=5, TOS=LOWDELAY, ID=0, DF, TTL,
    UDP, source, destination), a UDP header of 8 bytes (ports 68 and 67,
    length, checksum) and the payload.  Port, length and flag fields are in
    network order; the checksum and address words are written as the host
    holds them. *)
Definition net16 (v : Z) : list byte := [byte_of_Z (v / 256); byte_of_Z v].
Definition host16 (v : Z) : list byte := store16 [x00; x00] 0 v.
Definition host32 (v : Z) : list byte := store32 [x00; x00; x00; x00] 0 v.

Definition ip_header (tot_len sum src dst : Z) : list byte :=
  [byte_of_Z 0x45; byte_of_Z IPTOS_LOWDELAY] ++ net16 tot_len ++ net16 0
  ++ net16 IP_DF ++ [byte_of_Z IPDEFTTL; byte_of_Z IPPROTO_UDP]
  ++ host16 sum ++ host32 src ++ host32 dst.
Definition udp_header (ulen sum : Z) : list byte :=
  net16 DHCP_CLIENT_PORT ++ net16 DHCP_SERVER_PORT ++ net16 ulen ++ host16 sum.
Definition pseudo_header (src dst ulen : Z) : list byte :=
  host32 src ++ host32 dst ++ [x00; byte_of_Z IPPROTO_UDP] ++ net16 ulen.

Definition coerce_dst (dst : Z) : Z :=
  if u32 dst =? 0 then INADDR_BROADCAST else dst.

Definition dhcp_frame (src dst : Z) (payload : list byte) : list byte :=
  let L := Z.of_nat (length payload) in
  let dst := coerce_dst dst in
  let ipsum := checksum_fold (lsum true (ip_header (28 + L) 0 src dst)) in
  let udpsum :=
    checksum_fold (lsum true (pseudo_header src dst (8 + L))
                   + lsum true (udp_header (8 + L) 0)
                   + lsum true payload) in
  ip_header (28 + L) ipsum src dst ++ udp_header (8 + L) udpsum ++ payload.

(** Bit [k] (0..7) of the byte at offset [q] inverted. *)
Definition flip_bit (m : list byte) (q k : Z) : list byte :=
  store8 m q (Z.lxor (load8 m q) (Z.shiftl 1 k)).

(** ** What the classifier programs are meant to select *)

(** A frame seen from its Ethernet header: EtherType IPv4, protocol UDP,
    the 13 fragment-offset bits zero, UDP destination port 68; every field
    has to lie inside the frame. *)
Definition dhcp_link_match (pkt : list byte) : bool :=
  match ld_h pkt 12, ld_b pkt 23, ld_h pkt 20, ld_b pkt 14 with
  | Some ethertype, Some proto, Some frag, Some vhl =>
      (ethertype =? ETHERTYPE_IP) && (proto =? IPPROTO_UDP)
      && (Z.land frag 0x1fff =? 0)
      && match ld_h pkt (14 + 4 * Z.land vhl 15 + 2) with
         | Some dport => dport =? DHCP_CLIENT_PORT
         | None => false
         end
  | _, _, _, _ => false
  end.

(** The same from the IP header, as a cooked socket delivers the packet;
    the EtherType is not looked at any more, though the load at offset 12
    is still made. *)
Definition dhcp_cooked_match (pkt : list byte) : bool :=
  match ld_h pkt 12, ld_b pkt 9, ld_h pkt 6, ld_b pkt 0 with
  | Some _, Some proto, Some frag, Some vhl =>
      (proto =? IPPROTO_UDP) && (Z.land frag 0x1fff =? 0)
      && match ld_h pkt (4 * Z.land vhl 15 + 2) with
         | Some dport => dport =? DHCP_CLIENT_PORT
         | None => false
         end
  | _, _, _, _ => false
  end.

(** Fragment in the sense of the IP header at link offset 14: a non-zero
    fragment offset or the MF flag. *)
Definition IP_MF : Z := 0x2000.
Definition is_fragment (pkt : list byte) : bool :=
  match ld_h pkt 20 with
  | Some frag => negb (Z.land frag 0x1fff =? 0) || negb (Z.land frag IP_MF =? 0)
  | None => false
  end.

(** The two programs after the massage for cooked packets: the EtherType
    jump falls through either way and the offsets of the loads behind it
    are 14 less. *)
Definition dhcp_bpf_filter_cooked : list sock_filter :=
  [ BPF_STMT (BPF_LD + BPF_H + BPF_ABS) 12;
    BPF_JUMP (BPF_JMP + BPF_JEQ + BPF_K) ETHERTYPE_IP 0 0;
    BPF_STMT (BPF_LD + BPF_B + BPF_ABS) (23 - ETH_HLEN);
    BPF_JUMP (BPF_JMP + BPF_JEQ + BPF_K) IPPROTO_UDP 0 6;
    BPF_STMT (BPF_LD + BPF_H + BPF_ABS) (20 - ETH_HLEN);
    BPF_JUMP (BPF_JMP + BPF_JSET + BPF_K) 0x1fff 4 0;
    BPF_STMT (BPF_LDX + BPF_B + BPF_MSH) (14 - ETH_HLEN);
    BPF_STMT (BPF_LD + BPF_H + BPF_IND) (16 - ETH_HLEN);
    BPF_JUMP (BPF_JMP + BPF_JEQ + BPF_K) DHCP_CLIENT_PORT 0 1;
    BPF_STMT (BPF_RET + BPF_K) 0xffffffff;
    BPF_STMT (BPF_RET + BPF_K) 0 ].

Definition arp_bpf_filter_cooked : list sock_filter :=
  [ BPF_STMT (BPF_LD + BPF_H + BPF_ABS) 12;
    BPF_JUMP (BPF_JMP + BPF_JEQ + BPF_K) ETHERTYPE_ARP 0 0;
    BPF_STMT (BPF_LD + BPF_H + BPF_ABS) (20 - ETH_HLEN);
    BPF_JUMP (BPF_JMP + BPF_JEQ + BPF_K) ARPOP_REPLY 0 1;
    BPF_STMT (BPF_RET + BPF_K) 0xffffffff;
    BPF_STMT (BPF_RET + BPF_K) 0 ].

(** ** Runs of the capture layer *)

(** The statics as the program starts with them. *)
Definition initial_statics (s : state) : Prop :=
  dhcp_bpf_filter s = dhcp_bpf_filter_init
  /\ arp_bpf_filter s = arp_bpf_filter_init
  /\ done s = false.

(** A capture handle that ni_capture_set_filter can be called on. *)
Definition capture_with_socket (s : state) (cp : nat) : Prop :=
  exists cap sp sk,
    captures s !! cp = Some cap /\ sock cap = Some sp
    /\ sockets s !! sp = Some sk.

(** A sequence of calls of ni_capture_set_filter, each with its handle and
    protocol. *)
Fixpoint set_filter_calls (calls : list (nat * Z)) (s : state) : option state :=
  match calls with
  | [] => Some s
  | (cp, proto) :: calls' =>
      match ni_capture_set_filter cp proto s with
      | Some (_, s') => set_filter_calls calls' s'
      | None => None
      end
  end.

(** Normalised time stamps and their position on the time line. *)
Definition timeval_wf (tv : timeval) : Prop := 0 <= tv_usec tv < 1000000.
Definition timeval_usecs (tv : timeval) : Z := tv_sec tv * 1000000 + tv_usec tv.


(** What the ARP program is meant to select: seen from the Ethernet
    header, EtherType ARP and the ARP operation REPLY; seen from the ARP
    header, the operation alone, the load at offset 12 still being made. *)
Definition arp_link_match (pkt : list byte) : bool :=
  match ld_h pkt 12, ld_h pkt 20 with
  | Some ethertype, Some op =>
      (ethertype =? ETHERTYPE_ARP) && (op =? ARPOP_REPLY)
  | _, _ => false
  end.
Definition arp_cooked_match (pkt : list byte) : bool :=
  match ld_h pkt 12, ld_h pkt 6 with
  | Some _, Some op => op =? ARPOP_REPLY
  | _, _ => false
  end.

(** The EtherType field of a 14-byte link-layer header. *)
Definition eth_type (eth : list byte) : option Z := ld_h eth 12.

(** ** Sending *)




(** ** Well-formed states of the capture layer *)

(** Pointers from [next_ptr] on are not in use. *)
Definition heap_fresh (s : state) : Prop :=
  forall p, (next_ptr s <= p)%nat ->
    captures s !! p = None /\ sockets s !! p = None.

(** The capture handle of a device, when it has one, is a live capture
    that points back at the device and has a live socket wrapper, which
    points back at the capture, and a receive buffer of [mtu] bytes. *)
Definition device_linked (s : state) (dp : nat) : Prop :=
  forall d cp,
    devices s !! dp = Some d -> capture d = Some cp ->
    exists cap sp sk buf,
      captures s !! cp = Some cap /\ dev cap = Some dp
      /\ sock cap = Some sp /\ sockets s !! sp = Some sk
      /\ user_data sk = Some cp
      /\ buffer cap = Some buf /\ length buf = Z.to_nat (mtu cap).

(** What ni_capture_open leaves behind when it succeeds: the capture, not
    yet tied to a device, with the receive buffer [buf] that malloc gave
    it, and its activated socket wrapper. *)
Definition capture_mtu (d : ni_dhcp_device_t) : Z :=
  if system_mtu d =? 0 then MTU_MAX else system_mtu d.
Definition opened_capture (d : ni_dhcp_device_t) (proto : Z)
    (brdaddr : list byte) (sp : nat) (buf : list byte) : ni_capture_t :=
  {| dev := None; sock := Some sp; protocol := proto;
     sll := {| sll_family := AF_PACKET;
               sll_protocol := htons proto;
               sll_ifindex := system_ifindex d;
               sll_hatype := htons (system_arp_type d);
               sll_halen := Z.of_nat (length brdaddr);
               sll_addr := brdaddr |};
     buffer := Some buf;
     mtu := capture_mtu d |}.
Definition opened_socket (fd : Z) (cp : nat) (cb : data_ready_fn) : ni_socket_t :=
  {| __fd := fd; error := false; user_data := Some cp;
     data_ready := Some cb; get_timeout := None; check_timeout := None;
     active := true |}.

(** The system calls of a run that fails do not leave a descriptor open:
    none was made, or the one call of socket() failed, or the descriptor
    that socket() returned is closed by the last call. *)
Definition no_fd_left (fd : Z) (calls : list syscall) : Prop :=
  calls = []
  \/ (fd < 0 /\ exists c, calls = [c])
  \/ (0 <= fd /\ exists mid, calls = mid ++ [sys_close fd]).

(** The massage of ni_capture_set_filter, applied when [done] is not set. *)
Definition massage_dhcp (done : bool) (d : list sock_filter) : list sock_filter :=
  if done then d
  else alter (sub_k ETH_HLEN) 7%nat
         (alter (sub_k ETH_HLEN) 6%nat
            (alter (sub_k ETH_HLEN) 4%nat
               (alter (sub_k ETH_HLEN) 2%nat (alter (set_jf 0) 1%nat d)))).
Definition massage_arp (done : bool) (a : list sock_filter) : list sock_filter :=
  if done then a
  else alter (sub_k ETH_HLEN) 2%nat (alter (set_jf 0) 1%nat a).

(** The installed capture of a device can be kept by an open for [proto]:
    it has a socket wrapper without error and is for the same protocol. *)
Definition reuse_ok (s : state) (d : ni_dhcp_device_t) (proto : Z) : bool :=
  match capture d with
  | Some cp =>
      match captures s !! cp with
      | Some cap =>
          match sock cap with
          | Some sp =>
              match sockets s !! sp with
              | Some sk => negb (error sk) && (protocol cap =? proto)
              | None => false
              end
          | None => false
          end
      | None => false
      end
  | None => false
  end.

(** The capture and the socket wrapper of a device once
    __ni_dhcp_common_open has tied them together. *)
Definition linked_capture (dp : nat) (c : ni_capture_t) : ni_capture_t :=
  {| dev := Some dp; sock := sock c; protocol := protocol c;
     sll := sll c; buffer := buffer c; mtu := mtu c |}.
Definition hooked_socket (sk : ni_socket_t) : ni_socket_t :=
  {| __fd := __fd sk; error := error sk; user_data := user_data sk;
     data_ready := data_ready sk;
     get_timeout := Some __ni_dhcp_socket_get_timeout_fn;
     check_timeout := Some __ni_dhcp_socket_check_timeout_fn;
     active := active sk |}.

(** What read(fd, buffer, count) returns and leaves in the buffer, for the
    next incoming frame ([None]: the read fails). *)
Definition read_result (rx : option (list byte)) (count : Z) (buf : list byte)
  : Z * list byte :=
  match rx with
  | Some frame =>
      let got := firstn (Z.to_nat count) frame in
      (Z.of_nat (length got), got ++ skipn (length got) buf)
  | None => (-1, buf)
  end.
Definition set_buffer (b : list byte) (c : ni_capture_t) : ni_capture_t :=
  {| dev := dev c; sock := sock c; protocol := protocol c;
     sll := sll c; buffer := Some b; mtu := mtu c |}.

(** ** The frame as bytes

    The outbound frame written without reference to the host: the address
    fields and the two checksum fields are given as the bytes they occupy. *)
Definition wire_ip (tot_len : Z) (sum src dst : list byte) : list byte :=
  [byte_of_Z 0x45; byte_of_Z IPTOS_LOWDELAY] ++ net16 tot_len ++ net16 0
  ++ net16 IP_DF ++ [byte_of_Z IPDEFTTL; byte_of_Z IPPROTO_UDP]
  ++ sum ++ src ++ dst.
Definition wire_udp (ulen : Z) (sum : list byte) : list byte :=
  net16 DHCP_CLIENT_PORT ++ net16 DHCP_SERVER_PORT ++ net16 ulen ++ sum.
Definition wire_pseudo (src dst : list byte) (ulen : Z) : list byte :=
  src ++ dst ++ [x00; byte_of_Z IPPROTO_UDP] ++ net16 ulen.

(** The destination as ni_dhcp_build_send_header writes it: the limited
    broadcast address in place of 0.0.0.0. *)
Definition wire_dst (dst : list byte) : list byte :=
  if forallb (fun b => Z_of_byte b =? 0) dst then [xff; xff; xff; xff] else dst.

(** States that differ in what the kernel has been asked and in the log
    only. *)
Definition same_heaps (s s' : state) : Prop :=
  devices s' = devices s /\ captures s' = captures s
  /\ sockets s' = sockets s /\ next_ptr s' = next_ptr s.


(** ** The Internet checksum on the wire

    The checksum of RFC 1071, on the bytes of a block and without reference
    to the host's byte order or to the checksum functions of the code: the
    bytes are paired into 16-bit words in network order, a last odd byte
    being the high byte of a word; the words are added with end-around
    carry (addition modulo 0xffff, a non-zero multiple of 0xffff giving
    0xffff and not 0), and the checksum is the complement of that sum.  A
    block that carries its own checksum verifies when its checksum is 0. *)
Fixpoint inet_sum (l : list byte) : Z :=
  match l with
  | a :: b :: r => 256 * Z_of_byte a + Z_of_byte b + inet_sum r
  | [a] => 256 * Z_of_byte a
  | [] => 0
  end.
Definition end_around_carry (s : Z) : Z :=
  if s =? 0 then 0 else (s - 1) mod 65535 + 1.
Definition inet_checksum (l : list byte) : Z :=
  65535 - end_around_carry (inet_sum l).

(** The pseudo-header of the UDP datagram at [uh] in the IP packet at
    [iph]: source address, destination address, a zero byte, the protocol
    and the UDP length, as the packet holds them. *)
Definition udp_pseudo_header (m : list byte) (iph uh : Z) : list byte :=
  bytes_at m (iph + ip_src_off) 4 ++ bytes_at m (iph + ip_dst_off) 4
  ++ [x00; byte_at m (iph + ip_p_off)] ++ bytes_at m (uh + uh_ulen_off) 2.


(** The same conditions with the UDP checksum taken over the pseudo-header
    and everything that was read behind the IP header: the UDP header and
    all the bytes after it, whether the datagram ends there or earlier. *)
Definition valid_read (m : list byte) (data bytes : Z) : Prop :=
  let ihl := 4 * ip_hl m data in
  let uh := data + ihl in
  ip_v m data = 4
  /\ 5 <= ip_hl m data
  /\ ntohs (load16 m (data + ip_len_off)) <= bytes
  /\ inet_checksum (bytes_at m data ihl) = 0
  /\ load8 m (data + ip_p_off) = IPPROTO_UDP
  /\ inet_checksum (udp_pseudo_header m data uh
                    ++ bytes_at m uh (bytes - ihl)) = 0.
(** * Properties *)

(** ** Bytes and the checksum fold *)

Lemma Z_of_byte_range b : 0 <= Z_of_byte b < 256.
Proof.
  unfold Z_of_byte. pose proof (Byte.to_N_bounded b). lia.
Qed.

Lemma Z_of_byte_of_Z z : Z_of_byte (byte_of_Z z) = u8 z.
Proof.
  unfold Z_of_byte, byte_of_Z, u8.
  assert (H : 0 <= z mod 256 < 256) by (apply Z.mod_pos_bound; lia).
  destruct (Byte.of_N (Z.to_N (z mod 256))) as [b|] eqn:E.
  - apply Byte.to_of_N in E. rewrite E. lia.
  - apply Byte.of_N_None_iff in E. lia.
Qed.

Lemma byte_of_Z_of_byte b : byte_of_Z (Z_of_byte b) = b.
Proof.
  unfold byte_of_Z, Z_of_byte, u8.
  pose proof (Byte.to_N_bounded b).
  rewrite Z.mod_small by lia. rewrite N2Z.id, Byte.of_to_N. reflexivity.
Qed.

Lemma checksum_fold_range s : 0 <= checksum_fold s < 65536.
Proof. unfold checksum_fold, u16. apply Z.mod_pos_bound. lia. Qed.

Lemma checksum_fold_arith s :
  0 <= s < 4294967296 ->
  checksum_fold s =
    (let t := s / 65536 + s mod 65536 in
     65535 - (t + t / 65536) mod 65536).
Proof.
  intros Hs. unfold checksum_fold, u32, u16.
  rewrite (Z.shiftr_div_pow2 s 16) by lia.
  change (Z.land s 65535) with (Z.land s (Z.ones 16)). rewrite Z.land_ones by lia.
  change (2 ^ 16) with 65536.
  assert (0 <= s / 65536 < 65536) by (split; [apply Z.div_pos; lia | apply Z.div_lt_upper_bound; lia]).
  assert (0 <= s mod 65536 < 65536) by (apply Z.mod_pos_bound; lia).
  rewrite (Z.mod_small (s / 65536 + s mod 65536)) by lia.
  cbv zeta. set (t := s / 65536 + s mod 65536) in *.
  rewrite Z.shiftr_div_pow2 by lia. change (2 ^ 16) with 65536.
  assert (0 <= t / 65536 < 2) by (split; [apply Z.div_pos; lia | apply Z.div_lt_upper_bound; lia]).
  rewrite (Z.mod_small (t + t / 65536)) by lia.
  unfold Z.lnot. 
  replace (Z.pred (- (t + t / 65536))) with ((65535 - (t + t / 65536) mod 65536) + (-1 - (t + t / 65536) / 65536) * 65536).
  2:{ pose proof (Z_div_mod_eq_full (t + t / 65536) 65536). lia. }
  rewrite Z.mod_add by lia.
  apply Z.mod_small.
  pose proof (Z.mod_pos_bound (t + t / 65536) 65536 ltac:(lia)). lia.
Qed.

Lemma checksum_fold_zero_iff s :
  0 <= s < 4294967296 ->
  checksum_fold s = 0 <-> (s mod 65535 = 0 /\ s <> 0).
Proof.
  intros Hs. rewrite checksum_fold_arith by assumption. cbv zeta.
  pose proof (Z_div_mod_eq_full s 65536) as E.
  assert (Hq : 0 <= s / 65536 < 65536) by (split; [apply Z.div_pos; lia | apply Z.div_lt_upper_bound; lia]).
  assert (Hr : 0 <= s mod 65536 < 65536) by (apply Z.mod_pos_bound; lia).
  set (q := s / 65536) in *. set (r := s mod 65536) in *.
  assert (Hm : s mod 65535 = (q + r) mod 65535).
  { rewrite E. replace (65536 * q + r) with (q + r + q * 65535) by lia.
    apply Z.mod_add. lia. }
  rewrite Hm. clearbody q r.
  assert (C : q + r < 65536 \/ 65536 <= q + r) by lia.
  destruct C as [C|C].
  - rewrite (Z.div_small (q + r)) by lia. rewrite Z.add_0_r.
    rewrite (Z.mod_small (q + r) 65536) by lia.
    assert (D : q + r < 65535 \/ q + r = 65535) by lia. destruct D as [D|D].
    + rewrite (Z.mod_small (q + r) 65535) by lia. lia.
    + rewrite D. change (65535 mod 65535) with 0. lia.
  - assert (Hd : (q + r) / 65536 = 1).
    { symmetry. apply (Z.div_unique (q + r) 65536 1 (q + r - 65536)); lia. }
    rewrite Hd.
    assert (Hmm : (q + r + 1) mod 65536 = q + r + 1 - 65536).
    { symmetry. apply (Z.mod_unique (q + r + 1) 65536 1); lia. }
    rewrite Hmm.
    assert (Hm2 : (q + r < 131070 /\ (q + r) mod 65535 = q + r - 65535) \/ (q + r = 131070 /\ (q + r) mod 65535 = 0)).
    { assert (D : q + r < 131070 \/ q + r = 131070) by lia. destruct D as [D|D].
      - left. split; [lia|]. symmetry. apply (Z.mod_unique (q + r) 65535 1); lia.
      - right. split; [lia|]. rewrite D. reflexivity. }
    lia.
Qed.

Lemma checksum_fold_complement s :
  0 <= s < 4294967296 ->
  (s + checksum_fold s) mod 65535 = 0.
Proof.
  intros Hs. rewrite checksum_fold_arith by assumption. cbv zeta.
  pose proof (Z_div_mod_eq_full s 65536) as E.
  assert (Hq : 0 <= s / 65536 < 65536) by (split; [apply Z.div_pos; lia | apply Z.div_lt_upper_bound; lia]).
  assert (Hr : 0 <= s mod 65536 < 65536) by (apply Z.mod_pos_bound; lia).
  set (q := s / 65536) in *. set (r := s mod 65536) in *.
  rewrite E at 1. clearbody q r.
  assert (C : q + r < 65536 \/ 65536 <= q + r) by lia.
  destruct C as [C|C].
  - rewrite (Z.div_small (q + r)) by lia. rewrite Z.add_0_r.
    rewrite (Z.mod_small (q + r) 65536) by lia.
    replace (65536 * q + r + (65535 - (q + r))) with (0 + (q + 1) * 65535) by lia.
    rewrite Z.mod_add by lia. reflexivity.
  - assert (Hd : (q + r) / 65536 = 1).
    { symmetry. apply (Z.div_unique (q + r) 65536 1 (q + r - 65536)); lia. }
    rewrite Hd.
    assert (Hmm : (q + r + 1) mod 65536 = q + r + 1 - 65536).
    { symmetry. apply (Z.mod_unique (q + r + 1) 65536 1); lia. }
    rewrite Hmm.
    replace (65536 * q + r + (65535 - (q + r + 1 - 65536))) with (0 + (q + 2) * 65535) by lia.
    rewrite Z.mod_add by lia. reflexivity.
Qed.
(** ** Loads, stores and the checksum loop *)

Lemma load8_range m p : 0 <= load8 m p < 256.
Proof. apply Z_of_byte_range. Qed.

Lemma load16_range m p : 0 <= load16 m p < 65536.
Proof.
  pose proof (load8_range m p). pose proof (load8_range m (p + 1)).
  unfold load16. destruct big_endian; lia.
Qed.

Lemma odd_word_range m p : 0 <= odd_word m p < 65536.
Proof.
  pose proof (load8_range m p) as H.
  unfold odd_word, htons, bswap16, u16, u8.
  rewrite (Z.mod_small (load8 m p)) by lia.
  rewrite Z.shiftl_mul_pow2 by lia. change (2 ^ 8) with 256.
  rewrite (Z.mod_small (load8 m p * 256) 65536) by lia.
  destruct big_endian.
  - apply Z.mod_pos_bound; lia.
  - rewrite Z.div_mul by lia. rewrite Z.mod_mul by lia.
    rewrite Z.mod_small by lia. lia.
Qed.

Lemma wordsum_range m n p :
  0 <= wordsum m p n <= 65535 * Z.of_nat n.
Proof.
  revert p. induction n as [|n IH]; intros p; simpl wordsum.
  - lia.
  - specialize (IH (p + 2)). pose proof (load16_range m p). lia.
Qed.

Lemma region_sum_range m p len :
  0 <= len < 65536 -> 0 <= region_sum m p len <= 65535 * 32768.
Proof.
  intros Hlen. unfold region_sum.
  pose proof (wordsum_range m (Z.to_nat (len / 2)) p) as Hw.
  assert (0 <= len / 2 < 32768)
    by (split; [apply Z.div_pos; lia | apply Z.div_lt_upper_bound; lia]).
  rewrite Z2Nat.id in Hw by lia.
  pose proof (odd_word_range m (p + 2 * (len / 2))).
  destruct (len mod 2 =? 1); lia.
Qed.

Lemma u32_add_idemp a b : u32 (u32 a + b) = u32 (a + b).
Proof. unfold u32. apply Zplus_mod_idemp_l. Qed.

Lemma checksum_loop_spec m n :
  forall fuel sum p len,
    0 <= len < 65536 -> len / 2 = Z.of_nat n -> (Z.to_nat len <= fuel)%nat ->
    0 <= sum < 4294967296 ->
    checksum_loop fuel m sum p len
    = (u32 (sum + wordsum m p n), p + 2 * Z.of_nat n, len mod 2).
Proof.
  induction n as [|n IH]; intros fuel sum p len Hlen Hn Hfuel Hsum.
  - assert (Hl : len = 0 \/ len = 1).
    { pose proof (Z_div_mod_eq_full len 2).
      pose proof (Z.mod_pos_bound len 2 ltac:(lia)). lia. }
    simpl wordsum. rewrite Z.add_0_r. unfold u32.
    rewrite (Z.mod_small sum) by lia.
    replace (p + 2 * Z.of_nat 0) with p by lia.
    destruct Hl as [-> | ->]; destruct fuel; reflexivity.
  - assert (Hl : 2 <= len).
    { pose proof (Z_div_mod_eq_full len 2).
      pose proof (Z.mod_pos_bound len 2 ltac:(lia)). lia. }
    destruct fuel as [|fuel]; [lia|].
    cbn [checksum_loop].
    destruct (Z.ltb_spec 1 len) as [_|?]; [|lia].
    assert (Hu : u16 (len - 2) = len - 2) by (unfold u16; apply Z.mod_small; lia).
    rewrite Hu.
    assert (Hd : (len - 2) / 2 = Z.of_nat n).
    { replace (len - 2) with (len + (-1) * 2) by lia.
      rewrite Z.div_add by lia. lia. }
    rewrite (IH fuel (u32 (sum + load16 m p)) (p + 2) (len - 2)); try lia.
    + rewrite u32_add_idemp. cbn [wordsum].
      replace (len - 2) with (len + (-1) * 2) by lia. rewrite Z.mod_add by lia.
      replace (p + 2 + 2 * Z.of_nat n) with (p + 2 * Z.of_nat (S n)) by lia.
      rewrite Z.add_assoc. reflexivity.
    + unfold u32. apply Z.mod_pos_bound. lia.
Qed.

Lemma checksum_partial_spec m sum p len :
  0 <= len < 65536 -> 0 <= sum < 4294967296 ->
  checksum_partial sum m p len = u32 (sum + region_sum m p len).
Proof.
  intros Hlen Hsum. unfold checksum_partial, region_sum.
  assert (Hq : 0 <= len / 2) by (apply Z.div_pos; lia).
  rewrite (checksum_loop_spec m (Z.to_nat (len / 2))); try lia.
  rewrite Z2Nat.id by lia.
  pose proof (Z.mod_pos_bound len 2 ltac:(lia)).
  destruct (Z.eqb_spec (len mod 2) 1) as [E|E].
  - rewrite u32_add_idemp. unfold odd_word. f_equal. lia.
  - rewrite Z.add_0_r. reflexivity.
Qed.

(** ** Sums over byte lists *)

Lemma load8_app_r pre l k :
  0 <= k -> load8 (pre ++ l) (Z.of_nat (length pre) + k) = load8 l k.
Proof.
  intros Hk. unfold load8. f_equal.
  replace (Z.to_nat (Z.of_nat (length pre) + k))
    with (length pre + Z.to_nat k)%nat by lia.
  rewrite app_nth2 by lia. f_equal. lia.
Qed.

Lemma load8_app_0 pre l :
  load8 (pre ++ l) (Z.of_nat (length pre)) = load8 l 0.
Proof.
  rewrite <- (load8_app_r pre l 0) by lia. f_equal. lia.
Qed.

Lemma load8_cons_0 b l : load8 (b :: l) 0 = Z_of_byte b.
Proof. reflexivity. Qed.

Lemma load8_cons_S b l k : 0 <= k -> load8 (b :: l) (k + 1) = load8 l k.
Proof.
  intros Hk. unfold load8. f_equal.
  replace (Z.to_nat (k + 1)) with (S (Z.to_nat k)) by lia. reflexivity.
Qed.

Lemma byte_weight_pos f : 0 < byte_weight f.
Proof. unfold byte_weight. destruct f, big_endian; lia. Qed.

Lemma lsum_app f l1 l2 :
  lsum f (l1 ++ l2)
  = lsum f l1 + lsum (if Nat.even (length l1) then f else negb f) l2.
Proof.
  revert f. induction l1 as [|b l1 IH]; intros f.
  - simpl. reflexivity.
  - cbn [app lsum]. rewrite IH.
    replace (length (b :: l1)) with (S (length l1)) by reflexivity.
    rewrite Nat.even_succ, <- Nat.negb_even.
    destruct (Nat.even (length l1)); cbn [negb]; rewrite ?negb_involutive; lia.
Qed.

Lemma lsum_range f l : 0 <= lsum f l <= 256 * 255 * Z.of_nat (length l).
Proof.
  revert f. induction l as [|b l IH]; intros f; cbn [lsum length].
  - lia.
  - specialize (IH (negb f)). pose proof (Z_of_byte_range b).
    assert (0 < byte_weight f <= 256) by (unfold byte_weight; destruct f, big_endian; lia).
    nia.
Qed.

Lemma lsum_pair_range f a b l :
  lsum f (a :: b :: l) <= 65535 + lsum f l.
Proof.
  cbn [lsum]. rewrite negb_involutive.
  pose proof (Z_of_byte_range a). pose proof (Z_of_byte_range b).
  unfold byte_weight. destruct f, big_endian; cbn [negb]; lia.
Qed.

(** A tighter bound: each 16-bit word contributes at most 65535. *)
Lemma lsum_word_bound l :
  forall n f, (length l <= 2 * n)%nat -> lsum f l <= 65535 * Z.of_nat n.
Proof.
  intros n. revert l. induction n as [|n IH]; intros l f Hl.
  - destruct l; [simpl; lia | simpl in Hl; lia].
  - destruct l as [|a [|b l]].
    + simpl. lia.
    + cbn [lsum]. pose proof (Z_of_byte_range a).
      assert (0 < byte_weight f <= 256) by (unfold byte_weight; destruct f, big_endian; lia).
      nia.
    + pose proof (lsum_pair_range f a b l).
      specialize (IH l f). cbn [length] in Hl.
      assert (length l <= 2 * n)%nat by lia. specialize (IH H0). lia.
Qed.

Lemma wordsum_lsum n :
  forall pre l post,
    length l = (2 * n)%nat ->
    wordsum (pre ++ l ++ post) (Z.of_nat (length pre)) n = lsum true l.
Proof.
  induction n as [|n IH]; intros pre l post Hl.
  - destruct l; [reflexivity | simpl in Hl; lia].
  - destruct l as [|a [|b l]]; try (simpl in Hl; lia).
    cbn [wordsum lsum negb].
    assert (E : load16 (pre ++ (a :: b :: l) ++ post) (Z.of_nat (length pre))
                = byte_weight true * Z_of_byte a + byte_weight false * Z_of_byte b).
    { unfold load16. rewrite load8_app_0, load8_app_r by lia.
      cbn [app]. rewrite load8_cons_0.
      rewrite (load8_cons_S a _ 0), load8_cons_0 by lia.
      unfold byte_weight. destruct big_endian; lia. }
    rewrite E.
    replace (pre ++ (a :: b :: l) ++ post) with ((pre ++ [a; b]) ++ l ++ post)
      by (rewrite <- app_assoc; reflexivity).
    replace (Z.of_nat (length pre) + 2) with (Z.of_nat (length (pre ++ [a; b])))
      by (rewrite length_app; simpl; lia).
    rewrite IH by (simpl in Hl; lia). lia.
Qed.

Lemma odd_word_weight m p : odd_word m p = byte_weight true * load8 m p.
Proof.
  pose proof (load8_range m p) as H.
  unfold odd_word, htons, bswap16, u16, u8, byte_weight.
  rewrite (Z.mod_small (load8 m p)) by lia.
  rewrite Z.shiftl_mul_pow2 by lia. change (2 ^ 8) with 256.
  rewrite (Z.mod_small (load8 m p * 256) 65536) by lia.
  destruct big_endian.
  - rewrite Z.mod_small by lia. lia.
  - rewrite Z.div_mul by lia. rewrite Z.mod_mul by lia.
    rewrite Z.mod_small by lia. lia.
Qed.

Lemma region_sum_lsum pre l post :
  region_sum (pre ++ l ++ post) (Z.of_nat (length pre)) (Z.of_nat (length l))
  = lsum true l.
Proof.
  unfold region_sum.
  set (n := Z.to_nat (Z.of_nat (length l) / 2)).
  assert (Hq : Z.of_nat (length l) / 2 = Z.of_nat n)
    by (unfold n; rewrite Z2Nat.id by (apply Z.div_pos; lia); reflexivity).
  pose proof (Z_div_mod_eq_full (Z.of_nat (length l)) 2) as Hn.
  pose proof (Z.mod_pos_bound (Z.of_nat (length l)) 2 ltac:(lia)) as Hr.
  rewrite Hq in *. clearbody n.
  assert (Hl1 : length (firstn (2 * n) l) = (2 * n)%nat) by (rewrite length_take; lia).
  pose proof (length_skipn (2 * n) l) as Hl2.
  pose proof (firstn_skipn (2 * n) l) as El.
  set (l1 := firstn (2 * n) l) in *. set (l2 := skipn (2 * n) l) in *.
  clearbody l1 l2. subst l. rewrite length_app in *.
  rewrite <- app_assoc, wordsum_lsum by assumption.
  rewrite lsum_app. rewrite Hl1 in *.
  replace (Nat.even (2 * n)) with true
    by (symmetry; apply Nat.even_spec; exists n; lia).
  f_equal.
  destruct (Z.eqb_spec (Z.of_nat (2 * n + length l2) mod 2) 1) as [E|E].
  - destruct l2 as [|b [|c r]]; cbn [length] in *; try lia.
    cbn [lsum]. rewrite Z.add_0_r, odd_word_weight. f_equal.
    replace (Z.of_nat (length pre) + 2 * Z.of_nat n)
      with (Z.of_nat (length (pre ++ l1))) by (rewrite length_app; lia).
    rewrite app_assoc, load8_app_0. reflexivity.
  - destruct l2; cbn [length] in *; [reflexivity | lia].
Qed.

Lemma bytes_at_length m p len :
  0 <= p -> 0 <= len -> p + len <= Z.of_nat (length m) ->
  length (bytes_at m p len) = Z.to_nat len.
Proof.
  intros. unfold bytes_at. rewrite length_take, length_skipn. lia.
Qed.

Lemma bytes_at_split m p len :
  0 <= p -> 0 <= len -> p + len <= Z.of_nat (length m) ->
  m = firstn (Z.to_nat p) m ++ bytes_at m p len
      ++ skipn (Z.to_nat len) (skipn (Z.to_nat p) m).
Proof.
  intros. unfold bytes_at. rewrite firstn_skipn, firstn_skipn. reflexivity.
Qed.

Lemma region_sum_bytes_at m p len :
  0 <= p -> 0 <= len -> p + len <= Z.of_nat (length m) ->
  region_sum m p len = lsum true (bytes_at m p len).
Proof.
  intros Hp Hlen Hb.
  pose proof (region_sum_lsum (firstn (Z.to_nat p) m) (bytes_at m p len)
                (skipn (Z.to_nat len) (skipn (Z.to_nat p) m))) as H.
  rewrite <- bytes_at_split in H by assumption.
  rewrite length_take, bytes_at_length in H by assumption.
  replace (Z.of_nat (Z.to_nat p `min` length m)) with p in H by lia.
  replace (Z.of_nat (Z.to_nat len)) with len in H by lia.
  exact H.
Qed.

Lemma lsum_region_bound m p len :
  0 <= len -> lsum true (bytes_at m p len) <= 65535 * (len / 2 + 1).
Proof.
  intros Hlen.
  pose proof (lsum_word_bound (bytes_at m p len) (Z.to_nat (len / 2 + 1)) true) as H.
  assert (0 <= len / 2) by (apply Z.div_pos; lia).
  rewrite Z2Nat.id in H by lia. apply H.
  unfold bytes_at. rewrite length_take.
  pose proof (Z_div_mod_eq_full len 2).
  pose proof (Z.mod_pos_bound len 2 ltac:(lia)). lia.
Qed.

Lemma checksum_spec m p len :
  0 <= p -> 0 <= len < 65536 -> p + len <= Z.of_nat (length m) ->
  checksum m p len = checksum_fold (lsum true (bytes_at m p len)).
Proof.
  intros Hp Hlen Hb. unfold checksum.
  replace (u16 len) with len by (unfold u16; rewrite Z.mod_small; lia).
  rewrite checksum_partial_spec by lia.
  rewrite Z.add_0_l, region_sum_bytes_at by lia.
  pose proof (lsum_region_bound m p len ltac:(lia)).
  pose proof (lsum_range true (bytes_at m p len)).
  assert (len / 2 < 32768) by (apply Z.div_lt_upper_bound; lia).
  unfold u32. rewrite Z.mod_small by lia. reflexivity.
Qed.

Lemma byte_of_Z_u8 z : byte_of_Z (u8 z) = byte_of_Z z.
Proof.
  unfold byte_of_Z, u8. rewrite Z.mod_mod by lia. reflexivity.
Qed.

Lemma byte_of_Z_eq a b : u8 a = u8 b -> byte_of_Z a = byte_of_Z b.
Proof. intros H. rewrite <- (byte_of_Z_u8 a), <- (byte_of_Z_u8 b), H. reflexivity. Qed.

(** Copying a 16-bit or 32-bit field through a host-order load and store
    copies its bytes. *)
Lemma store16_load16 fh q m p :
  store16 fh q (load16 m p)
  = store8 (store8 fh q (load8 m p)) (q + 1) (load8 m (p + 1)).
Proof.
  pose proof (load8_range m p). pose proof (load8_range m (p + 1)).
  unfold store16, load16, store8. destruct big_endian.
  - f_equal; [|f_equal]; apply byte_of_Z_eq; unfold u8.
    + rewrite Z.add_comm, Z.mod_add by lia. reflexivity.
    + rewrite Z.div_add_l, (Z.div_small (load8 m (p + 1))) by lia.
      rewrite Z.add_0_r. reflexivity.
  - f_equal; [|f_equal]; apply byte_of_Z_eq; unfold u8.
    + rewrite Z.div_add, (Z.div_small (load8 m p)) by lia. reflexivity.
    + rewrite Z.mod_add by lia. reflexivity.
Qed.

Lemma store32_load32 fh q m p :
  store32 fh q (load32 m p)
  = store8 (store8 (store8 (store8 fh q (load8 m p)) (q + 1) (load8 m (p + 1)))
              (q + 2) (load8 m (p + 2))) (q + 3) (load8 m (p + 3)).
Proof.
  pose proof (load16_range m p). pose proof (load16_range m (p + 2)).
  assert (E1 : forall a b, 0 <= b < 65536 -> (a * 65536 + b) / 65536 = a)
    by (intros; rewrite Z.div_add_l, Z.div_small by lia; lia).
  assert (E2 : forall a b, 0 <= a < 65536 -> (a + b * 65536) / 65536 = b)
    by (intros; rewrite Z.div_add, Z.div_small by lia; lia).
  replace (q + 3) with (q + 2 + 1) by lia.
  replace (p + 3) with (p + 2 + 1) by lia.
  rewrite <- !store16_load16.
  unfold store32, load32. destruct big_endian.
  - rewrite E1 by lia.
    assert (E : forall x v w, u16 v = u16 w -> store16 x (q + 2) v = store16 x (q + 2) w).
    { intros x v w Hvw. unfold store16, store8, u16 in *.
      destruct big_endian; f_equal; [|f_equal| |f_equal]; apply byte_of_Z_eq; unfold u8.
      - replace 65536 with (256 * 256) in Hvw by lia.
        rewrite !Z.rem_mul_r in Hvw by lia.
        pose proof (Z.mod_pos_bound v 256 ltac:(lia)).
        pose proof (Z.mod_pos_bound w 256 ltac:(lia)). lia.
      - replace 65536 with (256 * 256) in Hvw by lia.
        rewrite !Z.rem_mul_r in Hvw by lia.
        pose proof (Z.mod_pos_bound v 256 ltac:(lia)).
        pose proof (Z.mod_pos_bound w 256 ltac:(lia)).
        pose proof (Z.mod_pos_bound (v / 256) 256 ltac:(lia)).
        pose proof (Z.mod_pos_bound (w / 256) 256 ltac:(lia)). lia.
      - replace 65536 with (256 * 256) in Hvw by lia.
        rewrite !Z.rem_mul_r in Hvw by lia.
        pose proof (Z.mod_pos_bound v 256 ltac:(lia)).
        pose proof (Z.mod_pos_bound w 256 ltac:(lia)).
        pose proof (Z.mod_pos_bound (v / 256) 256 ltac:(lia)).
        pose proof (Z.mod_pos_bound (w / 256) 256 ltac:(lia)). lia.
      - replace 65536 with (256 * 256) in Hvw by lia.
        rewrite !Z.rem_mul_r in Hvw by lia.
        pose proof (Z.mod_pos_bound v 256 ltac:(lia)).
        pose proof (Z.mod_pos_bound w 256 ltac:(lia)). lia. }
    apply E. unfold u16. rewrite Z.add_comm, Z.mod_add by lia. reflexivity.
  - rewrite E2 by lia. f_equal.
    unfold store16, store8.
    destruct big_endian; f_equal; [|f_equal| |f_equal]; apply byte_of_Z_eq; unfold u8.
    all: try (replace (load16 m (p + 2) * 65536) with (load16 m (p + 2) * 256 * 256) by lia;
              rewrite Z.mod_add by lia; reflexivity).
    all: replace (load16 m (p + 2) * 65536) with (load16 m (p + 2) * 256 * 256) by lia;
         rewrite Z.div_add by lia;
         replace (load16 m (p + 2) * 256 * 256) with (load16 m (p + 2) * 256 * 256) by lia;
         rewrite Z.add_comm; 
         replace (load16 m (p + 2) * 256 + load16 m p / 256) with (load16 m p / 256 + load16 m (p + 2) * 256) by lia;
         rewrite ?Z.mod_add by lia; reflexivity.
Qed.

Lemma store8_load8 fh q m p :
  store8 fh q (load8 m p) = <[Z.to_nat q := byte_at m p]> fh.
Proof. unfold store8, load8. rewrite byte_of_Z_of_byte. reflexivity. Qed.

Lemma fake_header_bytes m iph uh :
  fake_header m iph uh
  = [ byte_at m (iph + 12); byte_at m (iph + 12 + 1);
      byte_at m (iph + 12 + 2); byte_at m (iph + 12 + 3);
      byte_at m (iph + 16); byte_at m (iph + 16 + 1);
      byte_at m (iph + 16 + 2); byte_at m (iph + 16 + 3);
      x00; byte_at m (iph + 9);
      byte_at m (uh + 4); byte_at m (uh + 4 + 1) ].
Proof.
  unfold fake_header, ip_src_off, ip_dst_off, ip_p_off, uh_ulen_off.
  rewrite !store32_load32, store16_load16, !store8_load8.
  reflexivity.
Qed.

Lemma fake_header_length m iph uh : length (fake_header m iph uh) = 12%nat.
Proof. rewrite fake_header_bytes. reflexivity. Qed.

Lemma udp_sum_range m iph uh data len :
  0 <= udp_sum m iph uh data len < 4294967296.
Proof.
  unfold udp_sum.
  pose proof (lsum_range true (fake_header m iph uh)) as H1.
  pose proof (lsum_word_bound (fake_header m iph uh) 6 true) as H1'.
  rewrite fake_header_length in H1'. specialize (H1' ltac:(lia)).
  pose proof (lsum_range true (bytes_at m uh sizeof_udphdr)) as H2.
  pose proof (lsum_region_bound m uh sizeof_udphdr ltac:(unfold sizeof_udphdr; lia)) as H2'.
  change (sizeof_udphdr / 2 + 1) with 5 in H2'.
  pose proof (lsum_range true (bytes_at m data (u16 len))) as H3.
  assert (Hu : 0 <= u16 len < 65536) by (apply Z.mod_pos_bound; lia).
  pose proof (lsum_region_bound m data (u16 len) ltac:(lia)) as H3'.
  assert (u16 len / 2 < 32768) by (apply Z.div_lt_upper_bound; lia).
  lia.
Qed.

Lemma ipudp_checksum_spec m iph uh data len :
  0 <= uh -> uh + 8 <= Z.of_nat (length m) ->
  0 <= data -> data + u16 len <= Z.of_nat (length m) ->
  ipudp_checksum m iph uh data len = checksum_fold (udp_sum m iph uh data len).
Proof.
  intros Huh Hub Hd Hdb. unfold ipudp_checksum.
  assert (Hu : 0 <= u16 len < 65536) by (apply Z.mod_pos_bound; lia).
  pose proof (udp_sum_range m iph uh data len) as Hr. unfold udp_sum in Hr.
  pose proof (lsum_range true (fake_header m iph uh)) as H1.
  pose proof (lsum_range true (bytes_at m uh sizeof_udphdr)) as H2.
  pose proof (lsum_range true (bytes_at m data (u16 len))) as H3.
  assert (E1 : region_sum (fake_header m iph uh) 0 12 = lsum true (fake_header m iph uh)).
  { rewrite region_sum_bytes_at by (rewrite ?fake_header_length; lia).
    unfold bytes_at. rewrite fake_header_bytes. reflexivity. }
  rewrite (checksum_partial_spec (fake_header m iph uh) 0 0 12) by lia.
  rewrite E1, Z.add_0_l.
  unfold u32 at 1. rewrite (Z.mod_small (lsum true (fake_header m iph uh))) by lia.
  rewrite (checksum_partial_spec m _ uh) by (unfold sizeof_udphdr; lia).
  rewrite region_sum_bytes_at by (unfold sizeof_udphdr; lia).
  unfold u32 at 1. rewrite Z.mod_small by lia.
  rewrite checksum_partial_spec by lia.
  rewrite region_sum_bytes_at by lia.
  unfold u32. rewrite Z.mod_small by lia.
  reflexivity.
Qed.

(** ** Ingress validation *)

Lemma cph_accept_inv m data bytes pl p :
  cph_payload (check_packet_header m data bytes pl) = Some p ->
  let ihl := 4 * ip_hl m data in
  acceptable m data bytes
  /\ ihl <= bytes /\ sizeof_udphdr <= bytes - ihl
  /\ check_packet_header m data bytes pl
     = {| cph_payload := Some (data + ihl + sizeof_udphdr);
          cph_payload_len := ntohs (load16 m (data + ip_len_off));
          cph_debug := [] |}.
Proof.
  unfold check_packet_header, acceptable.
  rewrite Z.shiftl_mul_pow2 by lia. change (2 ^ 2) with 4.
  rewrite (Z.mul_comm (ip_hl m data) 4).
  set (ihl := 4 * ip_hl m data).
  destruct (Z.eqb_spec (ip_v m data) 4) as [Hv|Hv]; cbn [negb orb];
    [|intros H; discriminate H].
  destruct (Z.ltb_spec ihl 20) as [H1|H1]; [intros H; discriminate H|].
  destruct (Z.ltb_spec bytes ihl) as [H2|H2]; [intros H; discriminate H|].
  destruct (Z.eqb_spec (checksum m data ihl) 0) as [H3|H3]; cbn [negb];
    [|intros H; discriminate H].
  destruct (Z.ltb_spec bytes (ntohs (load16 m (data + ip_len_off)))) as [H4|H4];
    [intros H; discriminate H|].
  destruct (Z.eqb_spec (load8 m (data + ip_p_off)) IPPROTO_UDP) as [H5|H5];
    cbn [negb]; [|intros H; discriminate H].
  destruct (Z.ltb_spec (bytes - ihl) sizeof_udphdr) as [H6|H6];
    [intros H; discriminate H|].
  destruct (Z.eqb_spec (ipudp_checksum m data (data + ihl)
              (data + ihl + sizeof_udphdr) (bytes - ihl - sizeof_udphdr)) 0)
    as [H7|H7]; cbn [negb]; [|intros H; discriminate H].
  intros _. cbv zeta. fold ihl.
  repeat split; try assumption; unfold ihl in *; lia.
Qed.

Lemma cph_drop_cases m data bytes pl :
  cph_payload (check_packet_header m data bytes pl) = None ->
  cph_payload_len (check_packet_header m data bytes pl) = pl
  /\ exists msg, cph_debug (check_packet_header m data bytes pl) = [msg].
Proof.
  unfold check_packet_header.
  repeat match goal with
         | |- context [if ?c then _ else _] => destruct c
         end; cbn [cph_drop cph_payload cph_payload_len cph_debug];
    intros H; try discriminate H; eauto.
Qed.

Lemma cph_accept m data bytes pl :
  acceptable m data bytes ->
  4 * ip_hl m data <= bytes ->
  sizeof_udphdr <= bytes - 4 * ip_hl m data ->
  check_packet_header m data bytes pl
  = {| cph_payload := Some (data + 4 * ip_hl m data + sizeof_udphdr);
       cph_payload_len := ntohs (load16 m (data + ip_len_off));
       cph_debug := [] |}.
Proof.
  unfold acceptable. cbv zeta.
  intros (Hv & Hhl & Hlen & Hck & Hp & Hudp) Hb1 Hb2.
  unfold check_packet_header.
  rewrite Z.shiftl_mul_pow2 by lia. change (2 ^ 2) with 4.
  rewrite (Z.mul_comm (ip_hl m data) 4).
  rewrite Hv, Hck, Hp, Hudp. cbn [Z.eqb negb orb Pos.eqb].
  destruct (Z.ltb_spec (4 * ip_hl m data) 20); [lia|].
  destruct (Z.ltb_spec bytes (4 * ip_hl m data)); [lia|].
  destruct (Z.ltb_spec bytes (ntohs (load16 m (data + ip_len_off)))); [lia|].
  destruct (Z.ltb_spec (bytes - 4 * ip_hl m data) sizeof_udphdr); [lia|].
  reflexivity.
Qed.

(** ** Stores and loads behind a prefix *)

Lemma length_store8 m p v : length (store8 m p v) = length m.
Proof. apply length_insert. Qed.

Lemma length_store16 m p v : length (store16 m p v) = length m.
Proof. unfold store16. destruct big_endian; rewrite !length_store8; reflexivity. Qed.

Lemma length_store32 m p v : length (store32 m p v) = length m.
Proof. unfold store32. destruct big_endian; rewrite !length_store16; reflexivity. Qed.

Lemma length_set_ip_v m p v : length (set_ip_v m p v) = length m.
Proof. apply length_store8. Qed.

Lemma length_set_ip_hl m p v : length (set_ip_hl m p v) = length m.
Proof. apply length_store8. Qed.

Lemma store8_app_at pre l k v :
  0 <= k ->
  store8 (pre ++ l) (Z.of_nat (length pre) + k) v = pre ++ store8 l k v.
Proof.
  intros Hk. unfold store8.
  replace (Z.to_nat (Z.of_nat (length pre) + k))
    with (length pre + Z.to_nat k)%nat by lia.
  apply insert_app_r.
Qed.

Lemma store16_app_at pre l k v :
  0 <= k ->
  store16 (pre ++ l) (Z.of_nat (length pre) + k) v = pre ++ store16 l k v.
Proof.
  intros Hk. unfold store16.
  destruct big_endian; rewrite <- Z.add_assoc, !store8_app_at by lia; reflexivity.
Qed.

Lemma store32_app_at pre l k v :
  0 <= k ->
  store32 (pre ++ l) (Z.of_nat (length pre) + k) v = pre ++ store32 l k v.
Proof.
  intros Hk. unfold store32.
  destruct big_endian; rewrite <- Z.add_assoc, !store16_app_at by lia; reflexivity.
Qed.

Lemma load16_app_at pre l k :
  0 <= k -> load16 (pre ++ l) (Z.of_nat (length pre) + k) = load16 l k.
Proof.
  intros Hk. unfold load16.
  rewrite <- Z.add_assoc, !load8_app_r by lia. reflexivity.
Qed.

Lemma load32_app_at pre l k :
  0 <= k -> load32 (pre ++ l) (Z.of_nat (length pre) + k) = load32 l k.
Proof.
  intros Hk. unfold load32.
  rewrite <- Z.add_assoc, !load16_app_at by lia. reflexivity.
Qed.

Lemma set_ip_v_app_at pre l k v :
  0 <= k ->
  set_ip_v (pre ++ l) (Z.of_nat (length pre) + k) v = pre ++ set_ip_v l k v.
Proof.
  intros Hk. unfold set_ip_v. rewrite load8_app_r, store8_app_at by lia.
  reflexivity.
Qed.

Lemma set_ip_hl_app_at pre l k v :
  0 <= k ->
  set_ip_hl (pre ++ l) (Z.of_nat (length pre) + k) v = pre ++ set_ip_hl l k v.
Proof.
  intros Hk. unfold set_ip_hl. rewrite load8_app_r, store8_app_at by lia.
  reflexivity.
Qed.

Lemma byte_at_app_at pre l k :
  0 <= k -> byte_at (pre ++ l) (Z.of_nat (length pre) + k) = byte_at l k.
Proof.
  intros Hk. unfold byte_at.
  replace (Z.to_nat (Z.of_nat (length pre) + k))
    with (length pre + Z.to_nat k)%nat by lia.
  rewrite app_nth2 by lia. f_equal. lia.
Qed.

Lemma bytes_at_app_at pre l k len :
  0 <= k ->
  bytes_at (pre ++ l) (Z.of_nat (length pre) + k) len = bytes_at l k len.
Proof.
  intros Hk. unfold bytes_at.
  replace (Z.to_nat (Z.of_nat (length pre) + k))
    with (length pre + Z.to_nat k)%nat by lia.
  rewrite drop_app_add. reflexivity.
Qed.

Lemma checksum_app_at pre l k len :
  0 <= k -> 0 <= len < 65536 -> k + len <= Z.of_nat (length l) ->
  checksum (pre ++ l) (Z.of_nat (length pre) + k) len = checksum l k len.
Proof.
  intros Hk Hlen Hb.
  rewrite !checksum_spec by (rewrite ?length_app; lia).
  rewrite bytes_at_app_at by lia. reflexivity.
Qed.

Lemma fake_header_app_at pre l a b :
  0 <= a -> 0 <= b ->
  fake_header (pre ++ l) (Z.of_nat (length pre) + a) (Z.of_nat (length pre) + b)
  = fake_header l a b.
Proof.
  intros Ha Hb. rewrite !fake_header_bytes.
  rewrite <- !Z.add_assoc, !byte_at_app_at by lia. reflexivity.
Qed.

Lemma ipudp_checksum_app_at pre l a b c len :
  0 <= a -> 0 <= b -> 0 <= c ->
  b + 8 <= Z.of_nat (length l) -> c + u16 len <= Z.of_nat (length l) ->
  ipudp_checksum (pre ++ l) (Z.of_nat (length pre) + a)
    (Z.of_nat (length pre) + b) (Z.of_nat (length pre) + c) len
  = ipudp_checksum l a b c len.
Proof.
  intros Ha Hb Hc Hbb Hcb.
  assert (Hu : 0 <= u16 len < 65536) by (apply Z.mod_pos_bound; lia).
  rewrite !ipudp_checksum_spec by (rewrite ?length_app; lia).
  unfold udp_sum.
  rewrite fake_header_app_at, !bytes_at_app_at by lia. reflexivity.
Qed.

(** ** Building the outbound headers *)

Lemma store16_htons m p v :
  store16 m p (htons v) = store8 (store8 m p (v / 256)) (p + 1) v.
Proof.
  unfold store16, htons, bswap16, store8, u16, u8.
  destruct big_endian; f_equal; [|f_equal| |f_equal]; apply byte_of_Z_eq; unfold u8.
  - replace 65536 with (256 * 256) by lia. rewrite Z.rem_mul_r by lia.
    rewrite Z.mul_comm, Z.mod_add by lia. apply Z.mod_mod. lia.
  - replace 65536 with (256 * 256) by lia. rewrite Z.rem_mul_r by lia.
    rewrite (Z.mul_comm 256), Z.div_add by lia.
    rewrite (Z.div_small (v mod 256)) by (apply Z.mod_pos_bound; lia).
    rewrite Z.add_0_l. apply Z.mod_mod. lia.
  - rewrite Z.div_add_l by lia.
    rewrite (Z.div_small ((v / 256) mod 256)) by (apply Z.mod_pos_bound; lia).
    rewrite Z.add_0_r. apply Z.mod_mod. lia.
  - rewrite Z.add_comm, Z.mod_add by lia. apply Z.mod_mod. lia.
Qed.

Lemma vhl_byte b :
  byte_of_Z
    (Z.lor (Z.land (u8 (Z.lor (Z.shiftl (Z.land 4 15) 4) (Z.land (Z_of_byte b) 15))) 240)
       (Z.land 5 15))
  = byte_of_Z 69.
Proof. destruct b; reflexivity. Qed.

Lemma load8_store8_same m p v :
  0 <= p < Z.of_nat (length m) -> load8 (store8 m p v) p = u8 v.
Proof.
  intros Hp. unfold load8, store8.
  rewrite nth_lookup, list_lookup_insert_eq by lia.
  apply Z_of_byte_of_Z.
Qed.

Lemma load8_store8_other m p q v :
  0 <= p -> 0 <= q -> p <> q -> load8 (store8 m p v) q = load8 m q.
Proof.
  intros Hp Hq Hne. unfold load8, store8.
  rewrite !nth_lookup, list_lookup_insert_ne by lia. reflexivity.
Qed.

Lemma store8_store8_same m p a b : store8 (store8 m p a) p b = store8 m p b.
Proof. unfold store8. apply list_insert_insert_eq. Qed.

Lemma store8_comm m p q a b :
  0 <= p -> 0 <= q -> p <> q ->
  store8 (store8 m p a) q b = store8 (store8 m q b) p a.
Proof.
  intros Hp Hq Hne. unfold store8. apply list_insert_insert_ne. lia.
Qed.

Lemma load16_store16 m p v :
  0 <= p -> p + 2 <= Z.of_nat (length m) -> load16 (store16 m p v) p = u16 v.
Proof.
  intros Hp Hb. unfold load16, store16, u16.
  assert (E : v mod 65536 = u8 v + 256 * u8 (v / 256)).
  { unfold u8. replace 65536 with (256 * 256) by lia.
    rewrite Z.rem_mul_r by lia. reflexivity. }
  destruct big_endian.
  - rewrite load8_store8_same by (rewrite length_store8; lia).
    rewrite load8_store8_other, load8_store8_same by lia. lia.
  - rewrite load8_store8_same by (rewrite length_store8; lia).
    rewrite load8_store8_other, load8_store8_same by lia. lia.
Qed.

Lemma load16_store16_other m p q v :
  0 <= p -> 0 <= q -> (q + 2 <= p \/ p + 2 <= q) ->
  load16 (store16 m p v) q = load16 m q.
Proof.
  intros Hp Hq Hne. unfold load16, store16.
  destruct big_endian; rewrite !load8_store8_other by lia; reflexivity.
Qed.

Lemma store16_store16_same m p a b :
  0 <= p -> store16 (store16 m p a) p b = store16 m p b.
Proof.
  intros Hp. unfold store16. destruct big_endian.
  - rewrite (store8_comm (store8 m p (a / 256)) (p + 1) p) by lia.
    rewrite !store8_store8_same. reflexivity.
  - rewrite (store8_comm (store8 m p a) (p + 1) p) by lia.
    rewrite !store8_store8_same. reflexivity.
Qed.

Lemma store16_comm m p q a b :
  0 <= p -> 0 <= q -> (q + 2 <= p \/ p + 2 <= q) ->
  store16 (store16 m p a) q b = store16 (store16 m q b) p a.
Proof.
  intros Hp Hq Hne. unfold store16.
  destruct big_endian.
  - rewrite (store8_comm _ (p + 1) q), (store8_comm _ p q) by lia.
    rewrite (store8_comm _ (p + 1) (q + 1)), (store8_comm _ p (q + 1)) by lia.
    reflexivity.
  - rewrite (store8_comm _ (p + 1) q), (store8_comm _ p q) by lia.
    rewrite (store8_comm _ (p + 1) (q + 1)), (store8_comm _ p (q + 1)) by lia.
    reflexivity.
Qed.

Lemma load32_store32 m p v :
  0 <= p -> p + 4 <= Z.of_nat (length m) -> load32 (store32 m p v) p = u32 v.
Proof.
  intros Hp Hb. unfold load32, store32, u32.
  assert (E : v mod 4294967296 = u16 v + 65536 * u16 (v / 65536)).
  { unfold u16. replace 4294967296 with (65536 * 65536) by lia.
    rewrite Z.rem_mul_r by lia. reflexivity. }
  destruct big_endian.
  - rewrite load16_store16 by (rewrite ?length_store16; lia).
    rewrite load16_store16_other, load16_store16 by lia. lia.
  - rewrite load16_store16 by (rewrite ?length_store16; lia).
    rewrite load16_store16_other, load16_store16 by lia. lia.
Qed.

Lemma store32_store32_same m p a b :
  0 <= p -> store32 (store32 m p a) p b = store32 m p b.
Proof.
  intros Hp. unfold store32. destruct big_endian.
  - rewrite (store16_comm (store16 m p (a / 65536)) (p + 2) p) by lia.
    rewrite !store16_store16_same by lia. reflexivity.
  - rewrite (store16_comm (store16 m p a) (p + 2) p) by lia.
    rewrite !store16_store16_same by lia. reflexivity.
Qed.

Lemma store32_coerce m p dst :
  0 <= p -> p + 4 <= Z.of_nat (length m) ->
  (if load32 (store32 m p dst) p =? 0
   then store32 (store32 m p dst) p INADDR_BROADCAST
   else store32 m p dst)
  = store32 m p (coerce_dst dst).
Proof.
  intros Hp Hb. rewrite load32_store32 by assumption. unfold coerce_dst.
  destruct (u32 dst =? 0).
  - apply store32_store32_same. assumption.
  - reflexivity.
Qed.

Lemma set_ip_vhl m p :
  0 <= p < Z.of_nat (length m) ->
  set_ip_hl (set_ip_v m p 4) p 5 = store8 m p 69.
Proof.
  intros Hp. unfold set_ip_hl, set_ip_v.
  rewrite load8_store8_same, store8_store8_same by lia.
  unfold store8. f_equal. apply vhl_byte.
Qed.

Lemma ip_header_length tot sum src dst :
  length (ip_header tot sum src dst) = 20%nat.
Proof.
  unfold ip_header, host16, host32, net16, store32, store16.
  destruct big_endian; reflexivity.
Qed.

Lemma udp_header_length ulen sum : length (udp_header ulen sum) = 8%nat.
Proof.
  unfold udp_header, host16, net16, store16. destruct big_endian; reflexivity.
Qed.

Lemma pseudo_header_length src dst ulen :
  length (pseudo_header src dst ulen) = 12%nat.
Proof.
  unfold pseudo_header, host16, host32, net16, store32, store16.
  destruct big_endian; reflexivity.
Qed.

(** The three regions of a packet laid out as IP header, UDP header, data. *)
Lemma bytes_at_ip A B C :
  length A = 20%nat -> bytes_at (A ++ B ++ C) 0 20 = A.
Proof.
  intros HA. unfold bytes_at. change (Z.to_nat 0) with 0%nat.
  change (Z.to_nat 20) with 20%nat. rewrite drop_0, <- HA.
  apply take_app_length.
Qed.

Lemma bytes_at_udp A B C :
  length A = 20%nat -> length B = 8%nat -> bytes_at (A ++ B ++ C) 20 8 = B.
Proof.
  intros HA HB. unfold bytes_at.
  change (Z.to_nat 20) with 20%nat. change (Z.to_nat 8) with 8%nat.
  rewrite <- HA, drop_app_length, <- HB. apply take_app_length.
Qed.

Lemma bytes_at_data A B C n :
  length A = 20%nat -> length B = 8%nat ->
  bytes_at (A ++ B ++ C) 28 n = firstn (Z.to_nat n) C.
Proof.
  intros HA HB. unfold bytes_at. change (Z.to_nat 28) with (20 + 8)%nat.
  rewrite <- drop_drop, <- HA, drop_app_length, <- HB, drop_app_length.
  reflexivity.
Qed.

Ltac store_length :=
  repeat first
    [ rewrite length_store16 | rewrite length_store32 | rewrite length_store8
    | rewrite length_set_ip_v | rewrite length_set_ip_hl | rewrite length_app ];
  cbn [length].

Lemma build_frame pre hdr payload post src dst :
  length hdr = 28%nat ->
  Z.of_nat (length payload) + 28 <= 65535 ->
  ni_dhcp_build_send_header
    {| base := pre ++ hdr ++ payload ++ post;
       head := Z.of_nat (length pre) + 28;
       tail := Z.of_nat (length pre) + 28 + Z.of_nat (length payload) |} src dst
  = Some (0, {| base := pre ++ dhcp_frame src dst payload ++ post;
                head := Z.of_nat (length pre);
                tail := Z.of_nat (length pre) + 28 + Z.of_nat (length payload) |}).
Proof.
  intros Hh HL.
  set (P := Z.of_nat (length pre)). set (L := Z.of_nat (length payload)).
  assert (HP : 0 <= P) by (unfold P; lia). assert (HL0 : 0 <= L) by (unfold L; lia).
  unfold ni_dhcp_build_send_header, ni_buffer_push_head, ni_buffer_head, ni_buffer_count.
  cbn [head tail base].
  unfold sizeof_udphdr, sizeof_ip at 1.
  destruct (Z.ltb_spec (P + 28) 8); [lia|].
  cbn [head tail base].
  destruct (Z.ltb_spec (P + 28 - 8) 20); [lia|].
  cbn [head tail base].
  destruct (Z.ltb_spec (P + 28 - 8) (P + 28 + L)); [|lia].
  replace (u32 (P + 28 + L - (P + 28 - 8))) with (8 + L)
    by (unfold u32; rewrite Z.mod_small by lia; lia).
  replace (if P + 28 <? P + 28 + L then u32 (P + 28 + L - (P + 28)) else 0) with L.
  2:{ destruct (Z.ltb_spec (P + 28) (P + 28 + L)); [|lia].
      unfold u32; rewrite Z.mod_small by lia; lia. }
  unfold sizeof_ip, uh_sport_off, uh_dport_off, uh_ulen_off, uh_sum_off,
    ip_id_off, ip_tos_off, ip_len_off, ip_off_off, ip_ttl_off, ip_p_off,
    ip_src_off, ip_dst_off, ip_sum_off.
  replace (u32 (20 + (8 + L))) with (28 + L)
    by (unfold u32; rewrite Z.mod_small by lia; lia).
  replace (P + 28 - 8 - 20) with (P + 0) by lia.
  replace (P + 28 - 8) with (P + 20) by lia.
  rewrite <- !(Z.add_assoc P).
  repeat match goal with
  | |- context [P + (?a + ?b)] =>
      let c := eval vm_compute in (a + b) in change (P + (a + b)) with (P + c)
  end.
  destruct hdr as [|h0 [|h1 [|h2 [|h3 [|h4 [|h5 [|h6 [|h7 [|h8 [|h9 [|h10 [|h11 [|h12 [|h13 [|h14 [|h15 [|h16 [|h17 [|h18 [|h19 [|h20 [|h21 [|h22 [|h23 [|h24 [|h25 [|h26 [|h27 [|? ?]]]]]]]]]]]]]]]]]]]]]]]]]]]]]; try discriminate Hh.
  clear Hh.
  set (rest := payload ++ post).
  cbn [app].
  rewrite store32_coerce by (store_length; unfold P; lia).
  rewrite !store16_htons.
  rewrite <- !(Z.add_assoc P).
  repeat match goal with
  | |- context [P + (?a + ?b)] =>
      let c := eval vm_compute in (a + b) in change (P + (a + b)) with (P + c)
  end.
  assert (Hrest : L <= Z.of_nat (length rest))
    by (unfold rest, L; rewrite length_app; lia).
  assert (Hu16 : u16 L = L) by (unfold u16; apply Z.mod_small; lia).
  repeat first
    [ rewrite store8_app_at by lia
    | rewrite store16_app_at by lia
    | rewrite store32_app_at by lia
    | rewrite set_ip_v_app_at by lia
    | rewrite set_ip_hl_app_at by lia
    | rewrite load32_app_at by lia
    | rewrite checksum_app_at by (store_length; lia)
    | rewrite ipudp_checksum_app_at by (rewrite ?Hu16; store_length; lia) ].
  rewrite set_ip_vhl by (store_length; lia).
  match goal with |- context [checksum ?m 0 20] => set (M1 := m) end.
  set (dst' := coerce_dst dst).
  assert (EM1 : M1 = ip_header (28 + L) 0 src dst' ++ udp_header (8 + L) 0 ++ rest).
  { subst M1.
    unfold ip_header, udp_header, host16, host32, net16, store32, store16.
    destruct big_endian; reflexivity. }
  clearbody M1. subst M1.
  assert (Ec1 : checksum (ip_header (28 + L) 0 src dst' ++ udp_header (8 + L) 0 ++ rest) 0 20
                = checksum_fold (lsum true (ip_header (28 + L) 0 src dst'))).
  { rewrite checksum_spec
      by (rewrite ?length_app, ?ip_header_length, ?udp_header_length; lia).
    rewrite bytes_at_ip by apply ip_header_length. reflexivity. }
  rewrite Ec1. set (c1 := checksum_fold (lsum true (ip_header (28 + L) 0 src dst'))).
  assert (EM2 : store16 (ip_header (28 + L) 0 src dst' ++ udp_header (8 + L) 0 ++ rest) 10 c1
                = ip_header (28 + L) c1 src dst' ++ udp_header (8 + L) 0 ++ rest).
  { unfold ip_header, udp_header, host16, host32, net16, store32, store16.
    destruct big_endian; reflexivity. }
  rewrite EM2.
  assert (Ec2 : ipudp_checksum
                  (ip_header (28 + L) c1 src dst' ++ udp_header (8 + L) 0 ++ rest)
                  0 20 28 L
                = checksum_fold (lsum true (pseudo_header src dst' (8 + L))
                                 + lsum true (udp_header (8 + L) 0)
                                 + lsum true payload)).
  { rewrite ipudp_checksum_spec
      by (rewrite ?Hu16, ?length_app, ?ip_header_length, ?udp_header_length; lia).
    unfold udp_sum, sizeof_udphdr. rewrite Hu16.
    rewrite bytes_at_udp, bytes_at_data
      by (apply ip_header_length || apply udp_header_length).
    replace (firstn (Z.to_nat L) rest) with payload
      by (unfold rest, L; rewrite Nat2Z.id, take_app_length; reflexivity).
    f_equal. f_equal. f_equal.
    rewrite fake_header_bytes.
    unfold pseudo_header, ip_header, udp_header, host16, host32, net16,
      store32, store16, byte_at.
    destruct big_endian; reflexivity. }
  rewrite Ec2.
  set (c2 := checksum_fold (lsum true (pseudo_header src dst' (8 + L))
                            + lsum true (udp_header (8 + L) 0) + lsum true payload)).
  assert (EM3 : store16 (ip_header (28 + L) c1 src dst' ++ udp_header (8 + L) 0 ++ rest) 26 c2
                = ip_header (28 + L) c1 src dst' ++ udp_header (8 + L) c2 ++ rest).
  { unfold ip_header, udp_header, host16, host32, net16, store32, store16.
    destruct big_endian; reflexivity. }
  rewrite EM3.
  unfold dhcp_frame. cbv zeta. fold L dst' c1 c2. unfold rest.
  rewrite <- !app_assoc.
  repeat f_equal; lia.
Qed.

(** ** The built packet verifies *)

Lemma lsum_host16 c : lsum true (host16 c) = u16 c.
Proof.
  unfold host16, store16, store8, u16.
  assert (E : c mod 65536 = u8 c + 256 * u8 (c / 256)).
  { unfold u8. replace 65536 with (256 * 256) by lia.
    rewrite Z.rem_mul_r by lia. reflexivity. }
  destruct big_endian eqn:Ebe;
    change (lsum true [byte_of_Z (c / 256); byte_of_Z c]
            = c mod 65536) ||
    change (lsum true [byte_of_Z c; byte_of_Z (c / 256)]
            = c mod 65536);
    cbn [lsum negb]; unfold byte_weight; rewrite Ebe, !Z_of_byte_of_Z; lia.
Qed.

Lemma dhcp_frame_length src dst payload :
  length (dhcp_frame src dst payload) = (28 + length payload)%nat.
Proof.
  unfold dhcp_frame. cbv zeta.
  rewrite !length_app, ip_header_length, udp_header_length. lia.
Qed.

Lemma lsum_ip_header tot c src dst :
  lsum true (ip_header tot c src dst)
  = lsum true (ip_header tot 0 src dst) + u16 c.
Proof.
  unfold ip_header.
  change ([byte_of_Z 69; byte_of_Z IPTOS_LOWDELAY] ++ net16 tot ++ net16 0
          ++ net16 IP_DF ++ [byte_of_Z IPDEFTTL; byte_of_Z IPPROTO_UDP]
          ++ host16 c ++ host32 src ++ host32 dst)
    with ([byte_of_Z 69; byte_of_Z IPTOS_LOWDELAY; byte_of_Z (tot / 256);
           byte_of_Z tot; byte_of_Z (0 / 256); byte_of_Z 0;
           byte_of_Z (IP_DF / 256); byte_of_Z IP_DF;
           byte_of_Z IPDEFTTL; byte_of_Z IPPROTO_UDP]
          ++ host16 c ++ host32 src ++ host32 dst).
  change ([byte_of_Z 69; byte_of_Z IPTOS_LOWDELAY] ++ net16 tot ++ net16 0
          ++ net16 IP_DF ++ [byte_of_Z IPDEFTTL; byte_of_Z IPPROTO_UDP]
          ++ host16 0 ++ host32 src ++ host32 dst)
    with ([byte_of_Z 69; byte_of_Z IPTOS_LOWDELAY; byte_of_Z (tot / 256);
           byte_of_Z tot; byte_of_Z (0 / 256); byte_of_Z 0;
           byte_of_Z (IP_DF / 256); byte_of_Z IP_DF;
           byte_of_Z IPDEFTTL; byte_of_Z IPPROTO_UDP]
          ++ host16 0 ++ host32 src ++ host32 dst).
  rewrite !(lsum_app true (_ :: _)). cbn [length Nat.even].
  rewrite !(lsum_app true (host16 _)), !lsum_host16.
  assert (Hl : forall v, length (host16 v) = 2%nat)
    by (intros v; unfold host16, store16; destruct big_endian; reflexivity).
  rewrite !Hl. change (u16 0) with 0. lia.
Qed.

Lemma lsum_head_le f b l : Z_of_byte b <= lsum f (b :: l).
Proof.
  cbn [lsum]. pose proof (lsum_range (negb f) l).
  pose proof (Z_of_byte_range b). pose proof (byte_weight_pos f). nia.
Qed.

Lemma lsum_ip_header_pos tot c src dst : 69 <= lsum true (ip_header tot c src dst).
Proof.
  unfold ip_header. cbn [app]. apply (lsum_head_le true (byte_of_Z 69)).
Qed.

Lemma lsum_udp_header ulen c :
  lsum true (udp_header ulen c) = lsum true (udp_header ulen 0) + u16 c.
Proof.
  unfold udp_header.
  change (net16 DHCP_CLIENT_PORT ++ net16 DHCP_SERVER_PORT ++ net16 ulen ++ host16 c)
    with ([byte_of_Z (DHCP_CLIENT_PORT / 256); byte_of_Z DHCP_CLIENT_PORT;
           byte_of_Z (DHCP_SERVER_PORT / 256); byte_of_Z DHCP_SERVER_PORT;
           byte_of_Z (ulen / 256); byte_of_Z ulen] ++ host16 c).
  change (net16 DHCP_CLIENT_PORT ++ net16 DHCP_SERVER_PORT ++ net16 ulen ++ host16 0)
    with ([byte_of_Z (DHCP_CLIENT_PORT / 256); byte_of_Z DHCP_CLIENT_PORT;
           byte_of_Z (DHCP_SERVER_PORT / 256); byte_of_Z DHCP_SERVER_PORT;
           byte_of_Z (ulen / 256); byte_of_Z ulen] ++ host16 0).
  rewrite !(lsum_app true (_ :: _)). cbn [length Nat.even].
  rewrite !lsum_host16. change (u16 0) with 0. lia.
Qed.

Lemma lsum_pseudo_header_pos src dst ulen :
  17 <= lsum true (pseudo_header src dst ulen).
Proof.
  unfold pseudo_header.
  assert (Hl : forall v, length (host32 v) = 4%nat)
    by (intros v; unfold host32, store32, store16; destruct big_endian; reflexivity).
  rewrite !lsum_app, !Hl. cbn [Nat.even app length].
  pose proof (lsum_range true (host32 src)).
  pose proof (lsum_range true (host32 dst)).
  pose proof (lsum_range true (net16 ulen)).
  change (lsum true [x00; byte_of_Z IPPROTO_UDP])
    with (byte_weight true * 0 + (byte_weight false * 17 + 0)).
  pose proof (byte_weight_pos false). lia.
Qed.

Lemma checksum_fold_verifies s :
  0 < s -> s + 65535 < 4294967296 ->
  checksum_fold (s + u16 (checksum_fold s)) = 0.
Proof.
  intros Hs Hb. pose proof (checksum_fold_range s) as Hr.
  unfold u16. rewrite (Z.mod_small (checksum_fold s)) by lia.
  apply checksum_fold_zero_iff; [lia|].
  split; [apply checksum_fold_complement; lia | lia].
Qed.

Lemma ntohs_load16 m p :
  ntohs (load16 m p) = load8 m p * 256 + load8 m (p + 1).
Proof.
  pose proof (load8_range m p). pose proof (load8_range m (p + 1)).
  unfold ntohs, htons, load16, bswap16, u16, u8. destruct big_endian.
  - apply Z.mod_small. lia.
  - rewrite Z.mod_add, Z.div_add by lia.
    rewrite (Z.div_small (load8 m p)), (Z.mod_small (load8 m p)) by lia.
    rewrite Z.mod_small by lia. lia.
Qed.

Lemma load8_app_l A X k :
  0 <= k < Z.of_nat (length A) -> load8 (A ++ X) k = load8 A k.
Proof.
  intros Hk. unfold load8. rewrite app_nth1 by lia. reflexivity.
Qed.

Lemma load8_frame_udp A B X k :
  length A = 20%nat -> length B = 8%nat -> 0 <= k < 8 ->
  load8 (A ++ B ++ X) (20 + k) = load8 B k.
Proof.
  intros HA HB Hk.
  replace 20 with (Z.of_nat (length A)) by lia.
  rewrite load8_app_r, load8_app_l by lia. reflexivity.
Qed.

Lemma net16_value v :
  0 <= v < 65536 ->
  Z_of_byte (byte_of_Z (v / 256)) * 256 + Z_of_byte (byte_of_Z v) = v.
Proof.
  intros Hv. rewrite !Z_of_byte_of_Z. unfold u8.
  rewrite (Z.mod_small (v / 256))
    by (split; [apply Z.div_pos; lia | apply Z.div_lt_upper_bound; lia]).
  pose proof (Z_div_mod_eq_full v 256). lia.
Qed.

Lemma host16_length v : length (host16 v) = 2%nat.
Proof. unfold host16, store16; destruct big_endian; reflexivity. Qed.

Lemma host32_length v : length (host32 v) = 4%nat.
Proof. unfold host32, store32, store16; destruct big_endian; reflexivity. Qed.

Lemma load32_host32 A X v :
  load32 (A ++ host32 v ++ X) (Z.of_nat (length A)) = u32 v.
Proof.
  replace (Z.of_nat (length A)) with (Z.of_nat (length A) + 0) by lia.
  rewrite load32_app_at by lia.
  replace (host32 v ++ X) with (store32 ([x00; x00; x00; x00] ++ X) 0 v).
  - apply load32_store32; [lia | rewrite length_app; simpl; lia].
  - unfold host32, store32, store16, store8. destruct big_endian; reflexivity.
Qed.

Lemma lsum_word_bound_Z l n f :
  0 <= n -> Z.of_nat (length l) <= 2 * n -> lsum f l <= 65535 * n.
Proof.
  intros Hn Hl. pose proof (lsum_word_bound l (Z.to_nat n) f) as H.
  rewrite Z2Nat.id in H by lia. apply H. lia.
Qed.

Section BuiltFrame.
Variables (src dst : Z) (payload junk : list byte).
Hypothesis Hlen : Z.of_nat (length payload) + 28 <= 65535.

Let L := Z.of_nat (length payload).
Let frame := dhcp_frame src dst payload ++ junk.

Lemma frame_shape :
  exists c1 c2,
    frame = ip_header (28 + L) c1 src (coerce_dst dst)
            ++ udp_header (8 + L) c2 ++ payload ++ junk.
Proof.
  unfold frame, dhcp_frame. cbv zeta. fold L.
  eexists _, _. rewrite <- !app_assoc. reflexivity.
Qed.

Lemma frame_ip_fixed :
  load8 frame 0 = 69 /\ load8 frame 1 = IPTOS_LOWDELAY
  /\ ntohs (load16 frame 2) = 28 + L
  /\ ntohs (load16 frame 4) = 0
  /\ ntohs (load16 frame 6) = IP_DF
  /\ load8 frame 8 = IPDEFTTL /\ load8 frame 9 = IPPROTO_UDP.
Proof.
  destruct frame_shape as (c1 & c2 & ->).
  rewrite !ntohs_load16.
  repeat split; try reflexivity.
  change (Z_of_byte (byte_of_Z ((28 + L) / 256)) * 256
          + Z_of_byte (byte_of_Z (28 + L)) = 28 + L).
  apply net16_value. unfold L. lia.
Qed.

Lemma frame_udp_fixed :
  ntohs (load16 frame 20) = DHCP_CLIENT_PORT
  /\ ntohs (load16 frame 22) = DHCP_SERVER_PORT
  /\ ntohs (load16 frame 24) = 8 + L.
Proof.
  destruct frame_shape as (c1 & c2 & ->).
  rewrite !ntohs_load16.
  change 22 with (20 + 2). change (20 + 2 + 1) with (20 + 3).
  change 24 with (20 + 4). change (20 + 4 + 1) with (20 + 5).
  change (load8 ?m 20) with (load8 m (20 + 0)).
  rewrite !load8_frame_udp
    by (apply ip_header_length || apply udp_header_length || lia).
  repeat split; try reflexivity.
  change (Z_of_byte (byte_of_Z ((8 + L) / 256)) * 256
          + Z_of_byte (byte_of_Z (8 + L)) = 8 + L).
  apply net16_value. unfold L. lia.
Qed.

Lemma frame_addresses :
  load32 frame 12 = u32 src /\ load32 frame 16 = u32 (coerce_dst dst).
Proof.
  destruct frame_shape as (c1 & c2 & ->).
  unfold ip_header.
  change ([byte_of_Z 69; byte_of_Z IPTOS_LOWDELAY] ++ net16 (28 + L) ++ net16 0
          ++ net16 IP_DF ++ [byte_of_Z IPDEFTTL; byte_of_Z IPPROTO_UDP]
          ++ host16 c1 ++ host32 src ++ host32 (coerce_dst dst))
    with ([byte_of_Z 69; byte_of_Z IPTOS_LOWDELAY; byte_of_Z ((28 + L) / 256);
           byte_of_Z (28 + L); byte_of_Z (0 / 256); byte_of_Z 0;
           byte_of_Z (IP_DF / 256); byte_of_Z IP_DF;
           byte_of_Z IPDEFTTL; byte_of_Z IPPROTO_UDP]
          ++ host16 c1 ++ host32 src ++ host32 (coerce_dst dst)).
  split.
  - rewrite <- !app_assoc. rewrite (app_assoc _ (host16 c1)).
    match goal with |- load32 (?A ++ _) _ = _ =>
      replace 12 with (Z.of_nat (length A))
        by (rewrite length_app, host16_length; reflexivity) end.
    apply load32_host32.
  - rewrite <- !app_assoc.
    rewrite (app_assoc _ (host16 c1)), (app_assoc _ (host32 src)).
    match goal with |- load32 (?A ++ _) _ = _ =>
      replace 16 with (Z.of_nat (length A))
        by (rewrite !length_app, host16_length, host32_length; reflexivity) end.
    apply load32_host32.
Qed.

Lemma frame_ip_checksum : checksum frame 0 20 = 0.
Proof.
  unfold frame, dhcp_frame. cbv zeta. fold L.
  rewrite <- !app_assoc.
  rewrite checksum_spec
    by (rewrite ?length_app, ?ip_header_length; lia).
  rewrite bytes_at_ip by apply ip_header_length.
  rewrite lsum_ip_header.
  pose proof (lsum_ip_header_pos (28 + L) 0 src (coerce_dst dst)).
  pose proof (lsum_word_bound (ip_header (28 + L) 0 src (coerce_dst dst)) 10 true) as Hb.
  rewrite ip_header_length in Hb. specialize (Hb ltac:(lia)).
  apply checksum_fold_verifies; lia.
Qed.

Lemma frame_udp_checksum : ipudp_checksum frame 0 20 28 L = 0.
Proof.
  assert (Hu16 : u16 L = L) by (unfold u16; apply Z.mod_small; unfold L; lia).
  unfold frame, dhcp_frame. cbv zeta. fold L.
  rewrite <- !app_assoc.
  rewrite ipudp_checksum_spec
    by (rewrite ?Hu16, ?length_app, ?ip_header_length, ?udp_header_length;
        unfold L; lia).
  unfold udp_sum, sizeof_udphdr. rewrite Hu16.
  rewrite bytes_at_udp, bytes_at_data
    by (apply ip_header_length || apply udp_header_length).
  replace (firstn (Z.to_nat L) (payload ++ junk)) with payload
    by (unfold L; rewrite Nat2Z.id, take_app_length; reflexivity).
  set (c1 := checksum_fold (lsum true (ip_header (28 + L) 0 src (coerce_dst dst)))).
  assert (Ef : fake_header
                 (ip_header (28 + L) c1 src (coerce_dst dst) ++
                  udp_header (8 + L)
                    (checksum_fold
                       (lsum true (pseudo_header src (coerce_dst dst) (8 + L))
                        + lsum true (udp_header (8 + L) 0) + lsum true payload))
                  ++ payload ++ junk) 0 20
               = pseudo_header src (coerce_dst dst) (8 + L)).
  { rewrite fake_header_bytes.
    unfold pseudo_header, ip_header, udp_header, host16, host32, net16,
      store32, store16, byte_at.
    destruct big_endian; reflexivity. }
  rewrite Ef, lsum_udp_header.
  set (P := lsum true (pseudo_header src (coerce_dst dst) (8 + L))).
  set (U := lsum true (udp_header (8 + L) 0)).
  set (D := lsum true payload).
  pose proof (lsum_pseudo_header_pos src (coerce_dst dst) (8 + L)) as HP. fold P in HP.
  pose proof (lsum_word_bound (pseudo_header src (coerce_dst dst) (8 + L)) 6 true) as HPb.
  rewrite pseudo_header_length in HPb. specialize (HPb ltac:(lia)). fold P in HPb.
  pose proof (lsum_range true (udp_header (8 + L) 0)) as HU. fold U in HU.
  pose proof (lsum_word_bound (udp_header (8 + L) 0) 4 true) as HUb.
  rewrite udp_header_length in HUb. specialize (HUb ltac:(lia)). fold U in HUb.
  pose proof (lsum_range true payload) as HD. fold D in HD.
  pose proof (lsum_word_bound_Z payload 32768 true ltac:(lia) ltac:(unfold L in *; lia)) as HDb.
  fold D in HDb.
  replace (P + (U + u16 (checksum_fold (P + U + D))) + D)
    with (P + U + D + u16 (checksum_fold (P + U + D))) by lia.
  apply checksum_fold_verifies; lia.
Qed.

Lemma frame_payload : bytes_at frame 28 L = payload.
Proof.
  destruct frame_shape as (c1 & c2 & ->).
  rewrite bytes_at_data by (apply ip_header_length || apply udp_header_length).
  unfold L. rewrite Nat2Z.id. apply take_app_length.
Qed.

Lemma frame_check pl :
  check_packet_header frame 0 (28 + L) pl
  = {| cph_payload := Some 28; cph_payload_len := 28 + L; cph_debug := [] |}.
Proof.
  destruct frame_ip_fixed as (H0 & _ & H2 & _ & _ & _ & H9).
  assert (Hhl : ip_hl frame 0 = 5) by (unfold ip_hl; rewrite H0; reflexivity).
  assert (Hv : ip_v frame 0 = 4) by (unfold ip_v; rewrite H0; reflexivity).
  change 2 with (0 + ip_len_off) in H2. change 9 with (0 + ip_p_off) in H9.
  rewrite cph_accept.
  - rewrite Hhl, H2. reflexivity.
  - unfold acceptable. cbv zeta. rewrite Hhl, Hv, H2, H9.
    change (0 + 4 * 5) with 20. change (20 + sizeof_udphdr) with 28.
    change (4 * 5) with 20.
    replace (28 + L - 20 - sizeof_udphdr) with L by (unfold sizeof_udphdr; lia).
    rewrite frame_ip_checksum, frame_udp_checksum.
    repeat split; lia.
  - rewrite Hhl. unfold L. lia.
  - rewrite Hhl. unfold sizeof_udphdr, L. lia.
Qed.

End BuiltFrame.

Lemma ni_buffer_count_eq bp :
  head bp <= tail bp -> tail bp - head bp < 4294967296 ->
  ni_buffer_count bp = tail bp - head bp.
Proof.
  intros H1 H2. unfold ni_buffer_count.
  destruct (Z.ltb_spec (head bp) (tail bp)).
  - unfold u32. apply Z.mod_small. lia.
  - lia.
Qed.

Lemma build_send_header_frame bp src dst :
  28 <= head bp -> head bp <= tail bp ->
  tail bp <= Z.of_nat (length (base bp)) ->
  tail bp - head bp + 28 <= 65535 ->
  exists bp',
    ni_dhcp_build_send_header bp src dst = Some (0, bp')
    /\ head bp' = head bp - 28 /\ tail bp' = tail bp
    /\ length (base bp') = length (base bp)
    /\ ni_buffer_data bp' = dhcp_frame src dst (ni_buffer_data bp).
Proof.
  intros Hh Hht Htl Hl.
  destruct bp as [m h t]. cbn [head tail base] in *.
  set (pre := firstn (Z.to_nat (h - 28)) m).
  set (hdr := bytes_at m (h - 28) 28).
  set (payload := bytes_at m h (t - h)).
  set (post := skipn (Z.to_nat t) m).
  assert (Hpre : Z.of_nat (length pre) = h - 28)
    by (unfold pre; rewrite length_take; lia).
  assert (Hhdr : length hdr = 28%nat)
    by (unfold hdr; rewrite bytes_at_length by lia; reflexivity).
  assert (Hpay : Z.of_nat (length payload) = t - h)
    by (unfold payload; rewrite bytes_at_length by lia; lia).
  assert (Em : m = pre ++ hdr ++ payload ++ post).
  { unfold pre, hdr, payload, post, bytes_at.
    rewrite <- (firstn_skipn (Z.to_nat (h - 28)) m) at 1. f_equal.
    rewrite <- (firstn_skipn (Z.to_nat 28) (skipn (Z.to_nat (h - 28)) m)) at 1.
    f_equal. rewrite drop_drop.
    replace (Z.to_nat (h - 28) + Z.to_nat 28)%nat with (Z.to_nat h) by lia.
    rewrite <- (firstn_skipn (Z.to_nat (t - h)) (skipn (Z.to_nat h) m)) at 1.
    f_equal. rewrite drop_drop. f_equal. lia. }
  assert (Edata : ni_buffer_data {| base := m; head := h; tail := t |} = payload).
  { unfold ni_buffer_data. rewrite ni_buffer_count_eq by (cbn; lia). reflexivity. }
  rewrite Edata.
  pose proof (build_frame pre hdr payload post src dst Hhdr ltac:(lia)) as Hb.
  rewrite <- Em in Hb.
  replace (Z.of_nat (length pre) + 28) with h in Hb by lia.
  replace (h + Z.of_nat (length payload)) with t in Hb by lia.
  eexists. split; [exact Hb|]. cbn [head tail base].
  repeat split.
  - lia.
  - replace (length m) with (length (pre ++ hdr ++ payload ++ post))
      by (rewrite <- Em; reflexivity).
    rewrite !length_app, dhcp_frame_length. lia.
  - unfold ni_buffer_data. rewrite ni_buffer_count_eq by (cbn; lia).
    cbn [head tail base]. unfold bytes_at. rewrite Nat2Z.id, drop_app_length.
    replace (Z.to_nat (t - Z.of_nat (length pre)))
      with (length (dhcp_frame src dst payload))
      by (rewrite dhcp_frame_length; lia).
    apply take_app_length.
Qed.

(** C1 (as the code behaves): building the headers over a payload of
    [L <= 65507] bytes and validating the resulting frame, followed by
    whatever else the receive buffer holds, succeeds and points at the
    original payload bytes; the length it yields is the IP total length
    [L + 28], not the payload length [L]. *)
Theorem build_then_check_yields_total_length bp src dst junk pl :
  28 <= head bp -> head bp <= tail bp ->
  tail bp <= Z.of_nat (length (base bp)) ->
  tail bp - head bp + 28 <= 65535 ->
  exists bp',
    ni_dhcp_build_send_header bp src dst = Some (0, bp')
    /\ let frame := ni_buffer_data bp' in
       let payload := ni_buffer_data bp in
       let L := Z.of_nat (length payload) in
       check_packet_header (frame ++ junk) 0 (Z.of_nat (length frame)) pl
       = {| cph_payload := Some 28; cph_payload_len := L + 28; cph_debug := [] |}
       /\ bytes_at (frame ++ junk) 28 L = payload
       /\ L = tail bp - head bp.
Proof.
  intros Hh Hht Htl Hl.
  destruct (build_send_header_frame bp src dst Hh Hht Htl Hl)
    as (bp' & Hb & _ & _ & _ & Ef).
  exists bp'. split; [exact Hb|]. cbv zeta. rewrite Ef.
  assert (HL : Z.of_nat (length (ni_buffer_data bp)) = tail bp - head bp).
  { unfold ni_buffer_data. rewrite ni_buffer_count_eq by lia.
    rewrite bytes_at_length by lia. lia. }
  rewrite dhcp_frame_length.
  replace (Z.of_nat (28 + length (ni_buffer_data bp)))
    with (28 + Z.of_nat (length (ni_buffer_data bp))) by lia.
  rewrite frame_check by lia.
  rewrite frame_payload.
  repeat split; try lia. f_equal. lia.
Qed.

(** The fields of the frame built over a 300-byte payload with source and
    destination 0.0.0.0, and the verdict of the code's own checksum
    functions on it. *)
Lemma discover_frame_fields bp :
  28 <= head bp -> tail bp = head bp + 300 ->
  tail bp <= Z.of_nat (length (base bp)) ->
  exists bp',
    ni_dhcp_build_send_header bp 0 0 = Some (0, bp')
    /\ let frame := ni_buffer_data bp' in
       length frame = 328%nat
       /\ ip_v frame 0 = 4 /\ ip_hl frame 0 = 5
       /\ load8 frame ip_tos_off = IPTOS_LOWDELAY
       /\ ntohs (load16 frame ip_len_off) = 328
       /\ ntohs (load16 frame ip_id_off) = 0
       /\ Z.land (ntohs (load16 frame ip_off_off)) IP_DF = IP_DF
       /\ Z.land (ntohs (load16 frame ip_off_off)) 0x1fff = 0
       /\ load8 frame ip_ttl_off = IPDEFTTL
       /\ load8 frame ip_p_off = IPPROTO_UDP
       /\ bytes_at frame ip_src_off 4 = [x00; x00; x00; x00]
       /\ bytes_at frame ip_dst_off 4 = [xff; xff; xff; xff]
       /\ checksum frame 0 sizeof_ip = 0
       /\ ntohs (load16 frame (sizeof_ip + uh_sport_off)) = 68
       /\ ntohs (load16 frame (sizeof_ip + uh_dport_off)) = 67
       /\ ntohs (load16 frame (sizeof_ip + uh_ulen_off)) = 308
       /\ ipudp_checksum frame 0 sizeof_ip (sizeof_ip + sizeof_udphdr) 300 = 0
       /\ bytes_at frame (sizeof_ip + sizeof_udphdr) 300 = ni_buffer_data bp.
Proof.
  intros Hh Ht Htl.
  destruct (build_send_header_frame bp 0 0 Hh ltac:(lia) Htl ltac:(lia))
    as (bp' & Hb & _ & _ & _ & Ef).
  exists bp'. split; [exact Hb|]. cbv zeta. rewrite Ef.
  set (payload := ni_buffer_data bp).
  assert (HL : Z.of_nat (length payload) = 300).
  { unfold payload, ni_buffer_data. rewrite ni_buffer_count_eq by lia.
    rewrite bytes_at_length by lia. lia. }
  assert (HL' : Z.of_nat (length payload) + 28 <= 65535) by lia.
  rewrite <- (app_nil_r (dhcp_frame 0 0 payload)).
  pose proof (frame_ip_fixed 0 0 payload [] HL') as (F0 & F1 & F2 & F4 & F6 & F8 & F9).
  pose proof (frame_udp_fixed 0 0 payload [] HL') as (U0 & U2 & U4).
  pose proof (frame_ip_checksum 0 0 payload []) as Hc1.
  pose proof (frame_udp_checksum 0 0 payload [] HL') as Hc2.
  pose proof (frame_payload 0 0 payload []) as Hp.
  rewrite HL in *.
  unfold ip_tos_off, ip_len_off, ip_id_off, ip_off_off, ip_ttl_off, ip_p_off,
    ip_src_off, ip_dst_off, sizeof_ip, uh_sport_off, uh_dport_off, uh_ulen_off,
    sizeof_udphdr.
  change (20 + 0) with 20. change (20 + 2) with 22. change (20 + 4) with 24.
  change (20 + 8) with 28.
  rewrite F1, F2, F4, F6, F8, F9, U0, U2, U4, Hc1, Hc2, Hp.
  unfold ip_v, ip_hl. rewrite F0.
  repeat split.
  - rewrite app_nil_r, dhcp_frame_length. lia.
  - unfold dhcp_frame, ip_header, host16, host32, net16, store32, store16.
    destruct big_endian; reflexivity.
  - unfold dhcp_frame, ip_header, host16, host32, net16, store32, store16.
    destruct big_endian; reflexivity.
Qed.

(** ** Single-bit corruption *)

Lemma flip_byte_delta b k :
  0 <= k < 8 ->
  let v := Z.lxor (Z_of_byte b) (Z.shiftl 1 k) in
  0 <= v < 256 /\ (v = Z_of_byte b + 2 ^ k \/ v = Z_of_byte b - 2 ^ k).
Proof.
  intros Hk.
  assert (C : k = 0 \/ k = 1 \/ k = 2 \/ k = 3 \/ k = 4 \/ k = 5 \/ k = 6 \/ k = 7) by lia.
  destruct C as [-> | [-> | [-> | [-> | [-> | [-> | [-> | ->]]]]]]];
    destruct b; vm_compute; (split; [split; [discriminate | reflexivity] | auto]).
Qed.

Lemma flip_version b k :
  4 <= k < 8 -> Z.shiftr (Z_of_byte b) 4 = 4 ->
  Z.shiftr (Z.lxor (Z_of_byte b) (Z.shiftl 1 k)) 4 <> 4.
Proof.
  intros Hk.
  assert (C : k = 4 \/ k = 5 \/ k = 6 \/ k = 7) by lia.
  destruct C as [-> | [-> | [-> | ->]]];
    destruct b; vm_compute; intros H; try discriminate H; intros H'; discriminate H'.
Qed.

Lemma lsum_insert l :
  forall f i b',
    (i < length l)%nat ->
    lsum f (<[i := b']> l)
    = lsum f l
      + byte_weight (if Nat.even i then f else negb f)
        * (Z_of_byte b' - Z_of_byte (nth i l x00)).
Proof.
  induction l as [|a l IH]; intros f i b' Hi.
  - simpl in Hi. lia.
  - destruct i as [|i].
    + cbn [insert list_insert lsum nth Nat.even]. lia.
    + change (<[S i := b']> (a :: l)) with (a :: <[i := b']> l).
      cbn [lsum nth]. rewrite IH by (simpl in Hi; lia).
      rewrite Nat.even_succ, <- Nat.negb_even.
      destruct (Nat.even i); cbn [negb]; rewrite ?negb_involutive; lia.
Qed.

Lemma bytes_at_store8_out m q v p len :
  0 <= p -> 0 <= q -> (q < p \/ p + len <= q) ->
  bytes_at (store8 m q v) p len = bytes_at m p len.
Proof.
  intros Hp Hq Ho. unfold bytes_at, store8.
  destruct Ho as [Ho|Ho].
  - rewrite drop_insert_lt by lia. reflexivity.
  - destruct (Z_le_gt_dec 0 len) as [Hl|Hl].
    + rewrite drop_insert_ge by lia. rewrite take_insert_ge by lia. reflexivity.
    + replace (Z.to_nat len) with 0%nat by lia. reflexivity.
Qed.

Lemma bytes_at_store8_in m q v p len :
  0 <= p -> p <= q < p + len ->
  bytes_at (store8 m q v) p len
  = <[Z.to_nat (q - p) := byte_of_Z v]> (bytes_at m p len).
Proof.
  intros Hp Hq. unfold bytes_at, store8.
  rewrite drop_insert_ge by lia. rewrite take_insert_lt by lia.
  f_equal. lia.
Qed.

Lemma nth_bytes_at m p len i :
  0 <= p -> 0 <= i < len ->
  nth (Z.to_nat i) (bytes_at m p len) x00 = byte_at m (p + i).
Proof.
  intros Hp Hi. unfold bytes_at, byte_at.
  rewrite !nth_lookup, lookup_take_lt, lookup_drop by lia.
  do 2 f_equal. lia.
Qed.

Lemma byte_at_store8_other m q v p :
  0 <= p -> 0 <= q -> p <> q -> byte_at (store8 m q v) p = byte_at m p.
Proof.
  intros Hp Hq Hne. unfold byte_at, store8.
  rewrite !nth_lookup, list_lookup_insert_ne by lia. reflexivity.
Qed.

Lemma byte_at_store8_same m q v :
  0 <= q < Z.of_nat (length m) -> byte_at (store8 m q v) q = byte_of_Z v.
Proof.
  intros Hq. unfold byte_at, store8.
  rewrite nth_lookup, list_lookup_insert_eq by lia. reflexivity.
Qed.

Lemma load8_byte_at m p : load8 m p = Z_of_byte (byte_at m p).
Proof. reflexivity. Qed.

(** Powers of two below 2^17 are not multiples of 65535, so a sum that is
    0 modulo 65535 is not after a change by one of them. *)
Lemma pow2_breaks_zero s d j :
  0 <= j <= 16 -> (d = 2 ^ j \/ d = - 2 ^ j) ->
  s mod 65535 = 0 -> (s + d) mod 65535 <> 0.
Proof.
  intros Hj Hd Hs Hsd.
  pose proof (Z_div_mod_eq_full s 65535) as E1.
  pose proof (Z_div_mod_eq_full (s + d) 65535) as E2.
  rewrite Hs in E1. rewrite Hsd in E2.
  assert (C : j = 0 \/ j = 1 \/ j = 2 \/ j = 3 \/ j = 4 \/ j = 5 \/ j = 6 \/ j = 7
              \/ j = 8 \/ j = 9 \/ j = 10 \/ j = 11 \/ j = 12 \/ j = 13 \/ j = 14
              \/ j = 15 \/ j = 16) by lia.
  repeat (destruct C as [-> | C]); try subst j;
    (destruct Hd as [-> | ->];
     match goal with
     | H : context [2 ^ ?n] |- _ =>
         let v := eval vm_compute in (2 ^ n) in change (2 ^ n) with v in *
     end; lia).
Qed.

Lemma ip_hl_range m p : 0 <= ip_hl m p <= 15.
Proof.
  unfold ip_hl.
  assert (E : Z.land (load8 m p) 15 = load8 m p mod 16)
    by (change 15 with (Z.ones 4); rewrite Z.land_ones by lia; reflexivity).
  rewrite E.
  pose proof (Z.mod_pos_bound (load8 m p) 16 ltac:(lia)). lia.
Qed.

Lemma u16_le z : 0 <= z -> 0 <= u16 z <= z.
Proof.
  intros Hz. unfold u16.
  pose proof (Z.mod_pos_bound z 65536 ltac:(lia)).
  pose proof (Z.mod_le z 65536 Hz ltac:(lia)). lia.
Qed.

Lemma flip_bit_load8_same m q k :
  0 <= q < Z.of_nat (length m) -> 0 <= k < 8 ->
  load8 (flip_bit m q k) q = Z.lxor (load8 m q) (Z.shiftl 1 k).
Proof.
  intros Hq Hk. unfold flip_bit. rewrite load8_store8_same by lia.
  destruct (flip_byte_delta (byte_at m q) k Hk) as [Hr _].
  rewrite load8_byte_at. unfold u8. apply Z.mod_small. exact Hr.
Qed.

Lemma flip_bit_load8_other m q k p :
  0 <= q -> 0 <= p -> p <> q -> load8 (flip_bit m q k) p = load8 m p.
Proof. intros. unfold flip_bit. apply load8_store8_other; lia. Qed.

(** The checksum sum of a region after a bit inside it is flipped. *)
Lemma lsum_bytes_at_flip m q k p len :
  0 <= p -> p <= q < p + len -> p + len <= Z.of_nat (length m) -> 0 <= k < 8 ->
  lsum true (bytes_at (flip_bit m q k) p len)
  = lsum true (bytes_at m p len)
    + byte_weight (Nat.even (Z.to_nat (q - p)))
      * (Z.lxor (load8 m q) (Z.shiftl 1 k) - load8 m q).
Proof.
  intros Hp Hq Hb Hk. unfold flip_bit.
  rewrite bytes_at_store8_in by lia.
  rewrite lsum_insert by (rewrite bytes_at_length by lia; lia).
  rewrite nth_bytes_at by lia.
  replace (p + (q - p)) with q by lia.
  rewrite Z_of_byte_of_Z, load8_byte_at.
  destruct (flip_byte_delta (byte_at m q) k Hk) as [Hr _]. cbv zeta in Hr.
  unfold u8. rewrite Z.mod_small by exact Hr.
  destruct (Nat.even (Z.to_nat (q - p))); reflexivity.
Qed.

Lemma weighted_flip_pow2 f b k c :
  0 <= k < 8 -> (c = 1 \/ c = 2) ->
  exists j, 0 <= j <= 16
    /\ (c * (byte_weight f * (Z.lxor (Z_of_byte b) (Z.shiftl 1 k) - Z_of_byte b)) = 2 ^ j
        \/ c * (byte_weight f * (Z.lxor (Z_of_byte b) (Z.shiftl 1 k) - Z_of_byte b)) = - 2 ^ j).
Proof.
  intros Hk Hc.
  destruct (flip_byte_delta b k Hk) as [_ Hd]. cbv zeta in Hd.
  assert (Hw : exists a, (a = 0 \/ a = 8) /\ byte_weight f = 2 ^ a).
  { unfold byte_weight. destruct f, big_endian;
      ((exists 8; split; [auto | reflexivity]) || (exists 0; split; [auto | reflexivity])). }
  destruct Hw as (a & Ha & ->).
  assert (Hc' : exists e, (e = 0 \/ e = 1) /\ c = 2 ^ e).
  { destruct Hc as [-> | ->]; [exists 0 | exists 1]; split; auto. }
  destruct Hc' as (e & He & ->).
  exists (e + a + k). split; [lia|].
  rewrite !Z.pow_add_r by lia.
  destruct Hd as [-> | ->]; [left | right]; ring.
Qed.

Lemma checksum_zero_sum m p len :
  0 <= p -> 0 <= len < 65536 -> p + len <= Z.of_nat (length m) ->
  checksum m p len = 0 -> lsum true (bytes_at m p len) mod 65535 = 0.
Proof.
  clear MTU_MAX ni_link_address_get_broadcast uninitialised.
  intros Hp Hlen Hb H. rewrite checksum_spec in H by assumption.
  pose proof (lsum_range true (bytes_at m p len)) as Hr.
  rewrite bytes_at_length in Hr by lia.
  apply checksum_fold_zero_iff in H; [tauto | lia].
Qed.

Lemma ipudp_checksum_zero_sum m iph uh data len :
  0 <= uh -> uh + 8 <= Z.of_nat (length m) ->
  0 <= data -> data + u16 len <= Z.of_nat (length m) ->
  ipudp_checksum m iph uh data len = 0 ->
  udp_sum m iph uh data len mod 65535 = 0.
Proof.
  clear MTU_MAX ni_link_address_get_broadcast uninitialised.
  intros H1 H2 H3 H4 H. rewrite ipudp_checksum_spec in H by assumption.
  apply checksum_fold_zero_iff in H; [tauto | apply udp_sum_range].
Qed.

Lemma bytes_at_flip_out m q k p len :
  0 <= p -> 0 <= q -> (q < p \/ p + len <= q) ->
  bytes_at (flip_bit m q k) p len = bytes_at m p len.
Proof. intros. unfold flip_bit. apply bytes_at_store8_out; assumption. Qed.

(** A flipped bit in bytes 1..19 of the IP header breaks its checksum. *)
Lemma flip_ip_header_checksum m q k hl :
  1 <= q < 20 -> 0 <= k < 8 -> 5 <= hl <= 15 ->
  4 * hl <= Z.of_nat (length m) ->
  checksum m 0 (4 * hl) = 0 ->
  checksum (flip_bit m q k) 0 (4 * hl) <> 0.
Proof.
  clear MTU_MAX ni_link_address_get_broadcast uninitialised.
  intros Hq Hk Hhl Hb H0 H1.
  apply checksum_zero_sum in H0; try lia.
  apply checksum_zero_sum in H1;
    try (unfold flip_bit; rewrite ?length_store8; lia).
  rewrite lsum_bytes_at_flip in H1 by lia.
  rewrite load8_byte_at in H1.
  destruct (weighted_flip_pow2 (Nat.even (Z.to_nat (q - 0))) (byte_at m q) k 1 Hk
              ltac:(auto)) as (j & Hj & Hd).
  rewrite Z.mul_1_l in Hd.
  exact (pow2_breaks_zero _ _ j Hj Hd H0 H1).
Qed.

(** A flipped bit in the UDP header breaks the UDP checksum; a bit of the
    length field counts twice, through the pseudo-header as well. *)
Lemma flip_udp_header_checksum m q k uh len :
  20 <= uh -> uh <= q < uh + 8 -> 0 <= k < 8 ->
  uh + 8 + u16 len <= Z.of_nat (length m) ->
  ipudp_checksum m 0 uh (uh + 8) len = 0 ->
  ipudp_checksum (flip_bit m q k) 0 uh (uh + 8) len <> 0.
Proof.
  clear MTU_MAX ni_link_address_get_broadcast uninitialised.
  intros Huh Hq Hk Hb H0 H1.
  pose proof (u16_le (u16 len)) as Hu.
  assert (0 <= u16 len) by (apply Z.mod_pos_bound; lia).
  apply ipudp_checksum_zero_sum in H0; try lia.
  apply ipudp_checksum_zero_sum in H1;
    try (unfold flip_bit; rewrite ?length_store8; lia).
  unfold udp_sum, sizeof_udphdr in *.
  rewrite lsum_bytes_at_flip in H1 by lia.
  rewrite (bytes_at_flip_out m q k (uh + 8)) in H1 by lia.
  rewrite load8_byte_at in H1.
  set (b := byte_at m q) in *.
  set (v := Z.lxor (Z_of_byte b) (Z.shiftl 1 k)) in *.
  set (S := lsum true (fake_header m 0 uh) + lsum true (bytes_at m uh 8)
            + lsum true (bytes_at m (uh + 8) (u16 len))) in *.
  assert (Hfake : exists c, (c = 1 \/ c = 2)
            /\ lsum true (fake_header (flip_bit m q k) 0 uh)
               + (lsum true (bytes_at m uh 8)
                  + byte_weight (Nat.even (Z.to_nat (q - uh))) * (v - Z_of_byte b))
               + lsum true (bytes_at m (uh + 8) (u16 len))
               = S + c * (byte_weight (Nat.even (Z.to_nat (q - uh))) * (v - Z_of_byte b))).
  { assert (Hv : Z_of_byte (byte_of_Z v) = v).
    { rewrite Z_of_byte_of_Z. unfold u8. apply Z.mod_small.
      apply (flip_byte_delta b k Hk). }
    assert (C : q = uh + 0 \/ q = uh + 1 \/ q = uh + 2 \/ q = uh + 3 \/ q = uh + 4
                \/ q = uh + 4 + 1 \/ q = uh + 6 \/ q = uh + 7) by lia.
    assert (Eb : forall p, p = q -> byte_at m p = b) by (intros p ->; reflexivity).
    unfold S. rewrite !fake_header_bytes. unfold flip_bit.
    rewrite load8_byte_at. fold b. fold v.
    clearbody S v b.
    destruct C as [C | [C | [C | [C | [C | [C | [C | C]]]]]]];
      rewrite C in *;
      rewrite ?byte_at_store8_same by lia;
      rewrite ?byte_at_store8_other by lia;
      replace (uh + 0 - uh) with 0 by lia;
      replace (uh + 1 - uh) with 1 by lia;
      replace (uh + 2 - uh) with 2 by lia;
      replace (uh + 3 - uh) with 3 by lia;
      replace (uh + 4 - uh) with 4 by lia;
      replace (uh + 4 + 1 - uh) with 5 by lia;
      replace (uh + 6 - uh) with 6 by lia;
      replace (uh + 7 - uh) with 7 by lia.
    1-4: exists 1; split; [auto | lia].
    3-4: exists 1; split; [auto | lia].
    - exists 2. split; [auto|].
      rewrite (Eb (uh + 4)) by reflexivity.
      change (Nat.even (Z.to_nat 4)) with true.
      cbn [lsum negb]. rewrite Hv. lia.
    - exists 2. split; [auto|].
      rewrite (Eb (uh + 4 + 1)) by reflexivity.
      change (Nat.even (Z.to_nat 5)) with false.
      cbn [lsum negb]. rewrite Hv. lia. }
  destruct Hfake as (c & Hc & E). rewrite E in H1.
  destruct (weighted_flip_pow2 (Nat.even (Z.to_nat (q - uh))) b k c Hk Hc)
    as (j & Hj & Hd).
  exact (pow2_breaks_zero _ _ j Hj Hd H0 H1).
Qed.

(** C8 (amended): in a frame that check_packet_header accepts, a flip of
    any single bit of the first 20 bytes, other than an IHL bit whose flip
    leaves IHL >= 5, or of any bit of the 8-byte UDP header, gives a frame
    that check_packet_header drops. *)
Theorem single_bit_flip_dropped m bytes pl p q k :
  bytes <= Z.of_nat (length m) ->
  cph_payload (check_packet_header m 0 bytes pl) = Some p ->
  0 <= k < 8 ->
  (0 <= q < 20 /\ ~ (q = 0 /\ k < 4 /\ 5 <= ip_hl (flip_bit m q k) 0))
  \/ (4 * ip_hl m 0 <= q < 4 * ip_hl m 0 + 8) ->
  cph_payload (check_packet_header (flip_bit m q k) 0 bytes pl) = None.
Proof.
  clear MTU_MAX ni_link_address_get_broadcast uninitialised.
  intros Hb Hacc Hk Hq.
  destruct (cph_accept_inv m 0 bytes pl p Hacc) as (A & Hihl & Hudp & _).
  destruct A as (Hv & Hhl & _ & Hck & _ & Hcu). cbv zeta in *.
  pose proof (ip_hl_range m 0) as Hr.
  unfold sizeof_udphdr in *. rewrite !Z.add_0_l in *.
  destruct (cph_payload (check_packet_header (flip_bit m q k) 0 bytes pl))
    as [p'|] eqn:E; [exfalso | reflexivity].
  destruct (cph_accept_inv _ 0 bytes pl p' E) as (A' & _ & _ & _).
  destruct A' as (Hv' & Hhl' & _ & Hck' & _ & Hcu'). cbv zeta in *.
  unfold sizeof_udphdr in *. rewrite !Z.add_0_l in *.
  destruct Hq as [[Hq Hex] | Hq].
  - destruct (Z.eq_dec q 0) as [-> | Hq0].
    + destruct (Z_lt_ge_dec k 4) as [Hk4 | Hk4].
      * apply Hex. auto.
      * unfold ip_v in Hv, Hv'.
        rewrite flip_bit_load8_same in Hv' by lia.
        rewrite load8_byte_at in *.
        exact (flip_version _ k ltac:(lia) Hv Hv').
    + assert (Ehl : ip_hl (flip_bit m q k) 0 = ip_hl m 0)
        by (unfold ip_hl; rewrite flip_bit_load8_other by lia; reflexivity).
      rewrite Ehl in *.
      exact (flip_ip_header_checksum m q k (ip_hl m 0) ltac:(lia) Hk ltac:(lia)
               ltac:(lia) Hck Hck').
  - assert (Ehl : ip_hl (flip_bit m q k) 0 = ip_hl m 0)
      by (unfold ip_hl; rewrite flip_bit_load8_other by lia; reflexivity).
    rewrite Ehl in *.
    pose proof (u16_le (bytes - 4 * ip_hl m 0 - 8) ltac:(lia)).
    exact (flip_udp_header_checksum m q k (4 * ip_hl m 0)
             (bytes - 4 * ip_hl m 0 - 8) ltac:(lia) Hq Hk ltac:(lia) Hcu Hcu').
Qed.

(** ** The classifier programs *)

Section RunSteps.
Variables (prog : list sock_filter) (pkt : list byte) (fuel : nat) (A X : Z) (pc : nat).

Lemma run_ld_h_abs off :
  prog !! pc = Some (BPF_STMT (BPF_LD + BPF_H + BPF_ABS) off) ->
  run (S fuel) prog pkt A X pc
  = match ld_h pkt off with
    | Some v => run fuel prog pkt v X (S pc)
    | None => 0
    end.
Proof. intros H. cbn [run]. rewrite H. reflexivity. Qed.

Lemma run_ld_b_abs off :
  prog !! pc = Some (BPF_STMT (BPF_LD + BPF_B + BPF_ABS) off) ->
  run (S fuel) prog pkt A X pc
  = match ld_b pkt off with
    | Some v => run fuel prog pkt v X (S pc)
    | None => 0
    end.
Proof. intros H. cbn [run]. rewrite H. reflexivity. Qed.

Lemma run_ld_h_ind off :
  prog !! pc = Some (BPF_STMT (BPF_LD + BPF_H + BPF_IND) off) ->
  run (S fuel) prog pkt A X pc
  = match ld_h pkt (X + off) with
    | Some v => run fuel prog pkt v X (S pc)
    | None => 0
    end.
Proof. intros H. cbn [run]. rewrite H. reflexivity. Qed.

Lemma run_ldx_msh off :
  prog !! pc = Some (BPF_STMT (BPF_LDX + BPF_B + BPF_MSH) off) ->
  run (S fuel) prog pkt A X pc
  = match ld_b pkt off with
    | Some v => run fuel prog pkt A (4 * Z.land v 15) (S pc)
    | None => 0
    end.
Proof. intros H. cbn [run]. rewrite H. reflexivity. Qed.

Lemma run_jeq c t f :
  prog !! pc = Some (BPF_JUMP (BPF_JMP + BPF_JEQ + BPF_K) c t f) ->
  run (S fuel) prog pkt A X pc
  = run fuel prog pkt A X (S pc + Z.to_nat (if A =? c then t else f)).
Proof. intros H. cbn [run]. rewrite H. reflexivity. Qed.

Lemma run_jset c t f :
  prog !! pc = Some (BPF_JUMP (BPF_JMP + BPF_JSET + BPF_K) c t f) ->
  run (S fuel) prog pkt A X pc
  = run fuel prog pkt A X (S pc + Z.to_nat (if Z.land A c =? 0 then f else t)).
Proof. intros H. cbn [run]. rewrite H. reflexivity. Qed.

Lemma run_ret c :
  prog !! pc = Some (BPF_STMT (BPF_RET + BPF_K) c) ->
  run (S fuel) prog pkt A X pc = c.
Proof. intros H. cbn [run]. rewrite H. reflexivity. Qed.

End RunSteps.

Ltac bpf_step :=
  match goal with
  | |- context [run (S ?f) ?prog ?pkt ?A ?X ?pc] =>
      first [ rewrite (run_ld_h_abs prog pkt f A X pc _ eq_refl)
            | rewrite (run_ld_b_abs prog pkt f A X pc _ eq_refl)
            | rewrite (run_ld_h_ind prog pkt f A X pc _ eq_refl)
            | rewrite (run_ldx_msh prog pkt f A X pc _ eq_refl)
            | rewrite (run_jeq prog pkt f A X pc _ _ _ eq_refl)
            | rewrite (run_jset prog pkt f A X pc _ _ _ eq_refl)
            | rewrite (run_ret prog pkt f A X pc _ eq_refl) ]
  end.

(** C3 (amended): the DHCP program, as written for link-layer frames,
    accepts (with the whole-packet length) exactly the frames with
    EtherType IPv4, protocol UDP, a zero 13-bit fragment offset and UDP
    destination port 68, and drops every other frame: other EtherTypes
    such as IPv6, other protocols such as TCP, non-zero fragment offsets,
    other destination ports.  The MF flag is not looked at.  The massaged
    program does the same on a packet that starts at its IP header, without
    the EtherType test. *)
Theorem dhcp_bpf_filter_selects pkt :
  filter dhcp_bpf_filter_init pkt
  = (if dhcp_link_match pkt then 0xffffffff else 0)
  /\ filter dhcp_bpf_filter_cooked pkt
     = (if dhcp_cooked_match pkt then 0xffffffff else 0).
Proof.
  split.
  - unfold filter, dhcp_link_match.
    change (length dhcp_bpf_filter_init) with 11%nat.
    bpf_step.
    destruct (ld_h pkt 12) as [et|]; [|reflexivity].
    bpf_step.
    destruct (et =? ETHERTYPE_IP);
      [|bpf_step;
        destruct (ld_b pkt 23), (ld_h pkt 20), (ld_b pkt 14); reflexivity].
    bpf_step.
    destruct (ld_b pkt 23) as [proto|]; [|reflexivity].
    bpf_step.
    destruct (proto =? IPPROTO_UDP);
      [|bpf_step;
        destruct (ld_h pkt 20), (ld_b pkt 14); reflexivity].
    bpf_step.
    destruct (ld_h pkt 20) as [frag|]; [|reflexivity].
    bpf_step.
    destruct (Z.land frag 8191 =? 0);
      [|bpf_step;
        destruct (ld_b pkt 14); reflexivity].
    bpf_step.
    destruct (ld_b pkt 14) as [vhl|]; [|reflexivity].
    bpf_step.
    replace (4 * Z.land vhl 15 + 16) with (14 + 4 * Z.land vhl 15 + 2) by lia.
    destruct (ld_h pkt (14 + 4 * Z.land vhl 15 + 2)) as [dport|]; [|reflexivity].
    bpf_step.
    destruct (dport =? DHCP_CLIENT_PORT);
      [bpf_step
      |bpf_step]; reflexivity.
  - unfold filter, dhcp_cooked_match.
    change (length dhcp_bpf_filter_cooked) with 11%nat.
    bpf_step.
    destruct (ld_h pkt 12) as [et|]; [|reflexivity].
    bpf_step.
    assert (E : (if et =? ETHERTYPE_IP then 0 else 0) = 0)
      by (destruct (et =? ETHERTYPE_IP); reflexivity).
    rewrite E. clear E.
    unfold dhcp_bpf_filter_cooked.
    change (23 - ETH_HLEN) with 9. change (20 - ETH_HLEN) with 6.
    change (14 - ETH_HLEN) with 0. change (16 - ETH_HLEN) with 2.
    bpf_step.
    destruct (ld_b pkt 9) as [proto|]; [|reflexivity].
    bpf_step.
    destruct (proto =? IPPROTO_UDP);
      [|bpf_step;
        destruct (ld_h pkt 6), (ld_b pkt 0); reflexivity].
    bpf_step.
    destruct (ld_h pkt 6) as [frag|]; [|reflexivity].
    bpf_step.
    destruct (Z.land frag 8191 =? 0);
      [|bpf_step;
        destruct (ld_b pkt 0); reflexivity].
    bpf_step.
    destruct (ld_b pkt 0) as [vhl|]; [|reflexivity].
    bpf_step.
    destruct (ld_h pkt (4 * Z.land vhl 15 + 2)) as [dport|]; [|reflexivity].
    bpf_step.
    destruct (dport =? DHCP_CLIENT_PORT);
      [bpf_step
      |bpf_step]; reflexivity.
Qed.

(** ** Filter installation *)

Lemma ni_capture_set_filter_spec cp proto st cap sp sk :
  captures st !! cp = Some cap -> sock cap = Some sp ->
  sockets st !! sp = Some sk ->
  exists r st',
    ni_capture_set_filter cp proto st = Some (r, st')
    /\ devices st' = devices st /\ captures st' = captures st
    /\ sockets st' = sockets st
    /\ done st' = true
    /\ (done st = true ->
        dhcp_bpf_filter st' = dhcp_bpf_filter st
        /\ arp_bpf_filter st' = arp_bpf_filter st)
    /\ (done st = false ->
        dhcp_bpf_filter st'
        = alter (sub_k ETH_HLEN) 7%nat
            (alter (sub_k ETH_HLEN) 6%nat
               (alter (sub_k ETH_HLEN) 4%nat
                  (alter (sub_k ETH_HLEN) 2%nat
                     (alter (set_jf 0) 1%nat (dhcp_bpf_filter st)))))
        /\ arp_bpf_filter st'
           = alter (sub_k ETH_HLEN) 2%nat
               (alter (set_jf 0) 1%nat (arp_bpf_filter st)))
    /\ sys_trace st'
       = sys_trace st
         ++ [sys_setsockopt (__fd sk)
               (SO_ATTACH_FILTER (if proto =? ETHERTYPE_ARP
                                  then arp_bpf_filter st'
                                  else dhcp_bpf_filter st'))].
Proof.
  intros Hc Hs Hk.
  unfold ni_capture_set_filter, bind, modify, deref, sys, ni_error, ret.
  destruct (done st) eqn:Hd.
  - rewrite Hc, Hs, Hk.
    destruct (hd (-1) (kernel_ret st) <? 0);
      eexists _, _; (split; [reflexivity|]); cbn;
      repeat split; try assumption; try reflexivity; try discriminate.
  - cbn [captures set_filters sockets]. rewrite Hc, Hs. cbn [sockets set_filters].
    rewrite Hk.
    destruct (hd (-1) (kernel_ret (set_filters _ _ true st)) <? 0);
      eexists _, _; (split; [reflexivity|]); cbn;
      repeat split; try assumption; try reflexivity; try discriminate.
Qed.

Lemma capture_with_socket_preserved st st' cp :
  captures st' = captures st -> sockets st' = sockets st ->
  capture_with_socket st cp -> capture_with_socket st' cp.
Proof.
  intros Hc Hs (cap & sp & sk & H1 & H2 & H3).
  exists cap, sp, sk. rewrite Hc, Hs. auto.
Qed.

Lemma set_filter_calls_done calls :
  forall st,
    done st = true ->
    Forall (fun c => capture_with_socket st (fst c)) calls ->
    exists st',
      set_filter_calls calls st = Some st'
      /\ dhcp_bpf_filter st' = dhcp_bpf_filter st
      /\ arp_bpf_filter st' = arp_bpf_filter st
      /\ done st' = true.
Proof.
  induction calls as [|[cp proto] calls IH]; intros st Hd Hv.
  - exists st. cbn. auto.
  - inversion Hv as [|? ? Hcp Hrest]; subst. cbn [fst] in Hcp.
    destruct Hcp as (cap & sp & sk & H1 & H2 & H3).
    destruct (ni_capture_set_filter_spec cp proto st cap sp sk H1 H2 H3)
      as (r & st1 & E & _ & Hc & Hs & Hd1 & Hsame & _ & _).
    destruct (Hsame Hd) as [Ed Ea].
    destruct (IH st1 Hd1) as (st' & E' & Ed' & Ea' & Hd').
    { eapply Forall_impl; [exact Hrest|].
      intros c Hcw. eapply capture_with_socket_preserved; eauto. }
    exists st'. cbn [set_filter_calls]. rewrite E.
    repeat split; try assumption; congruence.
Qed.

(** C9: from the program's initial statics, after any non-empty sequence
    of calls of ni_capture_set_filter (any handles with a socket, any
    protocols, whatever the kernel answers) the two programs are the
    initial ones massaged once: the EtherType jumps disabled and each
    patched load offset exactly 14 less than its initial value; and once
    the massage is done a further call changes neither program. *)
Theorem cooked_patch_applied_once calls st :
  initial_statics st ->
  calls <> [] ->
  Forall (fun c => capture_with_socket st (fst c)) calls ->
  exists st',
    set_filter_calls calls st = Some st'
    /\ done st' = true
    /\ dhcp_bpf_filter st' = dhcp_bpf_filter_cooked
    /\ arp_bpf_filter st' = arp_bpf_filter_cooked
    /\ Forall (fun i =>
         k <$> dhcp_bpf_filter st' !! i
         = (fun insn => k insn - ETH_HLEN) <$> dhcp_bpf_filter_init !! i)
         [2; 4; 6; 7]%nat
    /\ k <$> arp_bpf_filter st' !! 2%nat
       = (fun insn => k insn - ETH_HLEN) <$> arp_bpf_filter_init !! 2%nat
    /\ forall cp proto,
         capture_with_socket st' cp ->
         exists r st'',
           ni_capture_set_filter cp proto st' = Some (r, st'')
           /\ dhcp_bpf_filter st'' = dhcp_bpf_filter st'
           /\ arp_bpf_filter st'' = arp_bpf_filter st'
           /\ done st'' = true.
Proof.
  intros (Hid & Hia & Hd) Hne Hv.
  destruct calls as [|[cp proto] calls]; [congruence|].
  inversion Hv as [|? ? Hcp Hrest]; subst. cbn [fst] in Hcp.
  destruct Hcp as (cap & sp & sk & H1 & H2 & H3).
  destruct (ni_capture_set_filter_spec cp proto st cap sp sk H1 H2 H3)
    as (r & st1 & E & _ & Hc & Hs & Hd1 & _ & Hpatch & _).
  destruct (Hpatch Hd) as [Ed Ea]. rewrite Hid in Ed. rewrite Hia in Ea.
  destruct (set_filter_calls_done calls st1 Hd1) as (st' & E' & Ed' & Ea' & Hd').
  { eapply Forall_impl; [exact Hrest|].
    intros c Hcw. eapply capture_with_socket_preserved; eauto. }
  exists st'. cbn [set_filter_calls]. rewrite E.
  assert (Fd : dhcp_bpf_filter st' = dhcp_bpf_filter_cooked)
    by (rewrite Ed', Ed; reflexivity).
  assert (Fa : arp_bpf_filter st' = arp_bpf_filter_cooked)
    by (rewrite Ea', Ea; reflexivity).
  split; [exact E'|]. split; [exact Hd'|].
  split; [exact Fd|]. split; [exact Fa|].
  split; [rewrite Fd; repeat constructor|].
  split; [rewrite Fa; reflexivity|].
  intros cp' proto' (cap' & sp' & sk' & G1 & G2 & G3).
  destruct (ni_capture_set_filter_spec cp' proto' st' cap' sp' sk' G1 G2 G3)
    as (r' & st'' & E'' & _ & _ & _ & Hd'' & Hsame & _ & _).
  destruct (Hsame Hd') as [? ?].
  exists r', st''. auto.
Qed.

(** ** Timeout hooks *)

Lemma timercmp_lt_usecs a b :
  timeval_wf a -> timeval_wf b ->
  timercmp_lt a b = true <-> timeval_usecs a < timeval_usecs b.
Proof.
  unfold timeval_wf, timeval_usecs, timercmp_lt. intros Ha Hb.
  destruct (Z.eqb_spec (tv_sec a) (tv_sec b)) as [E|E].
  - rewrite Z.ltb_lt. lia.
  - rewrite Z.ltb_lt. lia.
Qed.

(** C6: for a socket whose capture is installed on a device, get_timeout
    returns the device's retransmit deadline T0 when it is set and returns
    none (-1) when it is not; one call of check_timeout at a time [now]
    strictly later than a set T0 invokes the FSM's retransmit operation
    exactly once, and a call with [now] not later than T0, or with the
    deadline unset, does not invoke it. *)
Theorem timeout_hooks_route_deadline st sp sk cp cap dp d tv now :
  sockets st !! sp = Some sk -> user_data sk = Some cp ->
  captures st !! cp = Some cap -> dev cap = Some dp ->
  devices st !! dp = Some d ->
  timeval_wf (retrans_deadline d) -> timeval_wf now ->
  let T0 := retrans_deadline d in
  (timerisset T0 = true ->
   __ni_dhcp_socket_get_timeout sp tv st = Some ((0, T0), st))
  /\ (timerisset T0 = false ->
      __ni_dhcp_socket_get_timeout sp tv st = Some ((-1, timerclear), st))
  /\ (timerisset T0 = true -> timeval_usecs T0 < timeval_usecs now ->
      __ni_dhcp_socket_check_timeout sp now st
      = Some (tt, set_fsm_trace
                    (fsm_trace st ++ [ni_dhcp_device_retransmit_call dp]) st))
  /\ (timerisset T0 = false \/ timeval_usecs now <= timeval_usecs T0 ->
      __ni_dhcp_socket_check_timeout sp now st = Some (tt, st)).
Proof.
  intros Hs Hu Hc Hd Hdev Hwf Hwn. cbv zeta.
  unfold __ni_dhcp_socket_get_timeout, __ni_dhcp_socket_check_timeout,
    bind, deref, ret, ni_dhcp_device_retransmit, modify.
  rewrite Hs, Hu, Hc, Hd, Hdev.
  pose proof (timercmp_lt_usecs (retrans_deadline d) now Hwf Hwn) as Hcmp.
  repeat split.
  - intros Hset. rewrite Hset. rewrite Hset. reflexivity.
  - intros Hset. rewrite Hset. reflexivity.
  - intros Hset Hlt. rewrite Hset. apply Hcmp in Hlt. rewrite Hlt. reflexivity.
  - intros [Hset | Hle].
    + rewrite Hset. reflexivity.
    + destruct (timercmp_lt (retrans_deadline d) now) eqn:E.
      * pose proof (proj1 Hcmp eq_refl). lia.
      * rewrite andb_false_r. reflexivity.
Qed.

(** ** Reopening *)

Lemma common_open_reuse st dp d cp cap sp sk proto cb :
  devices st !! dp = Some d -> capture d = Some cp ->
  captures st !! cp = Some cap -> sock cap = Some sp ->
  sockets st !! sp = Some sk -> error sk = false ->
  protocol cap = proto ->
  __ni_dhcp_common_open dp proto cb st = Some (0, st).
Proof.
  intros Hdev Hcap Hc Hs Hk He Hp.
  unfold __ni_dhcp_common_open, bind, deref, ret.
  rewrite Hdev, Hcap, Hc, Hs, Hk, He, Hp, Z.eqb_refl. reflexivity.
Qed.

(** C5 (amended): when the device already holds a capture whose socket
    exists and has no error and whose EtherType is the requested one,
    __ni_dhcp_common_open returns 0 and leaves the whole state as it was:
    same capture handle, no filter installed again, no system call; and
    ni_dhcp_socket_open does the same, dummy UDP socket included, when the
    device's listen_fd is already set. *)
Theorem reopen_is_noop st dp d cp cap sp sk :
  devices st !! dp = Some d -> capture d = Some cp ->
  captures st !! cp = Some cap -> sock cap = Some sp ->
  sockets st !! sp = Some sk -> error sk = false ->
  (forall cb, __ni_dhcp_common_open dp (protocol cap) cb st = Some (0, st))
  /\ (protocol cap = ETHERTYPE_IP -> listen_fd d <> -1 ->
      ni_dhcp_socket_open dp st = Some (0, st)).
Proof.
  intros Hdev Hcap Hc Hs Hk He. split.
  - intros cb. eapply common_open_reuse; eauto.
  - intros Hp Hl. unfold ni_dhcp_socket_open, bind, deref, ret.
    rewrite Hdev.
    destruct (Z.eqb_spec (listen_fd d) (-1)) as [E|_]; [contradiction|].
    eapply common_open_reuse; eauto.
Qed.

(** ** Receiving ARP frames *)

(** C7 (as the code behaves): when the read returns a frame, the reader
    handed to the FSM's ARP processor starts with that frame but spans the
    whole receive buffer: its length is the capture's MTU, whatever the
    number of bytes read, and past the frame it holds what the buffer held
    before. *)
Theorem arp_recv_hands_mtu_bytes st sp sk cp cap dp d buf frame rx :
  sockets st !! sp = Some sk -> user_data sk = Some cp ->
  captures st !! cp = Some cap -> dev cap = Some dp ->
  buffer cap = Some buf -> devices st !! dp = Some d ->
  kernel_rx st = Some frame :: rx ->
  Z.of_nat (length frame) <= mtu cap < 4294967296 ->
  0 < mtu cap ->
  let rd := {| base := frame ++ skipn (length frame) buf;
               head := 0; tail := mtu cap |} in
  exists st',
    ni_arp_socket_recv sp st = Some (tt, st')
    /\ fsm_trace st'
       = fsm_trace st ++ [ni_dhcp_fsm_process_arp_packet_call dp rd]
    /\ ni_buffer_count rd = mtu cap
    /\ firstn (length frame) (base rd) = frame.
Proof.
  intros Hs Hu Hc Hd Hb Hdev Hrx Hlen Hm. cbv zeta.
  unfold ni_arp_socket_recv, bind, deref, ret, ni_debug_dhcp, modify,
    sys_read_into, update_capture, ni_error, ni_dhcp_fsm_process_arp_packet.
  rewrite Hs, Hu, Hc, Hd, Hb, Hdev.
  cbn [kernel_rx set_log]. rewrite Hrx.
  unfold bind, deref, modify.
  cbn [captures set_kernel set_log]. rewrite Hc.
  rewrite firstn_all2 by lia.
  destruct (Z.ltb_spec (Z.of_nat (length frame)) 0) as [?|_]; [lia|].
  eexists. split; [reflexivity|].
  cbn [fsm_trace set_fsm_trace set_captures set_kernel set_log].
  unfold ni_buffer_init_reader. cbn [Z.to_nat drop].
  repeat split.
  - rewrite ni_buffer_count_eq by (cbn; lia). cbn. lia.
  - cbn [base]. apply take_app_length.
Qed.

(** ** The dummy UDP socket *)


(** * Further properties of the code *)

(** ** Checksum arithmetic *)

Lemma lsum_zeros n : forall f, lsum f (repeat x00 n) = 0.
Proof.
  induction n as [|n IH]; intros f; cbn [repeat lsum]; [reflexivity|].
  rewrite IH. change (Z_of_byte x00) with 0. lia.
Qed.

Lemma bytes_at_add m p a b :
  0 <= p -> 0 <= a -> 0 <= b ->
  bytes_at m p (a + b) = bytes_at m p a ++ bytes_at m (p + a) b.
Proof.
  intros Hp Ha Hb. unfold bytes_at.
  replace (Z.to_nat (a + b)) with (Z.to_nat a + Z.to_nat b)%nat by lia.
  replace (Z.to_nat (p + a)) with (Z.to_nat p + Z.to_nat a)%nat by lia.
  rewrite <- drop_drop. rewrite <- take_take_drop. reflexivity.
Qed.

Lemma lsum_zero_tail m p len k f :
  0 <= p -> 0 <= len -> 0 <= k ->
  bytes_at m (p + len) k = repeat x00 (Z.to_nat k) ->
  lsum f (bytes_at m p (len + k)) = lsum f (bytes_at m p len).
Proof.
  intros Hp Hlen Hk Hz.
  rewrite bytes_at_add, lsum_app, Hz, lsum_zeros by lia. lia.
Qed.

Lemma wordsum_add m n1 :
  forall p n2,
    wordsum m p (n1 + n2) = wordsum m p n1 + wordsum m (p + 2 * Z.of_nat n1) n2.
Proof.
  induction n1 as [|n1 IH]; intros p n2.
  - cbn [wordsum Nat.add]. replace (p + 2 * Z.of_nat 0) with p by lia. lia.
  - cbn [wordsum Nat.add]. rewrite IH.
    replace (p + 2 + 2 * Z.of_nat n1) with (p + 2 * Z.of_nat (S n1)) by lia.
    lia.
Qed.

Lemma region_sum_add m p a b :
  0 <= a -> 0 <= b -> a mod 2 = 0 ->
  region_sum m p (a + b) = region_sum m p a + region_sum m (p + a) b.
Proof.
  intros Ha Hb Ev. unfold region_sum.
  assert (Ea : a = 2 * (a / 2)) by (pose proof (Z_div_mod_eq_full a 2); lia).
  assert (Ed : (a + b) / 2 = a / 2 + b / 2).
  { rewrite Ea at 1. rewrite Z.mul_comm, Z.div_add_l by lia. reflexivity. }
  assert (Em : (a + b) mod 2 = b mod 2).
  { rewrite Ea at 1. rewrite Z.mul_comm, Z.add_comm, Z.mod_add by lia.
    reflexivity. }
  rewrite Ed, Em, Ev.
  replace (Z.to_nat (a / 2 + b / 2)) with (Z.to_nat (a / 2) + Z.to_nat (b / 2))%nat
    by (pose proof (Z.div_pos a 2); pose proof (Z.div_pos b 2); lia).
  rewrite wordsum_add.
  rewrite Z2Nat.id by (apply Z.div_pos; lia).
  change (0 =? 1) with false. cbv iota.
  replace (p + 2 * (a / 2)) with (p + a) by lia.
  replace (p + 2 * (a / 2 + b / 2)) with (p + a + 2 * (b / 2)) by lia.
  lia.
Qed.

Lemma bytes_at_store16_in m p len off v :
  0 <= p -> 0 <= off -> off + 2 <= len -> p + len <= Z.of_nat (length m) ->
  bytes_at (store16 (store16 m (p + off) 0) (p + off) v) p len
  = bytes_at m p off ++ host16 v ++ bytes_at m (p + off + 2) (len - off - 2).
Proof.
  intros Hp Ho Hl Hm.
  pose proof (bytes_at_split m (p + off) 2 ltac:(lia) ltac:(lia) ltac:(lia)) as Es.
  set (pre := firstn (Z.to_nat (p + off)) m) in *.
  set (post := skipn (Z.to_nat 2) (skipn (Z.to_nat (p + off)) m)) in *.
  assert (Hpre : Z.of_nat (length pre) = p + off)
    by (unfold pre; rewrite length_take; lia).
  pose proof (bytes_at_length m (p + off) 2 ltac:(lia) ltac:(lia) ltac:(lia)) as H2.
  destruct (bytes_at m (p + off) 2) as [|a [|b [|c r]]]; try discriminate H2.
  clear H2.
  assert (E0 : store16 m (p + off) 0 = pre ++ host16 0 ++ post).
  { rewrite Es at 1. rewrite <- Hpre, <- (Z.add_0_r (Z.of_nat (length pre))).
    rewrite store16_app_at by lia. f_equal.
    unfold host16, store16, store8. destruct big_endian; reflexivity. }
  assert (E1 : store16 (store16 m (p + off) 0) (p + off) v = pre ++ host16 v ++ post).
  { rewrite E0. rewrite <- Hpre, <- (Z.add_0_r (Z.of_nat (length pre))).
    rewrite store16_app_at by lia. f_equal.
    unfold host16, store16, store8. destruct big_endian; reflexivity. }
  rewrite E1.
  assert (Hh : forall w, length (host16 w) = 2%nat) by (intros; apply host16_length).
  replace len with (off + (2 + (len - off - 2))) at 1 by lia.
  rewrite (bytes_at_add _ p off) by lia.
  rewrite (bytes_at_add _ (p + off) 2) by lia.
  f_equal; [|f_equal].
  - unfold bytes_at, pre. rewrite !take_drop_commute.
    rewrite take_app_le by (rewrite length_take; lia).
    rewrite take_take. f_equal. f_equal. lia.
  - rewrite <- Hpre, <- (Z.add_0_r (Z.of_nat (length pre))).
    rewrite bytes_at_app_at by lia.
    unfold bytes_at. cbn [Z.to_nat skipn]. change (Pos.to_nat 2) with 2%nat.
    specialize (Hh v). destruct (host16 v) as [|a' [|b' [|c' r']]]; try discriminate Hh.
    reflexivity.
  - pose proof (bytes_at_app_at (pre ++ host16 v) post 0 (len - off - 2)
                  ltac:(lia)) as E.
    rewrite length_app, Hh, <- app_assoc in E.
    replace (Z.of_nat (length pre + 2) + 0) with (p + off + 2) in E by lia.
    rewrite E. unfold post, bytes_at. rewrite !drop_drop.
    f_equal. f_equal. lia.
Qed.

(** X3: The two end-around-carry folds of checksum_fold are enough for every
    32-bit sum: the result is the 16-bit one's complement of the sum, and it
    is zero exactly for the non-zero multiples of 0xffff. *)
Theorem checksum_fold_ones_complement s :
  0 <= s < 4294967296 ->
  0 <= checksum_fold s < 65536
  /\ (s + checksum_fold s) mod 65535 = 0
  /\ (checksum_fold s = 0 <-> s mod 65535 = 0 /\ s <> 0).
Proof.
  intros Hs. split; [apply checksum_fold_range|]. split.
  - apply checksum_fold_complement. exact Hs.
  - apply checksum_fold_zero_iff. exact Hs.
Qed.

(** X1: Summing in two steps, the second started with the result of the first,
    is summing the whole region at once, when the first part has an even
    length. *)
Theorem checksum_partial_chains m sum p a b :
  0 <= a -> 0 <= b -> a + b < 65536 -> a mod 2 = 0 ->
  0 <= sum < 4294967296 ->
  checksum_partial (checksum_partial sum m p a) m (p + a) b
  = checksum_partial sum m p (a + b).
Proof.
  intros Ha Hb Hab Ev Hs.
  rewrite (checksum_partial_spec m sum p a) by lia.
  rewrite checksum_partial_spec
    by (try lia; unfold u32; apply Z.mod_pos_bound; lia).
  rewrite checksum_partial_spec by lia.
  rewrite region_sum_add by lia.
  unfold u32. rewrite Zplus_mod_idemp_l. f_equal. lia.
Qed.

(** X2: A region of odd length is summed as if it were followed by one zero
    byte; more generally zero bytes behind a region do not change its
    checksum. *)
Theorem checksum_zero_padding m p len k :
  0 <= p -> 0 <= len -> 0 <= k -> len + k < 65536 ->
  p + len + k <= Z.of_nat (length m) ->
  bytes_at m (p + len) k = repeat x00 (Z.to_nat k) ->
  checksum m p (len + k) = checksum m p len.
Proof.
  intros Hp Hlen Hk Hb Hm Hz.
  rewrite !checksum_spec by lia.
  rewrite (lsum_zero_tail m p len k true) by (assumption || lia).
  reflexivity.
Qed.

(** X4: Filling in a checksum field: with the 16-bit field at an even offset
    of the region set to zero, storing the checksum of the region in the
    field makes the checksum of the region zero. *)
Theorem checksum_fill_verifies m p len off :
  0 <= p -> 0 <= off -> off mod 2 = 0 -> off + 2 <= len -> len < 65536 ->
  p + len <= Z.of_nat (length m) ->
  let m0 := store16 m (p + off) 0 in
  checksum (store16 m0 (p + off) (checksum m0 p len)) p len = 0.
Proof.
  intros Hp Ho Ev Hl Hlen Hm m0.
  assert (Hm0 : length m0 = length m) by apply length_store16.
  rewrite (checksum_spec (store16 m0 _ _))
    by (rewrite ?length_store16; lia).
  rewrite (checksum_spec m0) by (rewrite ?Hm0; lia).
  assert (E0 : bytes_at m0 p len
               = bytes_at m p off ++ host16 0
                 ++ bytes_at m (p + off + 2) (len - off - 2)).
  { unfold m0. rewrite <- (bytes_at_store16_in m p len off 0) by lia.
    f_equal. symmetry. apply store16_store16_same. lia. }
  rewrite E0. unfold m0. rewrite bytes_at_store16_in by lia.
  assert (Hev : Nat.even (length (bytes_at m p off)) = true).
  { rewrite bytes_at_length by lia.
    assert (Eo : off = 2 * (off / 2)) by (pose proof (Z_div_mod_eq_full off 2); lia).
    rewrite Eo. rewrite Z2Nat.inj_mul by (try lia; apply Z.div_pos; lia).
    change (Z.to_nat 2) with 2%nat. rewrite Nat.even_mul. reflexivity. }
  rewrite !lsum_app, !host16_length, Hev. cbn [Nat.even].
  rewrite !lsum_host16.
  set (A := lsum true (bytes_at m p off)).
  set (B := lsum true (bytes_at m (p + off + 2) (len - off - 2))).
  change (u16 0) with 0.
  pose proof (lsum_range true (bytes_at m p off)) as HA. fold A in HA.
  pose proof (lsum_range true (bytes_at m (p + off + 2) (len - off - 2))) as HB.
  fold B in HB.
  pose proof (lsum_region_bound m p off ltac:(lia)) as HA'. fold A in HA'.
  pose proof (lsum_region_bound m (p + off + 2) (len - off - 2) ltac:(lia)) as HB'.
  fold B in HB'.
  assert (off / 2 <= 32767) by (apply Z.div_le_upper_bound; lia).
  assert ((len - off - 2) / 2 <= 32767) by (apply Z.div_le_upper_bound; lia).
  replace (A + (u16 (checksum_fold (A + (0 + B))) + B))
    with (A + B + u16 (checksum_fold (A + B)))
    by (replace (A + (0 + B)) with (A + B) by lia; lia).
  destruct (Z.eq_dec (A + B) 0) as [E|E].
  - rewrite E. vm_compute. reflexivity.
  - apply checksum_fold_verifies; nia.
Qed.

(** ** Ingress validation, continued *)

(** X11: A read that cannot hold an IP header and a UDP header is dropped,
    whatever the buffer holds. *)
Theorem check_packet_header_short_read m data bytes pl :
  bytes < 28 ->
  cph_payload (check_packet_header m data bytes pl) = None.
Proof.
  intros Hb.
  destruct (cph_payload (check_packet_header m data bytes pl)) as [p|] eqn:E;
    [exfalso | reflexivity].
  destruct (cph_accept_inv m data bytes pl p E) as ((_ & Hhl & _) & H1 & H2 & _).
  unfold sizeof_udphdr in H2. lia.
Qed.

(** X12: Zero bytes read behind an accepted datagram (link-layer padding) do
    not change the verdict: the UDP checksum is taken over everything that
    was read. *)
Theorem check_packet_header_zero_padding m data bytes k pl p :
  0 <= data -> 0 <= k ->
  data + bytes + k <= Z.of_nat (length m) ->
  bytes + k < 65536 ->
  bytes_at m (data + bytes) k = repeat x00 (Z.to_nat k) ->
  cph_payload (check_packet_header m data bytes pl) = Some p ->
  check_packet_header m data (bytes + k) pl
  = check_packet_header m data bytes pl.
Proof.
  intros Hd Hk Hm Hb Hz E.
  destruct (cph_accept_inv m data bytes pl p E) as (Ha & H1 & H2 & Er).
  rewrite Er. unfold sizeof_udphdr in *.
  pose proof (ip_hl_range m data) as Hr.
  destruct Ha as (Hv & Hhl & Hlen & Hck & Hp & Hudp).
  apply cph_accept; unfold sizeof_udphdr; try lia.
  unfold acceptable. cbv zeta. unfold sizeof_udphdr in *.
  repeat split; try assumption; try lia.
  set (ihl := 4 * ip_hl m data) in *.
  set (n := bytes - ihl - 8) in *.
  assert (Hn : 0 <= n) by (unfold n; lia).
  assert (Hu : u16 n = n) by (unfold u16; apply Z.mod_small; unfold n; lia).
  assert (Hu' : u16 (n + k) = n + k)
    by (unfold u16; apply Z.mod_small; unfold n; lia).
  replace (bytes + k - ihl - 8) with (n + k) by (unfold n; lia).
  rewrite ipudp_checksum_spec in Hudp |- *
    by (rewrite ?Hu, ?Hu'; unfold n; lia).
  unfold udp_sum in *. rewrite Hu in Hudp. rewrite Hu'.
  rewrite (lsum_zero_tail m (data + ihl + 8) n k true);
    [exact Hudp | lia | lia | lia |].
  replace (data + ihl + 8 + n) with (data + bytes) by (unfold n; lia).
  exact Hz.
Qed.

(** ** The classifier programs, continued *)

Lemma dhcp_filter_link_run pkt :
  filter dhcp_bpf_filter_init pkt
  = (if dhcp_link_match pkt then 0xffffffff else 0).
Proof.
  unfold filter, dhcp_link_match.
  change (length dhcp_bpf_filter_init) with 11%nat.
  bpf_step.
  destruct (ld_h pkt 12) as [et|]; [|reflexivity].
  bpf_step.
  destruct (et =? ETHERTYPE_IP);
    [|bpf_step;
      destruct (ld_b pkt 23), (ld_h pkt 20), (ld_b pkt 14); reflexivity].
  bpf_step.
  destruct (ld_b pkt 23) as [proto|]; [|reflexivity].
  bpf_step.
  destruct (proto =? IPPROTO_UDP);
    [|bpf_step; destruct (ld_h pkt 20), (ld_b pkt 14); reflexivity].
  bpf_step.
  destruct (ld_h pkt 20) as [frag|]; [|reflexivity].
  bpf_step.
  destruct (Z.land frag 8191 =? 0);
    [|bpf_step; destruct (ld_b pkt 14); reflexivity].
  bpf_step.
  destruct (ld_b pkt 14) as [vhl|]; [|reflexivity].
  bpf_step.
  replace (4 * Z.land vhl 15 + 16) with (14 + 4 * Z.land vhl 15 + 2) by lia.
  destruct (ld_h pkt (14 + 4 * Z.land vhl 15 + 2)) as [dport|]; [|reflexivity].
  bpf_step.
  destruct (dport =? DHCP_CLIENT_PORT); bpf_step; reflexivity.
Qed.

Lemma dhcp_filter_cooked_run pkt :
  filter dhcp_bpf_filter_cooked pkt
  = (if dhcp_cooked_match pkt then 0xffffffff else 0).
Proof.
  unfold filter, dhcp_cooked_match.
  change (length dhcp_bpf_filter_cooked) with 11%nat.
  bpf_step.
  destruct (ld_h pkt 12) as [et|]; [|reflexivity].
  bpf_step.
  assert (E : (if et =? ETHERTYPE_IP then 0 else 0) = 0)
    by (destruct (et =? ETHERTYPE_IP); reflexivity).
  rewrite E. clear E.
  unfold dhcp_bpf_filter_cooked.
  change (23 - ETH_HLEN) with 9. change (20 - ETH_HLEN) with 6.
  change (14 - ETH_HLEN) with 0. change (16 - ETH_HLEN) with 2.
  bpf_step.
  destruct (ld_b pkt 9) as [proto|]; [|reflexivity].
  bpf_step.
  destruct (proto =? IPPROTO_UDP);
    [|bpf_step; destruct (ld_h pkt 6), (ld_b pkt 0); reflexivity].
  bpf_step.
  destruct (ld_h pkt 6) as [frag|]; [|reflexivity].
  bpf_step.
  destruct (Z.land frag 8191 =? 0);
    [|bpf_step; destruct (ld_b pkt 0); reflexivity].
  bpf_step.
  destruct (ld_b pkt 0) as [vhl|]; [|reflexivity].
  bpf_step.
  destruct (ld_h pkt (4 * Z.land vhl 15 + 2)) as [dport|]; [|reflexivity].
  bpf_step.
  destruct (dport =? DHCP_CLIENT_PORT); bpf_step; reflexivity.
Qed.

Lemma arp_filter_link_run pkt :
  filter arp_bpf_filter_init pkt
  = (if arp_link_match pkt then 0xffffffff else 0).
Proof.
  unfold filter, arp_link_match.
  change (length arp_bpf_filter_init) with 6%nat.
  bpf_step.
  destruct (ld_h pkt 12) as [et|]; [|reflexivity].
  bpf_step.
  destruct (et =? ETHERTYPE_ARP);
    [|bpf_step; destruct (ld_h pkt 20); reflexivity].
  bpf_step.
  destruct (ld_h pkt 20) as [op|]; [|reflexivity].
  bpf_step.
  destruct (op =? ARPOP_REPLY); bpf_step; reflexivity.
Qed.

Lemma arp_filter_cooked_run pkt :
  filter arp_bpf_filter_cooked pkt
  = (if arp_cooked_match pkt then 0xffffffff else 0).
Proof.
  unfold filter, arp_cooked_match.
  change (length arp_bpf_filter_cooked) with 6%nat.
  bpf_step.
  destruct (ld_h pkt 12) as [et|]; [|reflexivity].
  bpf_step.
  assert (E : (if et =? ETHERTYPE_ARP then 0 else 0) = 0)
    by (destruct (et =? ETHERTYPE_ARP); reflexivity).
  rewrite E. clear E.
  unfold arp_bpf_filter_cooked. change (20 - ETH_HLEN) with 6.
  bpf_step.
  destruct (ld_h pkt 6) as [op|]; [|reflexivity].
  bpf_step.
  destruct (op =? ARPOP_REPLY); bpf_step; reflexivity.
Qed.

Lemma ld_b_in pkt off :
  0 <= off -> off + 1 <= pkt_len pkt -> ld_b pkt off = Some (load8 pkt off).
Proof.
  intros H1 H2. unfold ld_b.
  destruct (Z.leb_spec 0 off); [|lia].
  destruct (Z.leb_spec (off + 1) (pkt_len pkt)); [|lia]. reflexivity.
Qed.

Lemma ld_h_in pkt off :
  0 <= off -> off + 2 <= pkt_len pkt ->
  ld_h pkt off = Some (load8 pkt off * 256 + load8 pkt (off + 1)).
Proof.
  intros H1 H2. unfold ld_h.
  destruct (Z.leb_spec 0 off); [|lia].
  destruct (Z.leb_spec (off + 2) (pkt_len pkt)); [|lia]. reflexivity.
Qed.

Lemma ld_h_out pkt off : pkt_len pkt < off + 2 -> ld_h pkt off = None.
Proof.
  intros H. unfold ld_h.
  destruct (Z.leb_spec (off + 2) (pkt_len pkt)); [lia|].
  rewrite andb_false_r. reflexivity.
Qed.

Lemma pkt_len_app pre l : pkt_len (pre ++ l) = pkt_len pre + pkt_len l.
Proof. unfold pkt_len. rewrite length_app. lia. Qed.

Lemma ld_b_app pre l k :
  0 <= k -> ld_b (pre ++ l) (pkt_len pre + k) = ld_b l k.
Proof.
  intros Hk. unfold ld_b. rewrite pkt_len_app. unfold pkt_len.
  rewrite load8_app_r by lia.
  destruct (Z.leb_spec 0 k); [|lia].
  destruct (Z.leb_spec 0 (Z.of_nat (length pre) + k)); [|lia].
  destruct (Z.leb_spec (k + 1) (Z.of_nat (length l)));
    destruct (Z.leb_spec (Z.of_nat (length pre) + k + 1)
                (Z.of_nat (length pre) + Z.of_nat (length l)));
    try lia; reflexivity.
Qed.

Lemma ld_h_app pre l k :
  0 <= k -> ld_h (pre ++ l) (pkt_len pre + k) = ld_h l k.
Proof.
  intros Hk. unfold ld_h. rewrite pkt_len_app. unfold pkt_len.
  replace (Z.of_nat (length pre) + k + 1)
    with (Z.of_nat (length pre) + (k + 1)) by lia.
  rewrite !load8_app_r by lia.
  destruct (Z.leb_spec 0 k); [|lia].
  destruct (Z.leb_spec 0 (Z.of_nat (length pre) + k)); [|lia].
  destruct (Z.leb_spec (k + 2) (Z.of_nat (length l)));
    destruct (Z.leb_spec (Z.of_nat (length pre) + k + 2)
                (Z.of_nat (length pre) + Z.of_nat (length l)));
    try lia; reflexivity.
Qed.

Lemma ld_h_app_l pre l k :
  0 <= k -> k + 2 <= pkt_len pre -> ld_h (pre ++ l) k = ld_h pre k.
Proof.
  intros Hk Hl. unfold ld_h. rewrite pkt_len_app.
  unfold pkt_len in *. rewrite !load8_app_l by lia.
  destruct (Z.leb_spec 0 k); [|lia].
  destruct (Z.leb_spec (k + 2) (Z.of_nat (length pre)));
    destruct (Z.leb_spec (k + 2) (Z.of_nat (length pre) + Z.of_nat (length l)));
    try lia; reflexivity.
Qed.

(** X14: The ARP program accepts exactly the frames with EtherType ARP whose
    16-bit word at offset 20 (the ARP operation) is REPLY; after the
    massage it accepts exactly the packets whose word at offset 6 is REPLY
    and that reach to offset 14.  Every other frame, ARP requests included,
    is dropped. *)
Theorem arp_bpf_filter_selects pkt :
  filter arp_bpf_filter_init pkt
  = (if arp_link_match pkt then 0xffffffff else 0)
  /\ filter arp_bpf_filter_cooked pkt
     = (if arp_cooked_match pkt then 0xffffffff else 0).
Proof.
  split; [apply arp_filter_link_run | apply arp_filter_cooked_run].
Qed.

(** X15: The massage compensates for the missing link-layer header: on a packet
    of at least 14 bytes each massaged program gives the verdict of the
    original program on the same packet behind a 14-byte header with the
    program's EtherType.  A packet shorter than 14 bytes is dropped by the
    massaged programs, which still load the word at offset 12. *)
Theorem cooked_programs_compensate eth pkt :
  length eth = 14%nat ->
  (14 <= pkt_len pkt ->
   (eth_type eth = Some ETHERTYPE_IP ->
    filter dhcp_bpf_filter_cooked pkt = filter dhcp_bpf_filter_init (eth ++ pkt))
   /\ (eth_type eth = Some ETHERTYPE_ARP ->
       filter arp_bpf_filter_cooked pkt = filter arp_bpf_filter_init (eth ++ pkt)))
  /\ (pkt_len pkt < 14 ->
      filter dhcp_bpf_filter_cooked pkt = 0
      /\ filter arp_bpf_filter_cooked pkt = 0).
Proof.
  intros He.
  assert (Hl : pkt_len eth = 14) by (unfold pkt_len; rewrite He; reflexivity).
  split.
  - intros Hp.
    assert (H12 : exists w, ld_h pkt 12 = Some w)
      by (rewrite ld_h_in by lia; eauto).
    destruct H12 as (w & H12).
    split; intros Ht; unfold eth_type in Ht.
    + rewrite dhcp_filter_cooked_run, dhcp_filter_link_run.
      unfold dhcp_cooked_match, dhcp_link_match.
      rewrite (ld_h_app_l eth pkt 12), Ht by lia.
      change 23 with (14 + 9). change 20 with (14 + 6).
      change (ld_b (eth ++ pkt) 14) with (ld_b (eth ++ pkt) (14 + 0)).
      rewrite <- Hl.
      rewrite !ld_b_app, !ld_h_app by lia. rewrite H12.
      cbn [Z.eqb ETHERTYPE_IP Pos.eqb andb].
      destruct (ld_b pkt 9) as [proto|]; [|reflexivity].
      destruct (ld_h pkt 6) as [frag|]; [|reflexivity].
      destruct (ld_b pkt 0) as [vhl|]; [|reflexivity].
      rewrite <- Z.add_assoc, ld_h_app
        by (pose proof (Z.land_nonneg vhl 15); lia).
      reflexivity.
    + rewrite arp_filter_cooked_run, arp_filter_link_run.
      unfold arp_cooked_match, arp_link_match.
      rewrite (ld_h_app_l eth pkt 12), Ht by lia.
      change 20 with (14 + 6). rewrite <- Hl.
      rewrite !ld_h_app by lia. rewrite H12.
      cbn [Z.eqb ETHERTYPE_ARP Pos.eqb andb].
      destruct (ld_h pkt 6); reflexivity.
  - intros Hp.
    assert (H12 : ld_h pkt 12 = None) by (apply ld_h_out; lia).
    rewrite dhcp_filter_cooked_run, arp_filter_cooked_run.
    unfold dhcp_cooked_match, arp_cooked_match. rewrite H12.
    split; reflexivity.
Qed.

(** X9: What the client sends is not what it captures: the frame built by
    ni_dhcp_build_send_header goes to UDP port 67, so both forms of the
    DHCP program, which select port 68, drop it. *)
Theorem built_frame_not_captured bp src dst eth :
  28 <= head bp -> head bp <= tail bp ->
  tail bp <= Z.of_nat (length (base bp)) ->
  tail bp - head bp + 28 <= 65535 ->
  length eth = 14%nat ->
  exists bp',
    ni_dhcp_build_send_header bp src dst = Some (0, bp')
    /\ filter dhcp_bpf_filter_cooked (ni_buffer_data bp') = 0
    /\ filter dhcp_bpf_filter_init (eth ++ ni_buffer_data bp') = 0.
Proof.
  intros H1 H2 H3 H4 He.
  destruct (build_send_header_frame bp src dst H1 H2 H3 H4)
    as (bp' & Hb & _ & _ & _ & Ef).
  exists bp'. split; [exact Hb|]. rewrite Ef.
  set (payload := ni_buffer_data bp).
  assert (HL : Z.of_nat (length payload) + 28 <= 65535).
  { unfold payload, ni_buffer_data. rewrite ni_buffer_count_eq by lia.
    rewrite bytes_at_length by lia. lia. }
  pose proof (frame_ip_fixed src dst payload [] HL) as (H0 & _).
  pose proof (frame_udp_fixed src dst payload [] HL) as (_ & Hd & _).
  rewrite app_nil_r in H0, Hd. rewrite ntohs_load16 in Hd.
  set (frame := dhcp_frame src dst payload) in *.
  assert (Hlen : 28 <= pkt_len frame)
    by (unfold pkt_len, frame; rewrite dhcp_frame_length; lia).
  assert (Hvhl : ld_b frame 0 = Some 69)
    by (rewrite ld_b_in, H0 by lia; reflexivity).
  assert (Hport : ld_h frame 22 = Some DHCP_SERVER_PORT)
    by (rewrite ld_h_in, Hd by lia; reflexivity).
  assert (Hc : dhcp_cooked_match frame = false).
  { unfold dhcp_cooked_match. rewrite Hvhl.
    change (4 * Z.land 69 15 + 2) with 22. rewrite Hport.
    destruct (ld_h frame 12), (ld_b frame 9) as [proto|], (ld_h frame 6) as [frag|];
      try reflexivity.
    change (DHCP_SERVER_PORT =? DHCP_CLIENT_PORT) with false.
    apply andb_false_r. }
  split.
  - rewrite dhcp_filter_cooked_run, Hc. reflexivity.
  - rewrite dhcp_filter_link_run.
    assert (Hl : pkt_len eth = 14) by (unfold pkt_len; rewrite He; reflexivity).
    unfold dhcp_link_match.
    replace (ld_b (eth ++ frame) 14) with (ld_b frame 0)
      by (rewrite <- (ld_b_app eth frame 0), Hl; [reflexivity | lia]).
    rewrite Hvhl. change (14 + 4 * Z.land 69 15 + 2) with (14 + 22).
    replace (ld_h (eth ++ frame) (14 + 22)) with (ld_h frame 22)
      by (rewrite <- (ld_h_app eth frame 22), Hl; [reflexivity | lia]).
    rewrite Hport.
    destruct (ld_h (eth ++ frame) 12), (ld_b (eth ++ frame) 23) as [proto|],
      (ld_h (eth ++ frame) 20) as [frag|]; try reflexivity.
    change (DHCP_SERVER_PORT =? DHCP_CLIENT_PORT) with false.
    rewrite andb_false_r. reflexivity.
Qed.

(** ** Opening and closing captures *)

Lemma length_malloc p size : length (malloc p size) = Z.to_nat size.
Proof. unfold malloc. rewrite length_map, length_seq. reflexivity. Qed.

Lemma heap_fresh_next st :
  heap_fresh st ->
  captures st !! next_ptr st = None /\ sockets st !! S (next_ptr st) = None.
Proof.
  intros H. split.
  - apply (H (next_ptr st)). lia.
  - apply (H (S (next_ptr st))). lia.
Qed.

Ltac conj_split :=
  repeat match goal with |- _ /\ _ => split end.

Lemma ni_capture_set_filter_run cp proto st cap sp sk :
  captures st !! cp = Some cap -> sock cap = Some sp ->
  sockets st !! sp = Some sk ->
  exists st',
    ni_capture_set_filter cp proto st
    = Some (if hd (-1) (kernel_ret st) <? 0 then -1 else 0, st')
    /\ devices st' = devices st /\ captures st' = captures st
    /\ sockets st' = sockets st /\ next_ptr st' = next_ptr st
    /\ kernel_ret st' = tl (kernel_ret st) /\ kernel_rx st' = kernel_rx st
    /\ fsm_trace st' = fsm_trace st /\ done st' = true
    /\ dhcp_bpf_filter st' = massage_dhcp (done st) (dhcp_bpf_filter st)
    /\ arp_bpf_filter st' = massage_arp (done st) (arp_bpf_filter st)
    /\ sys_trace st'
       = sys_trace st
         ++ [sys_setsockopt (__fd sk)
               (SO_ATTACH_FILTER (if proto =? ETHERTYPE_ARP
                                  then arp_bpf_filter st'
                                  else dhcp_bpf_filter st'))].
Proof.
  intros Hc Hs Hk.
  unfold ni_capture_set_filter, bind, modify, deref, sys, ni_error, ret.
  unfold massage_dhcp, massage_arp.
  destruct (done st) eqn:Hd.
  - rewrite Hc, Hs, Hk.
    destruct (hd (-1) (kernel_ret st) <? 0);
      eexists; (split; [reflexivity|]); cbn;
      conj_split; try assumption; reflexivity.
  - cbn [captures set_filters sockets]. rewrite Hc, Hs. cbn [sockets set_filters].
    rewrite Hk. cbn [kernel_ret set_filters].
    destruct (hd (-1) (kernel_ret st) <? 0);
      eexists; (split; [reflexivity|]); cbn;
      conj_split; try assumption; reflexivity.
Qed.

Lemma ni_capture_free_run cp st cap sp sk :
  captures st !! cp = Some cap -> sock cap = Some sp ->
  sockets st !! sp = Some sk ->
  exists st',
    ni_capture_free cp st = Some (tt, st')
    /\ devices st' = devices st
    /\ captures st' = delete cp (captures st)
    /\ sockets st' = delete sp (sockets st)
    /\ next_ptr st' = next_ptr st
    /\ kernel_ret st' = kernel_ret st /\ kernel_rx st' = kernel_rx st
    /\ fsm_trace st' = fsm_trace st /\ log st' = log st
    /\ done st' = done st /\ dhcp_bpf_filter st' = dhcp_bpf_filter st
    /\ arp_bpf_filter st' = arp_bpf_filter st
    /\ sys_trace st' = sys_trace st ++ [sys_close (__fd sk)].
Proof.
  intros Hc Hs Hk.
  unfold ni_capture_free, ni_socket_close, bind, deref, modify, sys_, ret.
  rewrite Hc, Hs, Hk.
  eexists. split; [reflexivity|]. cbn. conj_split; reflexivity.
Qed.

Lemma ni_capture_open_spec st dp d proto cb :
  devices st !! dp = Some d -> heap_fresh st ->
  let fd := hd (-1) (kernel_ret st) in
  let r1 := hd (-1) (tl (kernel_ret st)) in
  let r2 := hd (-1) (tl (tl (kernel_ret st))) in
  let cp := next_ptr st in
  exists res st' calls,
    ni_capture_open dp proto cb st = Some (res, st')
    /\ devices st' = devices st /\ fsm_trace st' = fsm_trace st
    /\ kernel_rx st' = kernel_rx st
    /\ sys_trace st' = sys_trace st ++ calls
    /\ match ni_link_address_get_broadcast (system_iftype d) with
       | Some brdaddr =>
           if negb (system_ifindex d =? 0) && negb (fd <? 0)
              && negb (r1 <? 0) && negb (r2 =? -1)
           then
             res = Some cp
             /\ next_ptr st' = S (S cp)
             /\ captures st'
                = <[cp := opened_capture d proto brdaddr (S cp)
                  (malloc cp (capture_mtu d))]> (captures st)
             /\ sockets st'
                = <[S cp := opened_socket fd cp cb]> (sockets st)
             /\ done st' = true
             /\ dhcp_bpf_filter st' = massage_dhcp (done st) (dhcp_bpf_filter st)
             /\ arp_bpf_filter st' = massage_arp (done st) (arp_bpf_filter st)
             /\ calls
                = [ sys_socket PF_PACKET SOCK_DGRAM (htons proto);
                    sys_fcntl_cloexec fd;
                    sys_setsockopt fd
                      (SO_ATTACH_FILTER (if proto =? ETHERTYPE_ARP
                                         then arp_bpf_filter st'
                                         else dhcp_bpf_filter st'));
                    sys_bind fd (sockaddr_link
                      {| sll_family := PF_PACKET; sll_protocol := htons proto;
                         sll_ifindex := system_ifindex d; sll_hatype := 0;
                         sll_halen := 0; sll_addr := [] |}) ]
           else
             res = None /\ captures st' = captures st
             /\ sockets st' = sockets st
             /\ (next_ptr st <= next_ptr st')%nat
             /\ no_fd_left fd calls
       | None =>
           res = None /\ captures st' = captures st
           /\ sockets st' = sockets st /\ next_ptr st' = next_ptr st
           /\ calls = []
       end.
Proof.
  intros Hdev Hfresh. cbv zeta.
  destruct (heap_fresh_next st Hfresh) as [Hfc Hfs].
  unfold ni_capture_open.
  cbv beta iota zeta delta [bind deref ret sys sys_ modify ni_error].
  rewrite Hdev. cbv beta iota.
  destruct (Z.eqb_spec (system_ifindex d) 0) as [Hi|Hi].
  { cbn [negb andb].
    eexists None, _, []. split; [reflexivity|]. cbn. rewrite app_nil_r.
    conj_split; try reflexivity.
    destruct (ni_link_address_get_broadcast (system_iftype d));
      conj_split; try reflexivity; try lia. left. reflexivity. }
  destruct (ni_link_address_get_broadcast (system_iftype d)) as [brdaddr|].
  2: { eexists None, _, []. split; [reflexivity|]. cbn. rewrite app_nil_r.
       conj_split; reflexivity. }
  cbn [negb andb].
  destruct (Z.ltb_spec (hd (-1) (kernel_ret st)) 0) as [Hfd|Hfd].
  { cbn [negb andb].
    eexists None, _, [_]. split; [reflexivity|]. cbn.
    conj_split; try reflexivity; try lia.
    right. left. split; [exact Hfd|]. eauto. }
  cbn [negb andb].
  set (fd := hd (-1) (kernel_ret st)) in *.
  unfold calloc_capture, ni_socket_wrap, update_capture, bind, deref, modify.
  cbn [captures sockets next_ptr set_kernel set_next_ptr set_captures set_sockets
       kernel_ret kernel_rx sys_trace].
  rewrite lookup_insert_eq.
  cbn [captures sockets next_ptr set_kernel set_next_ptr set_captures set_sockets
       kernel_ret kernel_rx sys_trace dev buffer mtu].
  match goal with
  | |- context [ni_capture_set_filter _ _ ?s] => set (s3 := s)
  end.
  destruct (ni_capture_set_filter_run (next_ptr st) proto s3 _ _ _
              (lookup_insert_eq _ _ _) eq_refl (lookup_insert_eq _ _ _))
    as (s4 & E4 & Hd4 & Hc4 & Hs4 & Hn4 & Hk4 & Hx4 & Hf4 & Hdone4 & Hpd4 & Hpa4
        & Ht4).
  rewrite E4. clear E4.
  subst s3.
  cbn [devices captures sockets next_ptr kernel_ret kernel_rx sys_trace fsm_trace
       done dhcp_bpf_filter arp_bpf_filter
       set_kernel set_captures set_next_ptr set_sockets __fd] in *.
  rewrite insert_insert_eq in Hc4.
  set (r1 := hd (-1) (tl (kernel_ret st))) in *.
  destruct (Z.ltb_spec r1 0) as [Hr1|Hr1]; cbn [negb andb].
  { change (-1 <? 0) with true. cbv beta iota.
    edestruct (ni_capture_free_run (next_ptr st) s4) as
      (s5 & E5 & Hd5 & Hc5 & Hs5 & Hn5 & _ & Hx5 & Hf5 & _ & _ & _ & _ & Ht5).
    { rewrite Hc4. apply lookup_insert_eq. }
    { reflexivity. }
    { rewrite Hs4. apply lookup_insert_eq. }
    rewrite E5. eexists None, s5, _. split; [reflexivity|].
    rewrite Hd5, Hd4, Hf5, Hf4, Hx5, Hx4, Hc5, Hc4, Hs5, Hs4, Hn5, Hn4, Ht5, Ht4.
    rewrite !delete_insert_id by assumption.
    rewrite <- !app_assoc. cbn [app __fd].
    conj_split; try reflexivity; try lia.
    right. right. split; [exact Hfd|].
    eexists [_; _; _]. reflexivity. }
  change (0 <? 0) with false. cbv beta iota.
  rewrite Hk4.
  set (r2 := hd (-1) (tl (tl (kernel_ret st)))) in *.
  destruct (Z.eqb_spec r2 (-1)) as [Hr2|Hr2]; cbn [negb andb].
  { edestruct (ni_capture_free_run (next_ptr st)) as
      (s5 & E5 & Hd5 & Hc5 & Hs5 & Hn5 & _ & Hx5 & Hf5 & _ & _ & _ & _ & Ht5);
      [| | | rewrite E5].
    { cbn [captures set_log set_kernel]. rewrite Hc4. apply lookup_insert_eq. }
    { reflexivity. }
    { cbn [sockets set_log set_kernel]. rewrite Hs4. apply lookup_insert_eq. }
    eexists None, s5, _. split; [reflexivity|].
    cbn [devices captures sockets next_ptr kernel_ret kernel_rx sys_trace
         fsm_trace set_kernel set_log] in *.
    rewrite Hd5, Hd4, Hf5, Hf4, Hx5, Hx4, Hc5, Hc4, Hs5, Hs4, Hn5, Hn4, Ht5, Ht4.
    rewrite !delete_insert_id by assumption.
    rewrite <- !app_assoc. cbn [app __fd].
    conj_split; try reflexivity; try lia.
    right. right. split; [exact Hfd|].
    eexists [_; _; _; _]. reflexivity. }
  unfold update_sock, ni_socket_activate, update_sock, bind, deref, modify, ret.
  cbn [devices captures sockets next_ptr kernel_ret kernel_rx sys_trace
       fsm_trace set_kernel set_captures set_sockets].
  rewrite Hc4, lookup_insert_eq.
  cbn [devices captures sockets next_ptr kernel_ret kernel_rx sys_trace
       fsm_trace set_kernel set_captures set_sockets].
  rewrite Hs4, lookup_insert_eq.
  cbn [devices captures sockets next_ptr kernel_ret kernel_rx sys_trace
       fsm_trace set_kernel set_captures set_sockets].
  rewrite lookup_insert_eq.
  eexists (Some _), _, _. split; [reflexivity|].
  cbn [devices captures sockets next_ptr kernel_ret kernel_rx sys_trace
       fsm_trace set_kernel set_captures set_sockets done dhcp_bpf_filter
       arp_bpf_filter dev sock protocol sll buffer mtu __fd error user_data
       data_ready get_timeout check_timeout active].
  rewrite Hd4, Hf4, Hx4, Hc4, Hs4, Hn4, Ht4, Hdone4, Hpd4, Hpa4.
  rewrite !insert_insert_eq. rewrite <- !app_assoc. cbn [app].
  conj_split; reflexivity.
Qed.


(** X25: When ni_capture_open fails, at whatever step, the devices, captures
    and socket wrappers are what they were before the call, and no
    descriptor is left open: the packet socket, when it was created, is
    closed again. *)
Theorem ni_capture_open_failure_is_clean st dp d proto cb :
  devices st !! dp = Some d -> heap_fresh st ->
  exists res st' calls,
    ni_capture_open dp proto cb st = Some (res, st')
    /\ sys_trace st' = sys_trace st ++ calls
    /\ (res = None ->
        devices st' = devices st /\ captures st' = captures st
        /\ sockets st' = sockets st
        /\ no_fd_left (hd (-1) (kernel_ret st)) calls).
Proof.
  intros Hdev Hfresh.
  destruct (ni_capture_open_spec st dp d proto cb Hdev Hfresh)
    as (res & st' & calls & E & Hd & _ & _ & Ht & H).
  exists res, st', calls. split; [exact E|]. split; [exact Ht|].
  intros ->. split; [exact Hd|].
  destruct (ni_link_address_get_broadcast (system_iftype d)).
  - match type of H with (if ?c then _ else _) => destruct c end.
    + destruct H as (H & _). discriminate H.
    + destruct H as (_ & Hc & Hs & _ & Hn). auto.
  - destruct H as (_ & Hc & Hs & _ & ->). conj_split; try assumption.
    left. reflexivity.
Qed.

(** X26: A device without an interface index, or of an interface type that has
    no broadcast address, is refused before any system call is made: the
    only effect is one error message. *)
Theorem ni_capture_open_refuses_device st dp d proto cb :
  devices st !! dp = Some d ->
  system_ifindex d = 0
  \/ ni_link_address_get_broadcast (system_iftype d) = None ->
  exists msg,
    ni_capture_open dp proto cb st
    = Some (None, set_log (log st ++ [log_error msg]) st).
Proof.
  intros Hdev H.
  unfold ni_capture_open, bind, deref, ret, modify, ni_error.
  rewrite Hdev.
  destruct (Z.eqb_spec (system_ifindex d) 0) as [Hi|Hi]; [eauto|].
  destruct H as [H|H]; [contradiction|]. rewrite H. eauto.
Qed.

(** ** Opening through the adapters *)

Lemma heap_fresh_below_c st p c :
  heap_fresh st -> captures st !! p = Some c -> (p < next_ptr st)%nat.
Proof.
  intros Hf Hc. destruct (Nat.lt_ge_cases p (next_ptr st)) as [?|Hge]; [assumption|].
  destruct (Hf p Hge) as [E _]. congruence.
Qed.

Lemma heap_fresh_below_s st p k :
  heap_fresh st -> sockets st !! p = Some k -> (p < next_ptr st)%nat.
Proof.
  intros Hf Hc. destruct (Nat.lt_ge_cases p (next_ptr st)) as [?|Hge]; [assumption|].
  destruct (Hf p Hge) as [_ E]. congruence.
Qed.

(** The part of __ni_dhcp_common_open behind the reuse test, run on a
    device that holds no capture. *)
Lemma open_and_link_spec st dp d proto cb :
  devices st !! dp = Some d -> capture d = None -> heap_fresh st ->
  forall K : option nat -> M Z,
    K = (fun c =>
           match c with
           | None => ret (-1)
           | Some cp =>
               cap <- deref captures cp ;;
               match sock cap with
               | None => crash
               | Some sp =>
                   update_sock sp hooked_socket ;;;
                   update_dev dp (set_dev_capture (Some cp)) ;;;
                   update_capture cp (linked_capture dp) ;;;
                   ret 0
               end
           end) ->
  exists r st' calls,
    bind (ni_capture_open dp proto cb) K st = Some (r, st')
    /\ heap_fresh st' /\ device_linked st' dp
    /\ fsm_trace st' = fsm_trace st
    /\ sys_trace st' = sys_trace st ++ calls
    /\ ((r = -1 /\ devices st' = devices st
         /\ captures st' = captures st /\ sockets st' = sockets st)
        \/ (r = 0 /\ exists brdaddr,
              let cp := next_ptr st in
              devices st' = <[dp := set_dev_capture (Some cp) d]> (devices st)
              /\ captures st'
                 = <[cp := linked_capture dp
                             (opened_capture d proto brdaddr (S cp)
                  (malloc cp (capture_mtu d)))]>
                     (captures st)
              /\ sockets st'
                 = <[S cp := hooked_socket
                               (opened_socket (hd (-1) (kernel_ret st)) cp cb)]>
                     (sockets st))).
Proof.
  intros Hdev Hcap Hfresh K ->.
  destruct (ni_capture_open_spec st dp d proto cb Hdev Hfresh)
    as (res & s1 & calls & E & Hd1 & Hf1 & _ & Ht1 & H).
  unfold bind at 1. rewrite E.
  assert (Hfail : res = None -> devices s1 = devices st ->
            captures s1 = captures st -> sockets s1 = sockets st ->
            (next_ptr st <= next_ptr s1)%nat ->
            exists r st' calls0,
              match res with
              | Some cp =>
                  cap <- deref captures cp;;
                  match sock cap with
                  | Some sp =>
                      update_sock sp hooked_socket;;;
                      update_dev dp (set_dev_capture (Some cp));;;
                      update_capture cp (linked_capture dp);;; ret 0
                  | None => crash
                  end
              | None => ret (-1)
              end s1 = Some (r, st')
              /\ heap_fresh st' /\ device_linked st' dp
              /\ fsm_trace st' = fsm_trace st
              /\ sys_trace st' = sys_trace st ++ calls0
              /\ ((r = -1 /\ devices st' = devices st
                   /\ captures st' = captures st /\ sockets st' = sockets st)
                  \/ (r = 0 /\ exists brdaddr,
                        let cp := next_ptr st in
                        devices st' = <[dp := set_dev_capture (Some cp) d]> (devices st)
                        /\ captures st'
                           = <[cp := linked_capture dp
                                       (opened_capture d proto brdaddr (S cp)
                  (malloc cp (capture_mtu d)))]>
                               (captures st)
                        /\ sockets st'
                           = <[S cp := hooked_socket
                                         (opened_socket (hd (-1) (kernel_ret st)) cp cb)]>
                               (sockets st)))).
  { intros -> Hd Hc Hs Hn.
    exists (-1), s1, calls. split; [reflexivity|].
    split.
    { intros p Hp. rewrite Hc, Hs. apply Hfresh. lia. }
    split.
    { intros d0 cp0 H0 H1. rewrite Hd, Hdev in H0. congruence. }
    split; [exact Hf1|]. split; [exact Ht1|]. left. auto. }
  destruct (ni_link_address_get_broadcast (system_iftype d)) as [brdaddr|].
  2: { destruct H as (Hr & Hc & Hs & Hn & _).
       apply Hfail; try assumption. lia. }
  match type of H with (if ?c then _ else _) => destruct c end.
  2: { destruct H as (Hr & Hc & Hs & Hn & _). apply Hfail; assumption. }
  clear Hfail.
  destruct H as (-> & Hn & Hc & Hs & _).
  cbv beta iota.
  unfold bind, deref, update_sock, update_dev, update_capture, bind, deref,
    modify, ret.
  rewrite Hc, lookup_insert_eq. cbn [sock opened_capture]. cbv beta iota.
  rewrite Hs, lookup_insert_eq. cbv beta iota.
  cbn [devices captures sockets set_sockets set_devices set_captures].
  rewrite Hd1, Hdev. cbv beta iota.
  cbn [devices captures sockets set_sockets set_devices set_captures].
  rewrite Hc, lookup_insert_eq. cbv beta iota.
  eexists 0, _, calls. split; [reflexivity|].
  unfold heap_fresh, device_linked.
  cbn [devices captures sockets next_ptr fsm_trace sys_trace
       set_sockets set_devices set_captures].
  rewrite ?Hd1, ?Hc, ?Hs, ?Hn, ?insert_insert_eq.
  destruct (heap_fresh_next st Hfresh) as [Hfc Hfs].
  split.
  { intros p Hp.
    rewrite !lookup_insert_ne by lia. apply Hfresh. lia. }
  split.
  { intros d0 cp0 H0 H1. rewrite lookup_insert_eq in H0.
    injection H0 as <-. cbn [capture set_dev_capture] in H1.
    injection H1 as <-.
    eexists _, _, _, _. split; [apply lookup_insert_eq|].
    split; [reflexivity|]. split; [reflexivity|].
    split; [apply lookup_insert_eq|].
    split; [reflexivity|]. split; [reflexivity|].
    cbn [mtu linked_capture opened_capture]. apply length_malloc. }
  split; [exact Hf1|]. split; [exact Ht1|].
  right. split; [reflexivity|]. exists brdaddr. cbv zeta. auto.
Qed.

Lemma heap_fresh_delete st st' cp sp :
  heap_fresh st ->
  captures st' = delete cp (captures st) ->
  sockets st' = delete sp (sockets st) ->
  next_ptr st' = next_ptr st ->
  heap_fresh st'.
Proof.
  intros Hf Hc Hs Hn p Hp. rewrite Hc, Hs, !lookup_delete.
  rewrite Hn in Hp. destruct (Hf p Hp) as [H1 H2].
  split; case_decide; auto.
Qed.

Lemma common_open_spec st dp d proto cb :
  devices st !! dp = Some d -> heap_fresh st -> device_linked st dp ->
  exists r st' calls d',
    __ni_dhcp_common_open dp proto cb st = Some (r, st')
    /\ heap_fresh st' /\ device_linked st' dp
    /\ fsm_trace st' = fsm_trace st
    /\ sys_trace st' = sys_trace st ++ calls
    /\ devices st' !! dp = Some d'
    /\ d' = set_dev_capture (capture d') d
    /\ (reuse_ok st d proto = true -> r = 0 /\ st' = st)
    /\ (reuse_ok st d proto = false ->
        (forall cp cap sp sk,
            capture d = Some cp -> captures st !! cp = Some cap ->
            sock cap = Some sp -> sockets st !! sp = Some sk ->
            captures st' !! cp = None /\ sockets st' !! sp = None
            /\ exists rest, calls = sys_close (__fd sk) :: rest)
        /\ ((r = -1 /\ capture d' = None)
            \/ (r = 0 /\ exists brdaddr fd,
                  let cp' := next_ptr st in
                  capture d' = Some cp'
                  /\ captures st' !! cp'
                     = Some (linked_capture dp
                               (opened_capture d proto brdaddr (S cp')
                                  (malloc cp' (capture_mtu d))))
                  /\ sockets st' !! S cp'
                     = Some (hooked_socket (opened_socket fd cp' cb))))).
Proof.
  intros Hdev Hfresh Hlinked.
  unfold __ni_dhcp_common_open. unfold bind at 1, deref. rewrite Hdev.
  destruct (capture d) as [cp|] eqn:Hcap.
  - destruct (Hlinked d cp Hdev Hcap)
      as (cap & sp & sk & buf & Hc & Hcd & Hcs & Hs & Hsu & Hb & Hbl).
    assert (Hre : reuse_ok st d proto = negb (error sk) && (protocol cap =? proto))
      by (unfold reuse_ok; rewrite Hcap, Hc, Hcs, Hs; reflexivity).
    unfold bind at 1. unfold bind at 1, deref. rewrite Hc.
    unfold bind at 1. rewrite Hcs. unfold bind at 1, deref, ret. rewrite Hs.
    rewrite Hre.
    destruct (negb (error sk) && (protocol cap =? proto)) eqn:Eb.
    + exists 0, st, [], d. split; [reflexivity|].
      rewrite app_nil_r.
      split; [exact Hfresh|]. split; [exact Hlinked|].
      split; [reflexivity|]. split; [reflexivity|].
      split; [exact Hdev|].
      split; [destruct d; reflexivity|].
      split; [auto|]. discriminate.
    + destruct (ni_capture_free_run cp st cap sp sk Hc Hcs Hs)
        as (s1 & E1 & Hd1 & Hc1 & Hs1 & Hn1 & Hk1 & Hx1 & Hf1 & _ & _ & _ & _ & Ht1).
      unfold bind at 1. rewrite E1.
      unfold bind at 1. unfold update_dev, bind, deref, modify.
      rewrite Hd1, Hdev.
      set (s2 := set_devices <[dp := set_dev_capture None d]> s1).
      assert (Hdev2 : devices s2 !! dp = Some (set_dev_capture None d))
        by (cbn; apply lookup_insert_eq).
      assert (Hfresh2 : heap_fresh s2)
        by (apply (heap_fresh_delete st s2 cp sp); cbn; assumption).
      destruct (open_and_link_spec s2 dp _ proto cb Hdev2 eq_refl Hfresh2 _ eq_refl)
        as (r & st' & calls & E & Hf' & Hl' & Hft & Htr & H).
      assert (Hcp : (cp < next_ptr st)%nat) by (eapply heap_fresh_below_c; eauto).
      assert (Hsp : (sp < next_ptr st)%nat) by (eapply heap_fresh_below_s; eauto).
      cbn [devices captures sockets next_ptr kernel_ret fsm_trace sys_trace
           set_devices s2] in H, Hft, Htr.
      rewrite Hd1, Hc1, Hs1, Hn1, Hk1 in H. rewrite Hf1 in Hft. rewrite Ht1 in Htr.
      destruct H as [(-> & Hd' & Hc' & Hs') | (-> & brdaddr & Hd' & Hc' & Hs')].
      * exists (-1), st', (sys_close (__fd sk) :: calls), (set_dev_capture None d).
        split; [exact E|].
        split; [exact Hf'|]. split; [exact Hl'|]. split; [exact Hft|].
        split; [rewrite Htr, <- app_assoc; reflexivity|].
        split; [rewrite Hd'; apply lookup_insert_eq|].
        split; [reflexivity|].
        split; [discriminate|]. intros _. split.
        -- intros cp0 cap0 sp0 sk0 H0 H1 H2 H3.
           injection H0 as <-. rewrite Hc in H1. injection H1 as <-.
           rewrite Hcs in H2. injection H2 as <-.
           rewrite Hs in H3. injection H3 as <-.
           rewrite Hc', Hs', !lookup_delete_eq. eauto.
        -- left. auto.
      * exists 0, st', (sys_close (__fd sk) :: calls),
          (set_dev_capture (Some (next_ptr st)) (set_dev_capture None d)).
        split; [exact E|].
        split; [exact Hf'|]. split; [exact Hl'|]. split; [exact Hft|].
        split; [rewrite Htr, <- app_assoc; reflexivity|].
        split; [rewrite Hd'; apply lookup_insert_eq|].
        split; [reflexivity|].
        split; [discriminate|]. intros _. split.
        -- intros cp0 cap0 sp0 sk0 H0 H1 H2 H3.
           injection H0 as <-. rewrite Hc in H1. injection H1 as <-.
           rewrite Hcs in H2. injection H2 as <-.
           rewrite Hs in H3. injection H3 as <-.
           rewrite Hc', Hs', !lookup_insert_ne, !lookup_delete_eq by lia. eauto.
        -- right. split; [reflexivity|]. exists brdaddr, (hd (-1) (kernel_ret st)).
           cbv zeta. split; [reflexivity|].
           rewrite Hc', Hs', !lookup_insert_eq. split; reflexivity.
  - assert (Hre : reuse_ok st d proto = false)
      by (unfold reuse_ok; rewrite Hcap; reflexivity).
    destruct (open_and_link_spec st dp d proto cb Hdev Hcap Hfresh _ eq_refl)
      as (r & st' & calls & E & Hf' & Hl' & Hft & Htr & H).
    destruct H as [(-> & Hd' & Hc' & Hs') | (-> & brdaddr & Hd' & Hc' & Hs')].
    + exists (-1), st', calls, d. split; [exact E|].
      split; [exact Hf'|]. split; [exact Hl'|]. split; [exact Hft|].
      split; [exact Htr|].
      split; [rewrite Hd'; exact Hdev|].
      split; [destruct d; cbn in *; subst; reflexivity|].
      split; [rewrite Hre; discriminate|]. intros _. split.
      * intros ? ? ? ? H0. discriminate H0.
      * left. auto.
    + exists 0, st', calls, (set_dev_capture (Some (next_ptr st)) d).
      split; [exact E|].
      split; [exact Hf'|]. split; [exact Hl'|]. split; [exact Hft|].
      split; [exact Htr|].
      split; [rewrite Hd'; apply lookup_insert_eq|].
      split; [reflexivity|].
      split; [rewrite Hre; discriminate|]. intros _. split.
      * intros ? ? ? ? H0. discriminate H0.
      * right. split; [reflexivity|]. exists brdaddr, (hd (-1) (kernel_ret st)).
        cbv zeta. split; [reflexivity|].
        rewrite Hc', Hs', !lookup_insert_eq. split; reflexivity.
Qed.

(** X17: Whatever the kernel answers, __ni_dhcp_common_open (and with it
    ni_arp_socket_open) on a device whose capture handle is well linked
    does not crash and leaves the device well linked; it returns 0 exactly
    when the device ends up holding a capture for the requested protocol
    and -1 exactly when it ends up holding none. *)
Theorem common_open_keeps_device_linked st dp d proto cb :
  devices st !! dp = Some d -> heap_fresh st -> device_linked st dp ->
  exists r st' d',
    __ni_dhcp_common_open dp proto cb st = Some (r, st')
    /\ heap_fresh st' /\ device_linked st' dp
    /\ devices st' !! dp = Some d'
    /\ ((r = 0 /\ exists cp cap,
           capture d' = Some cp /\ captures st' !! cp = Some cap
           /\ protocol cap = proto)
        \/ (r = -1 /\ capture d' = None)).
Proof.
  intros Hdev Hfresh Hlinked.
  destruct (common_open_spec st dp d proto cb Hdev Hfresh Hlinked)
    as (r & st' & calls & d' & E & Hf & Hl & _ & _ & Hd' & _ & Hyes & Hno).
  exists r, st', d'. split; [exact E|]. split; [exact Hf|].
  split; [exact Hl|]. split; [exact Hd'|].
  destruct (reuse_ok st d proto) eqn:Hre.
  - destruct (Hyes eq_refl) as [-> ->]. left. split; [reflexivity|].
    rewrite Hdev in Hd'. injection Hd' as <-.
    unfold reuse_ok in Hre.
    destruct (capture d) as [cp|]; [|discriminate].
    destruct (captures st !! cp) as [cap|] eqn:Hc; [|discriminate].
    destruct (sock cap) as [sp|]; [|discriminate].
    destruct (sockets st !! sp) as [sk|]; [|discriminate].
    apply andb_true_iff in Hre as [_ Hp]. apply Z.eqb_eq in Hp.
    exists cp, cap. auto.
  - destruct (Hno eq_refl) as (_ & [(-> & Hc) | (-> & brdaddr & fd & Hc & Hcap & _)]).
    + right. auto.
    + left. split; [reflexivity|]. eexists _, _.
      split; [exact Hc|]. split; [exact Hcap|]. reflexivity.
Qed.

(** X18: A device holds one capture at a time.  When the installed capture is
    for another protocol than the one asked for (the ARP socket opened
    while the DHCP capture is installed, or the reverse), or its socket has
    the error flag set, the open first closes its descriptor and frees
    capture and socket wrapper; this happens whether or not the new capture
    can be opened, so a failed open leaves the device without any capture.
    A new capture gets the hooks of this file. *)
Theorem open_replaces_other_capture st dp d proto cb cp cap sp sk :
  devices st !! dp = Some d -> heap_fresh st -> device_linked st dp ->
  capture d = Some cp -> captures st !! cp = Some cap ->
  sock cap = Some sp -> sockets st !! sp = Some sk ->
  protocol cap <> proto \/ error sk = true ->
  exists r st' rest d',
    __ni_dhcp_common_open dp proto cb st = Some (r, st')
    /\ sys_trace st' = sys_trace st ++ sys_close (__fd sk) :: rest
    /\ captures st' !! cp = None /\ sockets st' !! sp = None
    /\ devices st' !! dp = Some d'
    /\ ((r = -1 /\ capture d' = None)
        \/ (r = 0 /\ exists cp' cap' sp' sk',
              capture d' = Some cp' /\ cp' <> cp
              /\ captures st' !! cp' = Some cap'
              /\ protocol cap' = proto /\ dev cap' = Some dp
              /\ sock cap' = Some sp'
              /\ sockets st' !! sp' = Some sk'
              /\ user_data sk' = Some cp'
              /\ data_ready sk' = Some cb
              /\ get_timeout sk' = Some __ni_dhcp_socket_get_timeout_fn
              /\ check_timeout sk' = Some __ni_dhcp_socket_check_timeout_fn
              /\ active sk' = true)).
Proof.
  intros Hdev Hfresh Hlinked Hcap Hc Hcs Hs Hdiff.
  destruct (common_open_spec st dp d proto cb Hdev Hfresh Hlinked)
    as (r & st' & calls & d' & E & _ & _ & _ & Ht & Hd' & _ & _ & Hno).
  assert (Hre : reuse_ok st d proto = false).
  { unfold reuse_ok. rewrite Hcap, Hc, Hcs, Hs.
    destruct Hdiff as [Hp | He].
    - destruct (Z.eqb_spec (protocol cap) proto); [contradiction|].
      apply andb_false_r.
    - rewrite He. reflexivity. }
  destruct (Hno Hre) as (Hold & Hnew).
  destruct (Hold cp cap sp sk Hcap Hc Hcs Hs) as (Hc' & Hs' & rest & ->).
  exists r, st', rest, d'. split; [exact E|]. split; [exact Ht|].
  split; [exact Hc'|]. split; [exact Hs'|]. split; [exact Hd'|].
  destruct Hnew as [(-> & Hn) | (-> & brdaddr & fd & Hn & Hcn & Hsn)].
  - left. auto.
  - right. split; [reflexivity|].
    eexists _, _, _, _. split; [exact Hn|].
    split.
    { intros Heq. rewrite Heq in Hcn. congruence. }
    split; [exact Hcn|]. split; [reflexivity|]. split; [reflexivity|].
    split; [reflexivity|]. split; [exact Hsn|].
    conj_split; reflexivity.
Qed.

(** ** The dummy UDP socket, continued *)

(** X22: With listen_fd unset, a failing setsockopt on the dummy socket
    (SO_REUSEADDR, SO_RCVBUF or SO_BINDTODEVICE) is only logged: the socket
    is still bound to port 68, and when the bind succeeds its descriptor is
    recorded in the device and marked close-on-exec before the capture is
    opened. *)
Theorem dummy_socket_setsockopt_failures_tolerated st dp d fd r1 r2 r3 rb rest :
  devices st !! dp = Some d -> listen_fd d = -1 ->
  kernel_ret st = fd :: r1 :: r2 :: r3 :: rb :: rest ->
  fd <> -1 -> rb <> -1 ->
  exists st1,
    ni_dhcp_socket_open dp st
    = __ni_dhcp_common_open dp ETHERTYPE_IP ni_dhcp_socket_recv_fn st1
    /\ devices st1 = <[dp := set_dev_listen_fd fd d]> (devices st)
    /\ captures st1 = captures st /\ sockets st1 = sockets st
    /\ kernel_ret st1 = rest
    /\ sys_trace st1
       = sys_trace st
         ++ [ sys_socket PF_INET SOCK_DGRAM IPPROTO_UDP;
              sys_setsockopt fd (SO_REUSEADDR 1);
              sys_setsockopt fd (SO_RCVBUF 1);
              sys_setsockopt fd (SO_BINDTODEVICE (strncpy (ifname d) IFNAMSIZ));
              sys_bind fd (sockaddr_in AF_INET (htons DHCP_CLIENT_PORT) 0);
              sys_fcntl_cloexec fd ]
    /\ log st1
       = log st
         ++ (if r1 =? -1 then [log_error "SO_REUSEADDR: %m"] else [])
         ++ (if r2 =? -1 then [log_error "SO_RCVBUF: %m"] else [])
         ++ (if r3 =? -1 then [log_error "SO_SOBINDTODEVICE: %m"] else []).
Proof.
  intros Hdev Hl Hk Hfd Hrb.
  unfold ni_dhcp_socket_open.
  generalize (__ni_dhcp_common_open dp ETHERTYPE_IP ni_dhcp_socket_recv_fn).
  intros K.
  cbv beta iota zeta delta [bind deref ret sys sys_ modify ni_error update_dev].
  rewrite Hdev. cbv beta iota. rewrite Hl. cbn [Z.eqb Pos.eqb].
  rewrite Hk. cbn [hd tl].
  destruct (Z.eqb_spec fd (-1)) as [?|_]; [contradiction|].
  cbn. destruct (r1 =? -1); cbn; destruct (r2 =? -1); cbn;
    destruct (r3 =? -1); cbn;
    (destruct (Z.eqb_spec rb (-1)) as [?|_]; [contradiction|]);
    cbn; rewrite Hdev; cbn;
    eexists; (split; [reflexivity|]); cbn;
    rewrite <- ?app_assoc, ?app_nil_r; conj_split; reflexivity.
Qed.

(** ** Receiving *)

Lemma sys_read_into_run fd buf count st :
  sys_read_into fd buf count st
  = Some (read_result (hd None (kernel_rx st)) count buf,
          set_kernel (kernel_ret st) (tl (kernel_rx st))
            (sys_trace st ++ [sys_read fd count]) st).
Proof.
  unfold sys_read_into, read_result.
  destruct (kernel_rx st) as [|[frame|] rx]; reflexivity.
Qed.


Lemma read_result_bytes rx count buf :
  fst (read_result rx count buf) < 0 <-> rx = None.
Proof.
  unfold read_result. destruct rx as [frame|]; cbn [fst].
  - split; [lia | discriminate].
  - split; [reflexivity | lia].
Qed.

Lemma ni_dhcp_socket_recv_spec st sp sk cp cap dp d buf :
  sockets st !! sp = Some sk -> user_data sk = Some cp ->
  captures st !! cp = Some cap -> dev cap = Some dp ->
  buffer cap = Some buf -> devices st !! dp = Some d ->
  let rd := read_result (hd None (kernel_rx st)) (mtu cap) buf in
  let r := check_packet_header (snd rd) 0 (fst rd) 0 in
  exists st',
    ni_dhcp_socket_recv sp st = Some (tt, st')
    /\ devices st' = devices st /\ sockets st' = sockets st
    /\ captures st' = <[cp := set_buffer (snd rd) cap]> (captures st)
    /\ next_ptr st' = next_ptr st
    /\ kernel_ret st' = kernel_ret st
    /\ sys_trace st' = sys_trace st ++ [sys_read (__fd sk) (mtu cap)]
    /\ fsm_trace st'
       = fsm_trace st
         ++ (if fst rd <? 0 then []
             else match cph_payload r with
                  | Some payload =>
                      [ni_dhcp_fsm_process_dhcp_packet_call dp
                         (ni_buffer_init_reader (snd rd) payload
                            (cph_payload_len r))]
                  | None => []
                  end).
Proof.
  intros Hs Hu Hc Hd Hb Hdev. cbv zeta.
  unfold ni_dhcp_socket_recv. unfold bind at 1, deref. rewrite Hs, Hu.
  unfold bind at 1, deref. rewrite Hc, Hd, Hb.
  unfold bind at 1, deref. rewrite Hdev.
  unfold bind at 1, ni_debug_dhcp, modify.
  unfold bind at 1. rewrite sys_read_into_run.
  cbn [kernel_rx set_log].
  destruct (read_result (hd None (kernel_rx st)) (mtu cap) buf) as [bytes buf'].
  cbn [fst snd].
  unfold bind at 1, update_capture, bind, deref, modify.
  cbn [captures set_kernel set_log]. rewrite Hc.
  destruct (bytes <? 0).
  - eexists. split; [reflexivity|]. cbn. rewrite app_nil_r.
    conj_split; reflexivity.
  - unfold ni_dhcp_fsm_process_dhcp_packet, ni_debug_dhcp, modify.
    destruct (cph_payload (check_packet_header buf' 0 bytes 0));
      (eexists; split; [reflexivity|]); cbn; rewrite ?app_nil_r;
      conj_split; reflexivity.
Qed.


(** X19: The DHCP receive handler makes one read of at most [mtu] bytes into the
    capture buffer and calls the state machine at most once: it hands a
    packet over only when the read succeeded and what was read passes
    check_packet_header, and then the reader starts behind the UDP header.
    A failed read and a rejected packet change nothing but the buffer and
    the log. *)
Theorem dhcp_recv_hands_over_only_valid_packets st sp sk cp cap dp d buf :
  sockets st !! sp = Some sk -> user_data sk = Some cp ->
  captures st !! cp = Some cap -> dev cap = Some dp ->
  buffer cap = Some buf -> devices st !! dp = Some d ->
  let rd := read_result (hd None (kernel_rx st)) (mtu cap) buf in
  let bytes := fst rd in
  let buf' := snd rd in
  let valid := 0 <= bytes /\ acceptable buf' 0 bytes
               /\ 4 * ip_hl buf' 0 + sizeof_udphdr <= bytes in
  exists st',
    ni_dhcp_socket_recv sp st = Some (tt, st')
    /\ devices st' = devices st /\ sockets st' = sockets st
    /\ captures st' = <[cp := set_buffer buf' cap]> (captures st)
    /\ sys_trace st' = sys_trace st ++ [sys_read (__fd sk) (mtu cap)]
    /\ (valid ->
        exists len,
          fsm_trace st'
          = fsm_trace st
            ++ [ni_dhcp_fsm_process_dhcp_packet_call dp
                  (ni_buffer_init_reader buf'
                     (4 * ip_hl buf' 0 + sizeof_udphdr) len)])
    /\ (~ valid -> fsm_trace st' = fsm_trace st).
Proof.
  intros Hs Hu Hc Hd Hb Hdev. cbv zeta.
  destruct (ni_dhcp_socket_recv_spec st sp sk cp cap dp d buf Hs Hu Hc Hd Hb Hdev)
    as (st' & E & Hd' & Hs' & Hc' & _ & _ & Ht & Hf).
  exists st'. split; [exact E|]. split; [exact Hd'|]. split; [exact Hs'|].
  split; [exact Hc'|]. split; [exact Ht|].
  set (rd := read_result (hd None (kernel_rx st)) (mtu cap) buf) in *.
  destruct (Z.ltb_spec (fst rd) 0) as [Hneg|Hpos].
  - split; [intros (H0 & _); lia|]. intros _. rewrite Hf. apply app_nil_r.
  - destruct (cph_payload (check_packet_header (snd rd) 0 (fst rd) 0))
      as [p|] eqn:Ep.
    + destruct (cph_accept_inv _ _ _ _ _ Ep) as (Ha & H1 & H2 & Er).
      rewrite Er in Ep. cbn [cph_payload] in Ep. injection Ep as <-.
      split.
      * intros _. eexists. rewrite Hf. reflexivity.
      * intros Hn. exfalso. apply Hn. unfold sizeof_udphdr in *.
        split; [exact Hpos|]. split; [exact Ha|]. lia.
    + split.
      * intros (_ & Ha & Hlen). exfalso.
        rewrite (cph_accept _ _ _ _ Ha) in Ep
          by (unfold sizeof_udphdr in *; lia).
        discriminate Ep.
      * intros _. rewrite Hf. apply app_nil_r.
Qed.


(** ** Timeout hooks, continued *)

(** X16: On a socket that has no capture, or whose capture has no device, the
    two hooks only log an error: get_timeout returns -1 and leaves the
    caller's timeval as it was, check_timeout does not call the state
    machine. *)
Theorem timeout_hooks_on_unlinked_socket st sp sk tv now :
  sockets st !! sp = Some sk ->
  user_data sk = None
  \/ (exists cp cap,
         user_data sk = Some cp /\ captures st !! cp = Some cap
         /\ dev cap = None) ->
  exists msg,
    __ni_dhcp_socket_get_timeout sp tv st
    = Some ((-1, tv), set_log (log st ++ [log_error msg]) st)
    /\ __ni_dhcp_socket_check_timeout sp now st
       = Some (tt, set_log (log st ++ [log_error msg]) st).
Proof.
  intros Hs H.
  unfold __ni_dhcp_socket_get_timeout, __ni_dhcp_socket_check_timeout,
    bind, deref, ret, ni_error, modify.
  rewrite Hs.
  destruct H as [Hu | (cp & cap & Hu & Hc & Hd)]; rewrite Hu.
  - eexists. split; reflexivity.
  - rewrite Hc, Hd. eexists. split; reflexivity.
Qed.

(** ** Sending, continued *)




(** ** The frame as bytes *)

Lemma host16_zero : host16 0 = [x00; x00].
Proof. unfold host16, store16, store8. destruct big_endian; reflexivity. Qed.

Lemma host32_broadcast : host32 INADDR_BROADCAST = [xff; xff; xff; xff].
Proof.
  unfold host32, store32, store16, store8. destruct big_endian; reflexivity.
Qed.

Lemma host32_load32 a b c d :
  host32 (load32 [a; b; c; d] 0) = [a; b; c; d].
Proof.
  unfold host32. rewrite store32_load32. unfold store8, load8.
  cbn. rewrite !byte_of_Z_of_byte. reflexivity.
Qed.

Lemma load32_bytes_zero a b c d :
  load32 [a; b; c; d] 0 = 0
  <-> Z_of_byte a = 0 /\ Z_of_byte b = 0 /\ Z_of_byte c = 0 /\ Z_of_byte d = 0.
Proof.
  pose proof (Z_of_byte_range a). pose proof (Z_of_byte_range b).
  pose proof (Z_of_byte_range c). pose proof (Z_of_byte_range d).
  unfold load32, load16.
  change (load8 [a; b; c; d] 0) with (Z_of_byte a).
  change (load8 [a; b; c; d] (0 + 1)) with (Z_of_byte b).
  change (load8 [a; b; c; d] (0 + 2)) with (Z_of_byte c).
  change (load8 [a; b; c; d] (0 + 2 + 1)) with (Z_of_byte d).
  destruct big_endian; lia.
Qed.

Lemma load32_bytes_range a b c d : 0 <= load32 [a; b; c; d] 0 < 4294967296.
Proof.
  pose proof (Z_of_byte_range a). pose proof (Z_of_byte_range b).
  pose proof (Z_of_byte_range c). pose proof (Z_of_byte_range d).
  unfold load32, load16.
  change (load8 [a; b; c; d] 0) with (Z_of_byte a).
  change (load8 [a; b; c; d] (0 + 1)) with (Z_of_byte b).
  change (load8 [a; b; c; d] (0 + 2)) with (Z_of_byte c).
  change (load8 [a; b; c; d] (0 + 2 + 1)) with (Z_of_byte d).
  destruct big_endian; lia.
Qed.

Lemma host32_coerce_dst a b c d :
  host32 (coerce_dst (load32 [a; b; c; d] 0)) = wire_dst [a; b; c; d].
Proof.
  unfold coerce_dst, wire_dst, u32.
  rewrite Z.mod_small by apply load32_bytes_range.
  pose proof (load32_bytes_zero a b c d) as Hz.
  cbn [forallb].
  destruct (Z.eqb_spec (load32 [a; b; c; d] 0) 0) as [E|E].
  - destruct (proj1 Hz E) as (-> & -> & -> & ->). cbn.
    apply host32_broadcast.
  - destruct (Z.eqb_spec (Z_of_byte a) 0); cbn [andb];
      [|apply host32_load32].
    destruct (Z.eqb_spec (Z_of_byte b) 0); cbn [andb];
      [|apply host32_load32].
    destruct (Z.eqb_spec (Z_of_byte c) 0); cbn [andb];
      [|apply host32_load32].
    destruct (Z.eqb_spec (Z_of_byte d) 0); cbn [andb];
      [|apply host32_load32].
    exfalso. apply E, Hz. auto.
Qed.

Lemma dhcp_frame_wire src dst payload :
  let L := Z.of_nat (length payload) in
  let S := host32 src in
  let D := host32 (coerce_dst dst) in
  dhcp_frame src dst payload
  = wire_ip (28 + L)
      (host16 (checksum_fold (lsum true (wire_ip (28 + L) [x00; x00] S D)))) S D
    ++ wire_udp (8 + L)
         (host16 (checksum_fold
                    (lsum true (wire_pseudo S D (8 + L)
                                ++ wire_udp (8 + L) [x00; x00] ++ payload))))
    ++ payload.
Proof.
  cbv zeta. unfold dhcp_frame. cbv zeta.
  set (L := Z.of_nat (length payload)).
  set (dst' := coerce_dst dst).
  assert (EI : forall c, ip_header (28 + L) c src dst'
                         = wire_ip (28 + L) (host16 c) (host32 src) (host32 dst'))
    by reflexivity.
  assert (EU : forall c, udp_header (8 + L) c = wire_udp (8 + L) (host16 c))
    by reflexivity.
  assert (EP : pseudo_header src dst' (8 + L)
               = wire_pseudo (host32 src) (host32 dst') (8 + L))
    by reflexivity.
  rewrite (lsum_app true (wire_pseudo _ _ _)), (lsum_app _ (wire_udp _ _)).
  rewrite <- EP, <- !host16_zero, <- !EU, <- !EI.
  rewrite pseudo_header_length, udp_header_length. cbn [Nat.even].
  rewrite Z.add_assoc. reflexivity.
Qed.

(** ** The header build, continued *)

Lemma build_send_header_base bp src dst :
  28 <= head bp -> head bp <= tail bp ->
  tail bp <= Z.of_nat (length (base bp)) ->
  tail bp - head bp + 28 <= 65535 ->
  ni_dhcp_build_send_header bp src dst
  = Some (0, {| base := firstn (Z.to_nat (head bp - 28)) (base bp)
                        ++ dhcp_frame src dst (ni_buffer_data bp)
                        ++ skipn (Z.to_nat (tail bp)) (base bp);
                head := head bp - 28; tail := tail bp |}).
Proof.
  intros Hh Hht Htl Hl.
  destruct bp as [m h t]. cbn [head tail base] in *.
  set (pre := firstn (Z.to_nat (h - 28)) m).
  set (hdr := bytes_at m (h - 28) 28).
  set (payload := bytes_at m h (t - h)).
  set (post := skipn (Z.to_nat t) m).
  assert (Hpre : Z.of_nat (length pre) = h - 28)
    by (unfold pre; rewrite length_take; lia).
  assert (Hhdr : length hdr = 28%nat)
    by (unfold hdr; rewrite bytes_at_length by lia; reflexivity).
  assert (Hpay : Z.of_nat (length payload) = t - h)
    by (unfold payload; rewrite bytes_at_length by lia; lia).
  assert (Em : m = pre ++ hdr ++ payload ++ post).
  { unfold pre, hdr, payload, post, bytes_at.
    rewrite <- (firstn_skipn (Z.to_nat (h - 28)) m) at 1. f_equal.
    rewrite <- (firstn_skipn (Z.to_nat 28) (skipn (Z.to_nat (h - 28)) m)) at 1.
    f_equal. rewrite drop_drop.
    replace (Z.to_nat (h - 28) + Z.to_nat 28)%nat with (Z.to_nat h) by lia.
    rewrite <- (firstn_skipn (Z.to_nat (t - h)) (skipn (Z.to_nat h) m)) at 1.
    f_equal. rewrite drop_drop. f_equal. lia. }
  assert (Edata : ni_buffer_data {| base := m; head := h; tail := t |} = payload).
  { unfold ni_buffer_data. rewrite ni_buffer_count_eq by (cbn; lia). reflexivity. }
  rewrite Edata.
  pose proof (build_frame pre hdr payload post src dst Hhdr ltac:(lia)) as Hb.
  rewrite <- Em in Hb.
  replace (Z.of_nat (length pre) + 28) with h in Hb by lia.
  replace (h + Z.of_nat (length payload)) with t in Hb by lia.
  rewrite Hb. rewrite Hpre. reflexivity.
Qed.

(** The fields of the frame built over any payload of at most 65507 bytes,
    and the verdict of the code's own checksum functions on it. *)
Lemma build_send_header_fields bp src dst :
  28 <= head bp -> head bp <= tail bp ->
  tail bp <= Z.of_nat (length (base bp)) ->
  tail bp - head bp + 28 <= 65535 ->
  exists bp',
    ni_dhcp_build_send_header bp src dst = Some (0, bp')
    /\ let frame := ni_buffer_data bp' in
       let L := tail bp - head bp in
       Z.of_nat (length frame) = 28 + L
       /\ ip_v frame 0 = 4 /\ ip_hl frame 0 = 5
       /\ load8 frame ip_tos_off = IPTOS_LOWDELAY
       /\ ntohs (load16 frame ip_len_off) = 28 + L
       /\ ntohs (load16 frame ip_id_off) = 0
       /\ ntohs (load16 frame ip_off_off) = IP_DF
       /\ load8 frame ip_ttl_off = IPDEFTTL
       /\ load8 frame ip_p_off = IPPROTO_UDP
       /\ load32 frame ip_src_off = u32 src
       /\ load32 frame ip_dst_off
          = (if u32 dst =? 0 then INADDR_BROADCAST else u32 dst)
       /\ checksum frame 0 sizeof_ip = 0
       /\ ntohs (load16 frame (sizeof_ip + uh_sport_off)) = DHCP_CLIENT_PORT
       /\ ntohs (load16 frame (sizeof_ip + uh_dport_off)) = DHCP_SERVER_PORT
       /\ ntohs (load16 frame (sizeof_ip + uh_ulen_off)) = 8 + L
       /\ ipudp_checksum frame 0 sizeof_ip (sizeof_ip + sizeof_udphdr) L = 0.
Proof.
  intros Hh Hht Htl Hl.
  destruct (build_send_header_frame bp src dst Hh Hht Htl Hl)
    as (bp' & Hb & _ & _ & _ & Ef).
  exists bp'. split; [exact Hb|]. cbv zeta. rewrite Ef.
  set (payload := ni_buffer_data bp).
  assert (HL : Z.of_nat (length payload) = tail bp - head bp).
  { unfold payload, ni_buffer_data. rewrite ni_buffer_count_eq by lia.
    rewrite bytes_at_length by lia. lia. }
  assert (HL' : Z.of_nat (length payload) + 28 <= 65535) by lia.
  rewrite <- (app_nil_r (dhcp_frame src dst payload)).
  pose proof (frame_ip_fixed src dst payload [] HL') as (F0 & F1 & F2 & F4 & F6 & F8 & F9).
  pose proof (frame_udp_fixed src dst payload [] HL') as (U0 & U2 & U4).
  pose proof (frame_addresses src dst payload []) as (A1 & A2).
  pose proof (frame_ip_checksum src dst payload []) as Hc1.
  pose proof (frame_udp_checksum src dst payload [] HL') as Hc2.
  rewrite HL in *.
  unfold ip_tos_off, ip_len_off, ip_id_off, ip_off_off, ip_ttl_off, ip_p_off,
    ip_src_off, ip_dst_off, sizeof_ip, uh_sport_off, uh_dport_off, uh_ulen_off,
    sizeof_udphdr.
  change (20 + 0) with 20. change (20 + 2) with 22. change (20 + 4) with 24.
  change (20 + 8) with 28.
  rewrite F1, F2, F4, F6, F8, F9, U0, U2, U4, Hc1, Hc2, A1, A2.
  unfold ip_v, ip_hl. rewrite F0.
  conj_split; try reflexivity.
  - rewrite app_nil_r, dhcp_frame_length. lia.
  - unfold coerce_dst. destruct (u32 dst =? 0); reflexivity.
Qed.

(** X7: The build works in place: it writes the 28 bytes in front of the
    payload and nothing else.  The buffer keeps its size, what lies before
    the new head and from the old head on (the payload and whatever follows
    it) is unchanged, the tail stays and the head moves back by 28. *)
Theorem build_send_header_in_place bp src dst :
  28 <= head bp -> head bp <= tail bp ->
  tail bp <= Z.of_nat (length (base bp)) ->
  tail bp - head bp + 28 <= 65535 ->
  exists bp',
    ni_dhcp_build_send_header bp src dst = Some (0, bp')
    /\ head bp' = head bp - 28 /\ tail bp' = tail bp
    /\ length (base bp') = length (base bp)
    /\ firstn (Z.to_nat (head bp - 28)) (base bp')
       = firstn (Z.to_nat (head bp - 28)) (base bp)
    /\ skipn (Z.to_nat (head bp)) (base bp')
       = skipn (Z.to_nat (head bp)) (base bp).
Proof.
  intros Hh Hht Htl Hl.
  rewrite (build_send_header_base bp src dst Hh Hht Htl Hl).
  eexists. split; [reflexivity|]. cbn [head tail base].
  set (payload := ni_buffer_data bp).
  assert (HL : Z.of_nat (length payload) = tail bp - head bp).
  { unfold payload, ni_buffer_data. rewrite ni_buffer_count_eq by lia.
    rewrite bytes_at_length by lia. lia. }
  assert (Hpre : length (firstn (Z.to_nat (head bp - 28)) (base bp))
                 = Z.to_nat (head bp - 28))
    by (rewrite length_take; lia).
  split; [reflexivity|]. split; [reflexivity|]. split; [|split].
  - rewrite !length_app, dhcp_frame_length, Hpre, length_drop. lia.
  - rewrite take_app_length'; [reflexivity | symmetry; exact Hpre].
  - rewrite drop_app_ge by lia. rewrite Hpre.
    replace (Z.to_nat (head bp) - Z.to_nat (head bp - 28))%nat with 28%nat by lia.
    unfold dhcp_frame. cbv zeta.
    set (I := ip_header _ _ _ _). set (U := udp_header _ _).
    assert (HIU : length (I ++ U) = 28%nat)
      by (unfold I, U; rewrite length_app, ip_header_length, udp_header_length;
          reflexivity).
    rewrite <- !app_assoc, (app_assoc I U).
    rewrite <- HIU at 1. rewrite drop_app_length.
    unfold payload, ni_buffer_data. rewrite ni_buffer_count_eq by lia.
    unfold bytes_at.
    replace (skipn (Z.to_nat (tail bp)) (base bp))
      with (skipn (Z.to_nat (tail bp - head bp))
              (skipn (Z.to_nat (head bp)) (base bp)))
      by (rewrite drop_drop; f_equal; lia).
    apply firstn_skipn.
Qed.

(** ** Ingress validation and the receive buffer *)

Lemma bytes_at_app_l l post p k :
  0 <= p -> 0 <= k -> p + k <= Z.of_nat (length l) ->
  bytes_at (l ++ post) p k = bytes_at l p k.
Proof.
  intros Hp Hk Hl. unfold bytes_at.
  rewrite drop_app_le by lia.
  rewrite take_app_le by (rewrite length_drop; lia). reflexivity.
Qed.

Lemma byte_at_app_l l post p :
  0 <= p < Z.of_nat (length l) -> byte_at (l ++ post) p = byte_at l p.
Proof. intros Hp. unfold byte_at. rewrite app_nth1 by lia. reflexivity. Qed.

Lemma load16_app_l l post p :
  0 <= p -> p + 2 <= Z.of_nat (length l) -> load16 (l ++ post) p = load16 l p.
Proof.
  intros Hp Hl. unfold load16. rewrite !load8_app_l by lia. reflexivity.
Qed.

Lemma checksum_app_l l post p len :
  0 <= p -> 0 <= len < 65536 -> p + len <= Z.of_nat (length l) ->
  checksum (l ++ post) p len = checksum l p len.
Proof.
  intros Hp Hlen Hl.
  rewrite !checksum_spec by (rewrite ?length_app; lia).
  rewrite bytes_at_app_l by lia. reflexivity.
Qed.

Lemma ipudp_checksum_app_l l post iph uh data len :
  0 <= iph -> iph + 20 <= Z.of_nat (length l) ->
  0 <= uh -> uh + 8 <= Z.of_nat (length l) ->
  0 <= data -> 0 <= len -> data + len <= Z.of_nat (length l) ->
  ipudp_checksum (l ++ post) iph uh data len = ipudp_checksum l iph uh data len.
Proof.
  intros H1 H2 H3 H4 H5 H6 H7.
  pose proof (u16_le len H6) as Hu.
  rewrite !ipudp_checksum_spec by (rewrite ?length_app; lia).
  unfold udp_sum. rewrite !fake_header_bytes.
  rewrite !byte_at_app_l by lia.
  unfold sizeof_udphdr. rewrite !bytes_at_app_l by lia. reflexivity.
Qed.

Lemma check_packet_header_app_l l post pl :
  (1 <= length l)%nat ->
  check_packet_header (l ++ post) 0 (Z.of_nat (length l)) pl
  = check_packet_header l 0 (Z.of_nat (length l)) pl.
Proof.
  intros Hn. set (n := Z.of_nat (length l)).
  assert (Hn' : 1 <= n) by (unfold n; lia).
  unfold check_packet_header.
  assert (E0 : load8 (l ++ post) 0 = load8 l 0)
    by (apply load8_app_l; fold n; lia).
  unfold ip_v, ip_hl. rewrite E0.
  pose proof (ip_hl_range l 0) as Hr. unfold ip_hl in Hr.
  rewrite Z.shiftl_mul_pow2 by lia. change (2 ^ 2) with 4.
  set (ihl := Z.land (load8 l 0) 15 * 4) in *.
  destruct (negb (Z.shiftr (load8 l 0) 4 =? 4) || (ihl <? 20)) eqn:E1;
    [reflexivity|].
  apply orb_false_iff in E1 as [_ E1]. apply Z.ltb_ge in E1.
  destruct (Z.ltb_spec n ihl) as [|E2]; [reflexivity|].
  rewrite checksum_app_l by (fold n; unfold ihl in *; lia).
  destruct (negb (checksum l 0 ihl =? 0)); [reflexivity|].
  unfold ip_len_off, ip_p_off.
  rewrite load16_app_l by (fold n; lia).
  rewrite load8_app_l by (fold n; lia).
  destruct (n <? ntohs (load16 l (0 + 2))); [reflexivity|].
  destruct (negb (load8 l (0 + 9) =? IPPROTO_UDP)); [reflexivity|].
  destruct (Z.ltb_spec (n - ihl) sizeof_udphdr) as [|E3]; [reflexivity|].
  unfold sizeof_udphdr in *.
  rewrite ipudp_checksum_app_l by (fold n; unfold ihl in *; lia).
  reflexivity.
Qed.

(** X13: The verdict on a read depends on the bytes that were read and on
    nothing else: whatever the receive buffer holds behind them, left over
    from earlier and longer packets, the same packets are accepted, with
    the same payload pointer and length. *)
Theorem check_packet_header_ignores_stale_tail l post post' pl :
  let n := Z.of_nat (length l) in
  cph_payload (check_packet_header (l ++ post) 0 n pl)
  = cph_payload (check_packet_header (l ++ post') 0 n pl)
  /\ cph_payload_len (check_packet_header (l ++ post) 0 n pl)
     = cph_payload_len (check_packet_header (l ++ post') 0 n pl).
Proof.
  cbv zeta. destruct l as [|b l].
  - assert (H : forall m,
               cph_payload (check_packet_header m 0 0 pl) = None
               /\ cph_payload_len (check_packet_header m 0 0 pl) = pl).
    { intros m.
      destruct (cph_payload (check_packet_header m 0 0 pl)) as [p|] eqn:E.
      - destruct (cph_accept_inv m 0 0 pl p E) as ((_ & Hhl & _) & H1 & _). lia.
      - split; [reflexivity|]. apply cph_drop_cases. exact E. }
    change (Z.of_nat (length (@nil byte))) with 0.
    change ([] ++ post) with post. change ([] ++ post') with post'.
    destruct (H post) as [-> ->]. destruct (H post') as [-> ->].
    split; reflexivity.
  - rewrite !check_packet_header_app_l by (cbn; lia). split; reflexivity.
Qed.

(** ** The DHCP socket as a whole *)

Lemma same_heaps_refl s : same_heaps s s.
Proof. unfold same_heaps. auto. Qed.

Lemma same_heaps_trans s1 s2 s3 :
  same_heaps s1 s2 -> same_heaps s2 s3 -> same_heaps s1 s3.
Proof. unfold same_heaps. intros (?&?&?&?) (?&?&?&?). conj_split; congruence. Qed.

Lemma sys_same_heaps c s :
  exists r s', sys c s = Some (r, s') /\ same_heaps s s'.
Proof. eexists _, _. split; [reflexivity|]. unfold same_heaps. cbn. auto. Qed.

Lemma sys__same_heaps c s :
  exists s', sys_ c s = Some (tt, s') /\ same_heaps s s'.
Proof. eexists. split; [reflexivity|]. unfold same_heaps. cbn. auto. Qed.

Lemma logged_sys_same_heaps c msg s :
  exists s',
    (r <- sys c ;; if r =? -1 then ni_error msg else ret tt) s = Some (tt, s')
    /\ same_heaps s s'.
Proof.
  unfold bind, sys, ni_error, modify, ret.
  destruct (hd (-1) (kernel_ret s) =? -1);
    (eexists; split; [reflexivity|]); unfold same_heaps; cbn; auto.
Qed.

Lemma maybe_log_same_heaps (b : bool) msg s :
  exists s',
    (if b then ni_error msg else ret tt) s = Some (tt, s') /\ same_heaps s s'.
Proof.
  destruct b; (eexists; split; [reflexivity|]); unfold same_heaps; cbn; auto.
Qed.

Ltac step_sys ER :=
  unfold bind at 1 in ER; cbv beta in ER;
  match type of ER with
  | context [sys ?c ?s] =>
      let r := fresh "r" in
      let s' := fresh "s" in
      let E := fresh "E" in
      let H := fresh "H" in
      destruct (sys_same_heaps c s) as (r & s' & E & H);
      rewrite E in ER; clear E; cbv beta iota in ER
  end.
Ltac step_log ER :=
  unfold bind at 1 in ER; cbv beta in ER;
  match type of ER with
  | context [(if ?b then ni_error ?msg else ret tt) ?s] =>
      let s' := fresh "s" in
      let E := fresh "E" in
      let H := fresh "H" in
      destruct (maybe_log_same_heaps b msg s) as (s' & E & H);
      rewrite E in ER; clear E; cbv beta iota in ER
  end.

Lemma dhcp_socket_open_prefix st dp d :
  devices st !! dp = Some d ->
  (exists st1,
      ni_dhcp_socket_open dp st = Some (-1, st1)
      /\ devices st1 = devices st /\ captures st1 = captures st
      /\ sockets st1 = sockets st /\ next_ptr st1 = next_ptr st)
  \/ (exists st1 d1,
         ni_dhcp_socket_open dp st
         = __ni_dhcp_common_open dp ETHERTYPE_IP ni_dhcp_socket_recv_fn st1
         /\ devices st1 = <[dp := d1]> (devices st)
         /\ capture d1 = capture d
         /\ captures st1 = captures st /\ sockets st1 = sockets st
         /\ next_ptr st1 = next_ptr st).
Proof.
  intros Hdev.
  remember (ni_dhcp_socket_open dp st) as R eqn:ER.
  unfold ni_dhcp_socket_open in ER.
  set (K := __ni_dhcp_common_open dp ETHERTYPE_IP ni_dhcp_socket_recv_fn) in *.
  clearbody K.
  unfold bind at 1, deref in ER. rewrite Hdev in ER.
  destruct (listen_fd d =? -1).
  2: { right. exists st, d. split; [exact ER|].
       rewrite insert_id by exact Hdev. auto. }
  unfold bind at 1 in ER. unfold bind at 1 in ER.
  destruct (sys_same_heaps (sys_socket PF_INET SOCK_DGRAM IPPROTO_UDP) st)
    as (fd & s1 & E1 & H1).
  rewrite E1 in ER.
  destruct (fd =? -1).
  { left. unfold bind, ni_error, modify, ret in ER.
    eexists. split; [exact ER|]. exact H1. }
  step_sys ER. step_log ER.
  step_sys ER. step_log ER.
  step_sys ER. step_log ER.
  step_sys ER.
  assert (Hall : same_heaps st s6)
    by (repeat (eapply same_heaps_trans; [eassumption|]); apply same_heaps_refl).
  destruct Hall as (Hd6 & Hc6 & Hs6 & Hn6).
  right. destruct (r2 =? -1).
  - unfold bind, ni_error, modify, sys_, ret in ER.
    eexists _, d. split; [exact ER|].
    cbn [devices captures sockets next_ptr set_kernel set_log].
    rewrite Hd6, Hc6, Hs6, Hn6, (insert_id _ _ _ Hdev). auto.
  - unfold update_dev, bind, deref, modify, sys_, ret in ER.
    rewrite Hd6, Hdev in ER.
    eexists _, (set_dev_listen_fd fd d). split; [exact ER|].
    cbn [devices captures sockets next_ptr set_kernel set_log set_devices].
    rewrite Hd6, Hc6, Hs6, Hn6. auto.
Qed.
(** X23: Whatever the kernel answers, ni_dhcp_socket_open on a device whose
    capture handle is well linked does not crash and leaves the device well
    linked; it returns 0 or -1, and after a return of 0 the device holds a
    capture for IP. *)
Theorem dhcp_socket_open_keeps_device_linked st dp d :
  devices st !! dp = Some d -> heap_fresh st -> device_linked st dp ->
  exists r st',
    ni_dhcp_socket_open dp st = Some (r, st')
    /\ heap_fresh st' /\ device_linked st' dp
    /\ (r = 0 \/ r = -1)
    /\ (r = 0 ->
        exists d' cp cap,
          devices st' !! dp = Some d' /\ capture d' = Some cp
          /\ captures st' !! cp = Some cap /\ protocol cap = ETHERTYPE_IP).
Proof.
  intros Hdev Hfresh Hlinked.
  destruct (dhcp_socket_open_prefix st dp d Hdev)
    as [(st1 & E & Hd1 & Hc1 & Hs1 & Hn1)
       | (st1 & d1 & E & Hd1 & Hcap1 & Hc1 & Hs1 & Hn1)].
  - exists (-1), st1. split; [exact E|]. split.
    { intros p Hp. rewrite Hc1, Hs1. apply Hfresh. lia. }
    split.
    { intros d0 cp0 H0 H1. rewrite Hd1 in H0. rewrite Hc1, Hs1.
      exact (Hlinked d0 cp0 H0 H1). }
    split; [right; reflexivity | discriminate].
  - assert (Hdev1 : devices st1 !! dp = Some d1)
      by (rewrite Hd1; apply lookup_insert_eq).
    assert (Hfresh1 : heap_fresh st1).
    { intros p Hp. rewrite Hc1, Hs1. apply Hfresh. lia. }
    assert (Hlinked1 : device_linked st1 dp).
    { intros d0 cp0 H0 H1. rewrite Hdev1 in H0. injection H0 as <-.
      rewrite Hcap1 in H1. rewrite Hc1, Hs1.
      exact (Hlinked d cp0 Hdev H1). }
    destruct (common_open_spec st1 dp d1 ETHERTYPE_IP ni_dhcp_socket_recv_fn
                Hdev1 Hfresh1 Hlinked1)
      as (r & st' & calls & d' & E' & Hf & Hl & _ & _ & Hd' & _ & Hyes & Hno).
    exists r, st'. split; [rewrite E; exact E'|].
    split; [exact Hf|]. split; [exact Hl|].
    destruct (reuse_ok st1 d1 ETHERTYPE_IP) eqn:Hre.
    + destruct (Hyes eq_refl) as [-> ->]. split; [left; reflexivity|].
      intros _. rewrite Hdev1 in Hd'. injection Hd' as <-.
      unfold reuse_ok in Hre.
      destruct (capture d1) as [cp|] eqn:Hcd1; [|discriminate].
      destruct (captures st1 !! cp) as [cap|] eqn:Hc; [|discriminate].
      destruct (sock cap) as [sp|]; [|discriminate].
      destruct (sockets st1 !! sp) as [sk|]; [|discriminate].
      apply andb_true_iff in Hre as [_ Hp]. apply Z.eqb_eq in Hp.
      exists d1, cp, cap. conj_split; auto.
    + destruct (Hno eq_refl)
        as (_ & [(-> & Hc) | (-> & brdaddr & fd & Hc & Hcap & _)]).
      * split; [right; reflexivity | discriminate].
      * split; [left; reflexivity|]. intros _.
        eexists d', _, _. split; [exact Hd'|]. split; [exact Hc|].
        split; [exact Hcap|]. reflexivity.
Qed.

(** * The checksums of the code and the checksum on the wire *)

Lemma list_pair_ind (P : list byte -> Prop) :
  P [] -> (forall a, P [a]) -> (forall a b r, P r -> P (a :: b :: r)) ->
  forall l, P l.
Proof.
  clear. intros H0 H1 H2 l. enough (P l /\ forall a, P (a :: l)) by tauto.
  induction l as [|b r [IH1 IH2]]; split; auto.
Qed.

Lemma inet_sum_nonneg l : 0 <= inet_sum l.
Proof.
  clear MTU_MAX ni_link_address_get_broadcast uninitialised.
  induction l as [|a|a b r IH] using list_pair_ind; cbn [inet_sum].
  - lia.
  - pose proof (Z_of_byte_range a). lia.
  - pose proof (Z_of_byte_range a). pose proof (Z_of_byte_range b). lia.
Qed.

(** The sum the code forms from host-order words is, up to the factor
    that undoes the host's byte order, the sum of the network-order words
    modulo 0xffff. *)
Lemma lsum_inet_sum l :
  exists k, (if big_endian then 1 else 256) * lsum true l
            = inet_sum l + 65535 * k.
Proof.
  clear MTU_MAX ni_link_address_get_broadcast uninitialised.
  induction l as [|a|a b r [k IH]] using list_pair_ind;
    cbn [lsum inet_sum negb]; unfold byte_weight.
  - exists 0. destruct big_endian; lia.
  - exists 0. destruct big_endian; lia.
  - destruct big_endian.
    + exists k. lia.
    + exists (k + Z_of_byte b). lia.
Qed.

Lemma lsum_inet_zero l : lsum true l = 0 <-> inet_sum l = 0.
Proof.
  clear MTU_MAX ni_link_address_get_broadcast uninitialised.
  induction l as [|a|a b r IH] using list_pair_ind;
    cbn [lsum inet_sum negb]; unfold byte_weight.
  - tauto.
  - destruct big_endian; lia.
  - pose proof (Z_of_byte_range a). pose proof (Z_of_byte_range b).
    pose proof (lsum_range true r). pose proof (inet_sum_nonneg r).
    destruct big_endian; lia.
Qed.

Lemma inet_checksum_zero_iff l :
  inet_checksum l = 0 <-> inet_sum l mod 65535 = 0 /\ inet_sum l <> 0.
Proof.
  clear MTU_MAX ni_link_address_get_broadcast uninitialised.
  unfold inet_checksum, end_around_carry.
  pose proof (inet_sum_nonneg l) as Hn.
  destruct (Z.eqb_spec (inet_sum l) 0) as [E|E].
  - rewrite E. split; [lia | tauto].
  - pose proof (Z.mod_pos_bound (inet_sum l - 1) 65535 ltac:(lia)).
    pose proof (Z.mod_pos_bound (inet_sum l) 65535 ltac:(lia)).
    pose proof (Z_div_mod_eq_full (inet_sum l - 1) 65535).
    pose proof (Z_div_mod_eq_full (inet_sum l) 65535).
    split; intros; [split; [|exact E] |]; nia.
Qed.

Lemma lsum_verifies l :
  (lsum true l mod 65535 = 0 /\ lsum true l <> 0) <-> inet_checksum l = 0.
Proof.
  clear MTU_MAX ni_link_address_get_broadcast uninitialised.
  rewrite inet_checksum_zero_iff, lsum_inet_zero.
  destruct (lsum_inet_sum l) as [k Hk].
  pose proof (Z_div_mod_eq_full (lsum true l) 65535).
  pose proof (Z_div_mod_eq_full (inet_sum l) 65535).
  pose proof (Z.mod_pos_bound (lsum true l) 65535 ltac:(lia)).
  pose proof (Z.mod_pos_bound (inet_sum l) 65535 ltac:(lia)).
  destruct big_endian; split; intros [Hm Hz]; (split; [|exact Hz]); nia.
Qed.

Lemma bytes_at_cons m p n :
  0 <= p < Z.of_nat (length m) -> 0 < n ->
  bytes_at m p n = byte_at m p :: bytes_at m (p + 1) (n - 1).
Proof.
  clear MTU_MAX ni_link_address_get_broadcast uninitialised.
  intros Hp Hn. unfold bytes_at, byte_at.
  replace (Z.to_nat (p + 1)) with (S (Z.to_nat p)) by lia.
  replace (Z.to_nat n) with (S (Z.to_nat (n - 1))) by lia.
  destruct (lookup_lt_is_Some_2 m (Z.to_nat p) ltac:(lia)) as [x Hx].
  rewrite (drop_S _ _ _ Hx), nth_lookup, Hx. reflexivity.
Qed.

Lemma bytes_at_nil m p : bytes_at m p 0 = [].
Proof. reflexivity. Qed.

Lemma udp_pseudo_header_fake m iph uh :
  0 <= iph -> iph + 20 <= Z.of_nat (length m) ->
  0 <= uh -> uh + 6 <= Z.of_nat (length m) ->
  udp_pseudo_header m iph uh = fake_header m iph uh.
Proof.
  clear MTU_MAX ni_link_address_get_broadcast uninitialised.
  intros Hi Hil Hu Hul.
  rewrite fake_header_bytes.
  unfold udp_pseudo_header, ip_src_off, ip_dst_off, ip_p_off, uh_ulen_off.
  rewrite !(bytes_at_cons m (iph + 12)) by lia.
  rewrite !(bytes_at_cons m (iph + 12 + 1)) by lia.
  rewrite !(bytes_at_cons m (iph + 12 + 1 + 1)) by lia.
  rewrite !(bytes_at_cons m (iph + 12 + 1 + 1 + 1)) by lia.
  rewrite !(bytes_at_cons m (iph + 16)) by lia.
  rewrite !(bytes_at_cons m (iph + 16 + 1)) by lia.
  rewrite !(bytes_at_cons m (iph + 16 + 1 + 1)) by lia.
  rewrite !(bytes_at_cons m (iph + 16 + 1 + 1 + 1)) by lia.
  rewrite !(bytes_at_cons m (uh + 4)) by lia.
  rewrite !(bytes_at_cons m (uh + 4 + 1)) by lia.
  cbn [Z.sub Z.pos_sub Pos.pred_double Z.succ_double Z.pred_double Z.double
       Z.opp Z.add Pos.add Pos.succ].
  rewrite !bytes_at_nil. cbn [app].
  replace (iph + 12 + 1 + 1) with (iph + 12 + 2) by lia.
  replace (iph + 12 + 2 + 1) with (iph + 12 + 3) by lia.
  replace (iph + 16 + 1 + 1) with (iph + 16 + 2) by lia.
  replace (iph + 16 + 2 + 1) with (iph + 16 + 3) by lia.
  reflexivity.
Qed.

(** The IP header checksum of the code is zero exactly when the region
    verifies as a block of network-order words. *)
Lemma checksum_wire m p len :
  0 <= p -> 0 <= len < 65536 -> p + len <= Z.of_nat (length m) ->
  checksum m p len = 0 <-> inet_checksum (bytes_at m p len) = 0.
Proof.
  clear MTU_MAX ni_link_address_get_broadcast uninitialised.
  intros Hp Hl Hm. rewrite checksum_spec by lia.
  pose proof (lsum_range true (bytes_at m p len)) as H1.
  pose proof (lsum_region_bound m p len ltac:(lia)) as H2.
  assert (len / 2 < 32768) by (apply Z.div_lt_upper_bound; lia).
  rewrite checksum_fold_zero_iff by lia.
  apply lsum_verifies.
Qed.

(** The same for the UDP checksum: pseudo-header, UDP header and the
    [len] bytes behind it. *)
Lemma ipudp_checksum_wire m iph uh len :
  0 <= iph -> iph + 20 <= Z.of_nat (length m) ->
  0 <= uh -> 0 <= len < 65536 -> uh + 8 + len <= Z.of_nat (length m) ->
  ipudp_checksum m iph uh (uh + 8) len = 0
  <-> inet_checksum (udp_pseudo_header m iph uh ++ bytes_at m uh (8 + len)) = 0.
Proof.
  clear MTU_MAX ni_link_address_get_broadcast uninitialised.
  intros Hi Hil Hu Hl Hm.
  assert (Hu16 : u16 len = len) by (unfold u16; apply Z.mod_small; lia).
  rewrite ipudp_checksum_spec by (rewrite ?Hu16; lia).
  rewrite checksum_fold_zero_iff by apply udp_sum_range.
  rewrite <- lsum_verifies.
  rewrite udp_pseudo_header_fake by lia.
  rewrite bytes_at_add by lia.
  rewrite !lsum_app, fake_header_length, bytes_at_length by lia.
  change (Nat.even 12) with true. change (Nat.even (Z.to_nat 8)) with true.
  cbv iota.
  unfold udp_sum, sizeof_udphdr. rewrite Hu16, Z.add_assoc. tauto.
Qed.

(** * Ingress validation against the wire format *)

(** On a read that lies in the buffer, is at most 65535 bytes long and
    holds the IP header and a UDP header, the tests of the code are the
    conditions of [valid_read]. *)
Lemma acceptable_valid_read m data bytes :
  0 <= data -> data + bytes <= Z.of_nat (length m) -> bytes <= 65535 ->
  4 * ip_hl m data + 8 <= bytes ->
  acceptable m data bytes <-> valid_read m data bytes.
Proof.
  clear MTU_MAX ni_link_address_get_broadcast uninitialised.
  intros Hd Hm Hb Hh.
  pose proof (ip_hl_range m data) as Hr.
  unfold acceptable, valid_read. cbv zeta. unfold sizeof_udphdr.
  set (ihl := 4 * ip_hl m data) in *.
  replace (bytes - ihl) with (8 + (bytes - ihl - 8)) at 2 by lia.
  split; intros (Hv & Hhl & Hlen & Hck & Hp & Hu);
    (split; [exact Hv|]); (split; [exact Hhl|]); (split; [exact Hlen|]);
    (split; [|split; [exact Hp|]]).
  - apply checksum_wire; [lia | lia | lia | exact Hck].
  - apply ipudp_checksum_wire; [lia | lia | lia | lia | lia | exact Hu].
  - apply checksum_wire; [lia | lia | lia | exact Hck].
  - apply ipudp_checksum_wire; [lia | lia | lia | lia | lia | exact Hu].
Qed.

Lemma cph_accept_valid_read m data bytes pl p :
  0 <= data -> data + bytes <= Z.of_nat (length m) -> bytes <= 65535 ->
  cph_payload (check_packet_header m data bytes pl) = Some p ->
  valid_read m data bytes
  /\ 4 * ip_hl m data + sizeof_udphdr <= bytes
  /\ p = data + 4 * ip_hl m data + sizeof_udphdr.
Proof.
  clear MTU_MAX ni_link_address_get_broadcast uninitialised.
  intros Hd Hm Hb E.
  destruct (cph_accept_inv m data bytes pl p E) as (Ha & H1 & H2 & Er).
  rewrite Er in E. cbn [cph_payload] in E. unfold sizeof_udphdr in *.
  split; [apply acceptable_valid_read; [lia | lia | lia | lia | exact Ha] |].
  split; [lia | congruence].
Qed.


(** X10: On a read of at most 65535 bytes that lies in the buffer, the
    validation accepts exactly when the conditions of [valid_read] hold (the
    UDP checksum taken over the pseudo-header, the UDP header and all the
    bytes read behind it) and the read holds the IP header and a whole UDP
    header; the payload pointer is then the byte after the UDP header. *)
Theorem check_packet_header_accepts_iff m data bytes pl p :
  0 <= data -> data + bytes <= Z.of_nat (length m) -> bytes <= 65535 ->
  cph_payload (check_packet_header m data bytes pl) = Some p
  <-> valid_read m data bytes
      /\ 4 * ip_hl m data + sizeof_udphdr <= bytes
      /\ p = data + 4 * ip_hl m data + sizeof_udphdr.
Proof.
  clear MTU_MAX ni_link_address_get_broadcast uninitialised.
  intros Hd Hm Hb. split.
  - apply cph_accept_valid_read; assumption.
  - intros (Ha & Hh & ->). unfold sizeof_udphdr in Hh.
    rewrite cph_accept; [reflexivity | | lia | unfold sizeof_udphdr; lia].
    apply acceptable_valid_read; [lia | lia | lia | lia | exact Ha].
Qed.

(** * The built frame against the wire format *)

(** C4: for a 300-byte payload with source and destination 0.0.0.0 the
    build produces a 328-byte frame with V=4, IHL=5, TOS=LOWDELAY, total
    length 328, ID=0, DF set and fragment offset 0, the default TTL,
    protocol UDP, source 0.0.0.0, destination 255.255.255.255 and an IP
    checksum, the bytes 39 96, with which the header verifies to zero; its
    UDP header has source port 68, destination port 67, length 308 and a
    checksum with which pseudo-header, UDP header and payload verify to
    zero; the payload follows.  The two checksums verify as sums of
    network-order words, and the checksum functions of the code agree. *)
Theorem discover_egress_frame bp :
  28 <= head bp -> tail bp = head bp + 300 ->
  tail bp <= Z.of_nat (length (base bp)) ->
  exists bp',
    ni_dhcp_build_send_header bp 0 0 = Some (0, bp')
    /\ let frame := ni_buffer_data bp' in
       length frame = 328%nat
       /\ ip_v frame 0 = 4 /\ ip_hl frame 0 = 5
       /\ load8 frame ip_tos_off = IPTOS_LOWDELAY
       /\ ntohs (load16 frame ip_len_off) = 328
       /\ ntohs (load16 frame ip_id_off) = 0
       /\ Z.land (ntohs (load16 frame ip_off_off)) IP_DF = IP_DF
       /\ Z.land (ntohs (load16 frame ip_off_off)) 0x1fff = 0
       /\ load8 frame ip_ttl_off = IPDEFTTL
       /\ load8 frame ip_p_off = IPPROTO_UDP
       /\ bytes_at frame ip_src_off 4 = [x00; x00; x00; x00]
       /\ bytes_at frame ip_dst_off 4 = [xff; xff; xff; xff]
       /\ bytes_at frame ip_sum_off 2 = [x39; x96]
       /\ inet_checksum (bytes_at frame 0 sizeof_ip) = 0
       /\ checksum frame 0 sizeof_ip = 0
       /\ ntohs (load16 frame (sizeof_ip + uh_sport_off)) = 68
       /\ ntohs (load16 frame (sizeof_ip + uh_dport_off)) = 67
       /\ ntohs (load16 frame (sizeof_ip + uh_ulen_off)) = 308
       /\ inet_checksum (udp_pseudo_header frame 0 sizeof_ip
                         ++ bytes_at frame sizeof_ip 308) = 0
       /\ ipudp_checksum frame 0 sizeof_ip (sizeof_ip + sizeof_udphdr) 300 = 0
       /\ bytes_at frame (sizeof_ip + sizeof_udphdr) 300 = ni_buffer_data bp.
Proof.
  clear MTU_MAX ni_link_address_get_broadcast uninitialised.
  intros Hh Ht Htl.
  destruct (discover_frame_fields bp Hh Ht Htl) as (bp' & Hb & Hf).
  destruct (build_send_header_frame bp 0 0 Hh ltac:(lia) Htl ltac:(lia))
    as (bp'' & Hb' & _ & _ & _ & Ef).
  rewrite Hb in Hb'. injection Hb' as <-.
  exists bp'. split; [exact Hb|]. cbv zeta in *.
  destruct Hf as (Hlen & Hv & Hhl & Htos & Hl & Hid & Hdf & Hoff & Httl & Hp
                  & Hsrc & Hdst & Hck & Hsp & Hdp & Hul & Hudp & Hpay).
  assert (Hsum : bytes_at (ni_buffer_data bp') ip_sum_off 2 = [x39; x96]).
  { rewrite Ef.
    assert (HL : Z.of_nat (length (ni_buffer_data bp)) = 300).
    { rewrite <- Hpay. rewrite bytes_at_length; [reflexivity | | lia |];
        unfold sizeof_ip, sizeof_udphdr; lia. }
    unfold dhcp_frame. cbv zeta. rewrite HL.
    rewrite bytes_at_app_l
      by (rewrite ?ip_header_length; unfold ip_sum_off; lia).
    unfold coerce_dst. change (u32 0 =? 0) with true. cbv iota.
    assert (E0 : host32 0 = [x00; x00; x00; x00])
      by (unfold host32, store32, store16; destruct big_endian; reflexivity).
    unfold ip_header. rewrite host16_zero, E0, host32_broadcast.
    unfold net16. cbn [app]. cbn [lsum negb].
    unfold byte_weight, host16, store16, ip_sum_off.
    destruct big_endian; vm_compute; reflexivity. }
  assert (Hwi : inet_checksum (bytes_at (ni_buffer_data bp') 0 sizeof_ip) = 0).
  { unfold sizeof_ip in *. apply checksum_wire; [lia | lia | lia | exact Hck]. }
  assert (Hwu : inet_checksum (udp_pseudo_header (ni_buffer_data bp') 0 sizeof_ip
                               ++ bytes_at (ni_buffer_data bp') sizeof_ip 308) = 0).
  { unfold sizeof_ip, sizeof_udphdr in *. change 308 with (8 + 300).
    apply ipudp_checksum_wire; [lia | lia | lia | lia | lia | exact Hudp]. }
  tauto.
Qed.

(** X6: For every payload of at most 65507 bytes and every source and
    destination, the build yields a frame with V=4, IHL=5, TOS=LOWDELAY,
    total length 28+L, ID=0, DF alone in the fragment word, the default
    TTL, protocol UDP, the source as given, the destination as given or
    the limited broadcast address when it is 0.0.0.0, ports 68 to 67 and UDP
    length 8+L.  Both checksums verify as sums of network-order words: the
    20 bytes of the IP header, and pseudo-header, UDP header and payload;
    the checksum functions of the code agree. *)
Theorem build_send_header_any_frame bp src dst :
  28 <= head bp -> head bp <= tail bp ->
  tail bp <= Z.of_nat (length (base bp)) ->
  tail bp - head bp + 28 <= 65535 ->
  exists bp',
    ni_dhcp_build_send_header bp src dst = Some (0, bp')
    /\ let frame := ni_buffer_data bp' in
       let L := tail bp - head bp in
       Z.of_nat (length frame) = 28 + L
       /\ ip_v frame 0 = 4 /\ ip_hl frame 0 = 5
       /\ load8 frame ip_tos_off = IPTOS_LOWDELAY
       /\ ntohs (load16 frame ip_len_off) = 28 + L
       /\ ntohs (load16 frame ip_id_off) = 0
       /\ ntohs (load16 frame ip_off_off) = IP_DF
       /\ load8 frame ip_ttl_off = IPDEFTTL
       /\ load8 frame ip_p_off = IPPROTO_UDP
       /\ load32 frame ip_src_off = u32 src
       /\ load32 frame ip_dst_off
          = (if u32 dst =? 0 then INADDR_BROADCAST else u32 dst)
       /\ inet_checksum (bytes_at frame 0 sizeof_ip) = 0
       /\ checksum frame 0 sizeof_ip = 0
       /\ ntohs (load16 frame (sizeof_ip + uh_sport_off)) = DHCP_CLIENT_PORT
       /\ ntohs (load16 frame (sizeof_ip + uh_dport_off)) = DHCP_SERVER_PORT
       /\ ntohs (load16 frame (sizeof_ip + uh_ulen_off)) = 8 + L
       /\ inet_checksum (udp_pseudo_header frame 0 sizeof_ip
                         ++ bytes_at frame sizeof_ip (8 + L)) = 0
       /\ ipudp_checksum frame 0 sizeof_ip (sizeof_ip + sizeof_udphdr) L = 0.
Proof.
  clear MTU_MAX ni_link_address_get_broadcast uninitialised.
  intros Hh Hht Htl Hl.
  destruct (build_send_header_fields bp src dst Hh Hht Htl Hl)
    as (bp' & Hb & Hf).
  exists bp'. split; [exact Hb|]. cbv zeta in *.
  destruct Hf as (Hlen & Hv & Hhl & Htos & Hil & Hid & Hdf & Httl & Hp
                  & Hsrc & Hdst & Hck & Hsp & Hdp & Hul & Hudp).
  assert (Hwi : inet_checksum (bytes_at (ni_buffer_data bp') 0 sizeof_ip) = 0).
  { unfold sizeof_ip in *. apply checksum_wire; [lia | lia | lia | exact Hck]. }
  assert (Hwu : inet_checksum
                  (udp_pseudo_header (ni_buffer_data bp') 0 sizeof_ip
                   ++ bytes_at (ni_buffer_data bp') sizeof_ip
                        (8 + (tail bp - head bp))) = 0).
  { unfold sizeof_ip, sizeof_udphdr in *.
    apply ipudp_checksum_wire; [lia | lia | lia | lia | lia | exact Hudp]. }
  tauto.
Qed.
End Host.

(** * Concrete runs

    The host is taken little-endian here, with MTU_MAX = 1500, Ethernet
    as the only interface type that has a broadcast address, and a heap
    whose fresh blocks hold de ad de ad ... *)

Definition eth_broadcast (iftype : Z) : option (list byte) :=
  if iftype =? 1 then Some [xff; xff; xff; xff; xff; xff] else None.

Definition LE : bool := false.

(** What a fresh block holds: nothing that was put there. *)
Definition stale (p i : nat) : byte :=
  if Nat.even (p + i) then xde else xad.

(** A payload of five bytes in a buffer with 28 bytes of head room and two
    bytes behind the payload; it is sent from 10.0.0.1 to 192.0.2.1 (the
    address words as a little-endian host holds them). *)
Definition small_bp : ni_buffer_t :=
  {| base := repeat x00 28 ++ [x01; x02; x03; x04; x05] ++ [x07; x07];
     head := 28; tail := 33 |}.

Lemma build_then_check_small :
  (28 <= head small_bp /\ head small_bp <= tail small_bp
   /\ tail small_bp <= Z.of_nat (length (base small_bp))
   /\ tail small_bp - head small_bp + 28 <= 65535)
  /\ exists bp',
      ni_dhcp_build_send_header LE small_bp 0x0100000a 0x010200c0 = Some (0, bp')
      /\ check_packet_header LE (ni_buffer_data bp' ++ [xaa; xbb]) 0
           (Z.of_nat (length (ni_buffer_data bp'))) 0
         = {| cph_payload := Some 28;
              cph_payload_len := Z.of_nat (length (ni_buffer_data small_bp)) + 28;
              cph_debug := [] |}
      /\ bytes_at (ni_buffer_data bp' ++ [xaa; xbb]) 28
           (Z.of_nat (length (ni_buffer_data small_bp)))
         = ni_buffer_data small_bp
      /\ Z.of_nat (length (ni_buffer_data small_bp)) = tail small_bp - head small_bp.
Proof.
  assert (H : 28 <= head small_bp /\ head small_bp <= tail small_bp
              /\ tail small_bp <= Z.of_nat (length (base small_bp))
              /\ tail small_bp - head small_bp + 28 <= 65535)
    by (cbn; lia).
  split; [exact H|].
  destruct H as (H1 & H2 & H3 & H4).
  exact (build_then_check_yields_total_length LE small_bp 0x0100000a 0x010200c0
           [xaa; xbb] 0 H1 H2 H3 H4).
Defined.

(** What the round trip gives on that input: the payload starts at offset
    28 and the length reported is 33, not 5. *)
Example build_then_check_small_value :
  (let '(_, bp') := default (0, small_bp)
                      (ni_dhcp_build_send_header LE small_bp 0x0100000a 0x010200c0) in
   let r := check_packet_header LE (ni_buffer_data bp') 0 33 0 in
   (cph_payload r, cph_payload_len r, length (ni_buffer_data small_bp)))
  = (Some 28, 33, 5%nat).
Proof. vm_compute. reflexivity. Qed.

(** A device with an open IP capture, for the hooks and the reopen. *)
Definition dev0 (fd : Z) (deadline : timeval) : ni_dhcp_device_t :=
  {| ifname := "eth0"; listen_fd := fd; capture := Some 0%nat;
     system_ifindex := 2; system_iftype := 1; system_arp_type := 1;
     system_mtu := 0; retrans_deadline := deadline |}.
Definition sock0 : ni_socket_t :=
  {| __fd := 4; error := false; user_data := Some 0%nat;
     data_ready := Some ni_dhcp_socket_recv_fn;
     get_timeout := Some __ni_dhcp_socket_get_timeout_fn;
     check_timeout := Some __ni_dhcp_socket_check_timeout_fn;
     active := true |}.
Definition cap0 (proto : Z) (buf : list byte) : ni_capture_t :=
  {| dev := Some 0%nat; sock := Some 0%nat; protocol := proto;
     sll := {| sll_family := AF_PACKET; sll_protocol := htons LE proto;
               sll_ifindex := 2; sll_hatype := htons LE 1; sll_halen := 6;
               sll_addr := [xff; xff; xff; xff; xff; xff] |};
     buffer := Some buf; mtu := Z.of_nat (length buf) |}.
Definition world (d : ni_dhcp_device_t) (c : ni_capture_t)
    (answers : list Z) (rx : list (option (list byte))) : state :=
  {| devices := {[ 0%nat := d ]}; captures := {[ 0%nat := c ]};
     sockets := {[ 0%nat := sock0 ]}; next_ptr := 1;
     dhcp_bpf_filter := dhcp_bpf_filter_init;
     arp_bpf_filter := arp_bpf_filter_init; done := false;
     kernel_ret := answers; kernel_rx := rx;
     sys_trace := []; fsm_trace := []; log := [] |}.

Definition T0 : timeval := {| tv_sec := 100; tv_usec := 500000 |}.
Definition idle : timeval := {| tv_sec := 0; tv_usec := 0 |}.

(** A device that has not been opened yet. *)
Definition dev_closed : ni_dhcp_device_t :=
  {| ifname := "eth0"; listen_fd := -1; capture := None;
     system_ifindex := 2; system_iftype := 1; system_arp_type := 1;
     system_mtu := 0; retrans_deadline := idle |}.
Definition world_closed (answers : list Z) : state :=
  {| devices := {[ 0%nat := dev_closed ]}; captures := ∅; sockets := ∅;
     next_ptr := 0;
     dhcp_bpf_filter := dhcp_bpf_filter_init;
     arp_bpf_filter := arp_bpf_filter_init; done := false;
     kernel_ret := answers; kernel_rx := [];
     sys_trace := []; fsm_trace := []; log := [] |}.




(** A reply of 36 bytes that the validation accepts. *)
Definition reply_frame : list byte :=
  [ x45; x10; x00; x24; x00; x00; x40; x00; x40; x11; x78; xb8;
    xc0; x00; x02; x01; xff; xff; xff; xff;
    x00; x43; x00; x44; x00; x10; xfd; x68;
    x63; x68; x6b; x21; xfe; x0f; x73; x43 ].

(** C3: a first fragment (MF set, offset 0) to UDP port 68 is accepted by
    the program, in its link-layer form and in its cooked form. *)
Definition first_fragment_ip : list byte :=
  [ x45; x00; x00; x24; x00; x01; x20; x00; x40; x11; x00; x00;
    xc0; x00; x02; x01; xff; xff; xff; xff;
    x00; x43; x00; x44; x00; x10; x00; x00;
    x63; x68; x6b; x21; x00; x00; x00; x00 ].
Definition first_fragment_eth : list byte :=
  [ xff; xff; xff; xff; xff; xff; x02; x00; x00; x00; x00; x01; x08; x00 ]
  ++ first_fragment_ip.

Lemma first_fragment_accepted :
  is_fragment first_fragment_eth = true
  /\ filter dhcp_bpf_filter_init first_fragment_eth = 0xffffffff
  /\ filter dhcp_bpf_filter_cooked first_fragment_ip = 0xffffffff.
Proof. vm_compute. repeat split; reflexivity. Qed.

(** A payload of 300 bytes with 28 bytes of head room. *)
Definition discover_bp : ni_buffer_t :=
  {| base := repeat x00 28 ++ [x01; x01; x06; x00] ++ repeat x00 296;
     head := 28; tail := 328 |}.

(** C5: the DHCP transport opened twice on one device.  The first open
    cannot bind the dummy socket and still opens the capture; the second
    finds that capture sound and keeps it, and creates and binds the dummy
    socket. *)
Lemma reopen_recreates_dummy_socket :
  exists st1 st2 d1 c1 s1,
    ni_dhcp_socket_open LE 1500 eth_broadcast stale 0
      (world_closed [5; 0; 0; 0; -1; 6; 0; 0; 7; 0; 0; 0; 0]) = Some (0, st1)
    /\ (devices st1 !! 0%nat = Some d1 /\ capture d1 = Some 0%nat
        /\ captures st1 !! 0%nat = Some c1 /\ sock c1 = Some 1%nat
        /\ sockets st1 !! 1%nat = Some s1 /\ error s1 = false
        /\ protocol c1 = ETHERTYPE_IP)
    /\ ni_dhcp_socket_open LE 1500 eth_broadcast stale 0 st1 = Some (0, st2)
    /\ capture <$> devices st2 !! 0%nat = Some (Some 0%nat)
    /\ listen_fd d1 = -1
    /\ listen_fd <$> devices st2 !! 0%nat = Some 7
    /\ skipn (length (sys_trace st1)) (sys_trace st2)
       = [ sys_socket PF_INET SOCK_DGRAM IPPROTO_UDP;
           sys_setsockopt 7 (SO_REUSEADDR 1);
           sys_setsockopt 7 (SO_RCVBUF 1);
           sys_setsockopt 7 (SO_BINDTODEVICE "eth0");
           sys_bind 7 (sockaddr_in AF_INET (htons LE DHCP_CLIENT_PORT) 0);
           sys_fcntl_cloexec 7 ].
Proof.
  eexists _, _, _, _, _.
  split; [vm_compute; reflexivity|].
  split; [repeat split; vm_compute; reflexivity|].
  split; [vm_compute; reflexivity|].
  vm_compute. repeat split; reflexivity.
Qed.

Lemma reopen_is_noop_bound :
  let d := dev0 5 T0 in
  let c := cap0 ETHERTYPE_IP (repeat x00 64) in
  let st := world d c [7; 0; 0; 0; 0] [] in
  (forall cb, __ni_dhcp_common_open LE 1500 eth_broadcast stale 0
                (protocol c) cb st
              = Some (0, st))
  /\ ni_dhcp_socket_open LE 1500 eth_broadcast stale 0 st = Some (0, st).
Proof.
  cbv zeta.
  pose proof (reopen_is_noop LE 1500 eth_broadcast stale
                (world (dev0 5 T0) (cap0 ETHERTYPE_IP (repeat x00 64))
                   [7; 0; 0; 0; 0] [])
                0%nat (dev0 5 T0) 0%nat (cap0 ETHERTYPE_IP (repeat x00 64))
                0%nat sock0 eq_refl eq_refl eq_refl eq_refl eq_refl eq_refl)
    as [H1 H2].
  split; [exact H1|].
  apply H2; [reflexivity | cbn; lia].
Defined.

(** C6, with the deadline at 100.5 s and the clock one microsecond later. *)
Lemma timeout_hooks_at_T0 :
  let st := world (dev0 5 T0) (cap0 ETHERTYPE_IP (repeat x00 64)) [] [] in
  let now := {| tv_sec := 100; tv_usec := 500001 |} in
  __ni_dhcp_socket_get_timeout 0 idle st = Some ((0, T0), st)
  /\ __ni_dhcp_socket_check_timeout 0 now st
     = Some (tt, set_fsm_trace [ni_dhcp_device_retransmit_call 0] st)
  /\ __ni_dhcp_socket_check_timeout 0 T0 st = Some (tt, st).
Proof.
  cbv zeta.
  pose proof (timeout_hooks_route_deadline
                (world (dev0 5 T0) (cap0 ETHERTYPE_IP (repeat x00 64)) [] [])
                0%nat sock0 0%nat (cap0 ETHERTYPE_IP (repeat x00 64)) 0%nat
                (dev0 5 T0) idle) as H.
  split; [|split].
  - apply (H T0 eq_refl eq_refl eq_refl eq_refl eq_refl);
      [unfold timeval_wf; cbn; lia | unfold timeval_wf; cbn; lia | reflexivity].
  - apply (H {| tv_sec := 100; tv_usec := 500001 |}
             eq_refl eq_refl eq_refl eq_refl eq_refl);
      [unfold timeval_wf; cbn; lia | unfold timeval_wf; cbn; lia
      | reflexivity | unfold timeval_usecs; cbn; lia].
  - apply (H T0 eq_refl eq_refl eq_refl eq_refl eq_refl);
      [unfold timeval_wf; cbn; lia | unfold timeval_wf; cbn; lia
      | right; unfold timeval_usecs; cbn; lia].
Defined.

(** C7: a 28-byte ARP reply read into the 1500-byte receive buffer, which
    still holds older data: the FSM gets a reader of 1500 bytes. *)
Definition arp_reply : list byte :=
  [ x00; x01; x08; x00; x06; x04; x00; x02;
    x02; x00; x00; x00; x00; x01; xc0; x00; x02; x01;
    x02; x00; x00; x00; x00; x02; xc0; x00; x02; x02 ].

Lemma arp_recv_reply_in_1500_byte_buffer :
  let c := cap0 ETHERTYPE_ARP (repeat xee 1500) in
  let st := world (dev0 5 idle) c [] [Some arp_reply] in
  let rd := {| base := arp_reply ++ repeat xee 1472; head := 0; tail := 1500 |} in
  length arp_reply = 28%nat
  /\ exists st',
      ni_arp_socket_recv 0 st = Some (tt, st')
      /\ fsm_trace st' = [ni_dhcp_fsm_process_arp_packet_call 0 rd]
      /\ ni_buffer_count rd = 1500.
Proof.
  cbv zeta. split; [reflexivity|].
  destruct (arp_recv_hands_mtu_bytes
              (world (dev0 5 idle) (cap0 ETHERTYPE_ARP (repeat xee 1500)) []
                 [Some arp_reply])
              0%nat sock0 0%nat (cap0 ETHERTYPE_ARP (repeat xee 1500)) 0%nat
              (dev0 5 idle) (repeat xee 1500) arp_reply []
              eq_refl eq_refl eq_refl eq_refl eq_refl eq_refl eq_refl)
    as (st' & H1 & H2 & H3 & _).
  - cbn. lia.
  - cbn. lia.
  - exists st'. split; [exact H1|]. split; [exact H2|]. exact H3.
Defined.

(** C8: [reply_frame] is accepted, and so is the frame that differs from it
    in bit 1 of byte 0 only (IHL 7 instead of 5). *)
Lemma ihl_bit_flip_accepted :
  cph_payload (check_packet_header LE reply_frame 0 36 0) = Some 28
  /\ load8 (flip_bit reply_frame 0 1) 0 = 0x47
  /\ cph_payload (check_packet_header LE (flip_bit reply_frame 0 1) 0 36 0)
     = Some 36.
Proof. vm_compute. repeat split; reflexivity. Qed.

Lemma single_bit_flip_dropped_in_reply :
  cph_payload (check_packet_header LE (flip_bit reply_frame 3 0) 0 36 0) = None
  /\ cph_payload (check_packet_header LE (flip_bit reply_frame 24 7) 0 36 0) = None.
Proof.
  split.
  - apply (single_bit_flip_dropped LE reply_frame 36 0 28 3 0);
      [cbn; lia | vm_compute; reflexivity | lia | left; split; [lia | intros (H & _); discriminate H]].
  - apply (single_bit_flip_dropped LE reply_frame 36 0 28 24 7);
      [cbn; lia | vm_compute; reflexivity | lia | right; vm_compute; split; congruence].
Defined.

(** C9, with the filter installed for IP, for ARP and for IP again, the
    kernel refusing the second time. *)
Lemma cooked_patch_three_calls :
  let st := world (dev0 5 idle) (cap0 ETHERTYPE_IP (repeat x00 64)) [0; -1; 0] [] in
  exists st',
    set_filter_calls [(0%nat, ETHERTYPE_IP); (0%nat, ETHERTYPE_ARP);
                      (0%nat, ETHERTYPE_IP)] st = Some st'
    /\ dhcp_bpf_filter st' = dhcp_bpf_filter_cooked
    /\ arp_bpf_filter st' = arp_bpf_filter_cooked
    /\ k <$> dhcp_bpf_filter st' !! 2%nat = Some 9.
Proof.
  cbv zeta.
  destruct (cooked_patch_applied_once
              [(0%nat, ETHERTYPE_IP); (0%nat, ETHERTYPE_ARP); (0%nat, ETHERTYPE_IP)]
              (world (dev0 5 idle) (cap0 ETHERTYPE_IP (repeat x00 64)) [0; -1; 0] []))
    as (st' & H1 & _ & H3 & H4 & _).
  - repeat split.
  - discriminate.
  - repeat constructor;
      exists (cap0 ETHERTYPE_IP (repeat x00 64)), 0%nat, sock0; repeat split.
  - exists st'. split; [exact H1|]. split; [exact H3|]. split; [exact H4|].
    rewrite H3. reflexivity.
Defined.



(** * Independence of the host byte order *)

Lemma lsum_orders l :
  forall f, exists t, 0 <= t /\ 256 * lsum false f l = lsum true f l + 65535 * t.
Proof.
  induction l as [|b l IH]; intros f.
  - exists 0. cbn. lia.
  - destruct (IH (negb f)) as (t & Ht & E). cbn [lsum].
    pose proof (Z_of_byte_range b).
    destruct f; unfold byte_weight; cbn [negb] in *.
    + exists t. lia.
    + exists (t + Z_of_byte b). lia.
Qed.

Lemma lsum_zero_orders l :
  forall f, lsum true f l = 0 <-> lsum false f l = 0.
Proof.
  induction l as [|b l IH]; intros f.
  - cbn. tauto.
  - cbn [lsum]. pose proof (Z_of_byte_range b).
    pose proof (lsum_range true (negb f) l).
    pose proof (lsum_range false (negb f) l).
    specialize (IH (negb f)).
    destruct f; unfold byte_weight; cbn [negb] in *; lia.
Qed.

Lemma bswap16_congruent x :
  0 <= x < 65536 ->
  0 <= bswap16 x < 65536
  /\ bswap16 x = 256 * x - 65535 * (x / 256)
  /\ (bswap16 x = 0 <-> x = 0)
  /\ (bswap16 x = 65535 <-> x = 65535).
Proof.
  intros Hx. unfold bswap16, u8.
  pose proof (Z_div_mod_eq_full x 256) as E.
  pose proof (Z.mod_pos_bound x 256 ltac:(lia)) as Hm.
  assert (0 <= x / 256 < 256)
    by (split; [apply Z.div_pos; lia | apply Z.div_lt_upper_bound; lia]).
  rewrite (Z.mod_small (x / 256)) by lia.
  repeat split; lia.
Qed.

Lemma checksum_fold_orders sb sl t :
  0 <= sb < 4294967296 -> 0 <= sl < 4294967296 ->
  256 * sl = sb + 65535 * t ->
  (sb = 0 <-> sl = 0) ->
  checksum_fold sb = bswap16 (checksum_fold sl).
Proof.
  intros Hb Hl E Hz.
  pose proof (checksum_fold_range sb) as Rb.
  pose proof (checksum_fold_range sl) as Rl.
  pose proof (checksum_fold_complement sb Hb) as Cb.
  pose proof (checksum_fold_complement sl Hl) as Cl.
  pose proof (checksum_fold_zero_iff sb Hb) as Zb.
  pose proof (checksum_fold_zero_iff sl Hl) as Zl.
  destruct (bswap16_congruent (checksum_fold sl) Rl) as (Rx & Ex & Zx & Fx).
  set (cb := checksum_fold sb) in *. set (cl := checksum_fold sl) in *.
  set (x := bswap16 cl) in *. set (h := cl / 256) in *.
  apply Z.mod_divide in Cb; [|lia]. destruct Cb as (q1 & Q1).
  apply Z.mod_divide in Cl; [|lia]. destruct Cl as (q2 & Q2).
  assert (Hm : sb mod 65535 = 0 <-> sl mod 65535 = 0).
  { split; intros H; apply Z.mod_divide in H; try lia; destruct H as (q & Hq);
      apply Z.mod_divide; try lia.
    - exists (256 * (q + t) - sl). lia.
    - exists (256 * q - t). lia. }
  assert (K : cb - x = 65535 * (q1 - 256 * q2 + h + t)) by lia.
  destruct (Z.eq_dec cb x) as [?|Hne]; [assumption|exfalso].
  assert (Hcases : (cb = 0 /\ x = 65535) \/ (cb = 65535 /\ x = 0)) by lia.
  destruct Hcases as [[H0 H1] | [H0 H1]].
  - apply Fx in H1. apply Zb in H0. destruct H0 as [H0 H0'].
    assert (cl = 0) by (apply Zl; split; [apply Hm; exact H0 | lia]).
    lia.
  - apply Zx in H1. apply Zl in H1. destruct H1 as [H1 H1'].
    assert (cb = 0) by (apply Zb; split; [apply Hm; exact H1 | lia]).
    lia.
Qed.

Lemma host16_orders cb cl :
  0 <= cl < 65536 -> cb = bswap16 cl -> host16 true cb = host16 false cl.
Proof.
  intros Hl ->.
  change (host16 true (bswap16 cl))
    with [byte_of_Z (bswap16 cl / 256); byte_of_Z (bswap16 cl)].
  change (host16 false cl) with [byte_of_Z cl; byte_of_Z (cl / 256)].
  pose proof (Z.mod_pos_bound cl 256 ltac:(lia)) as Hm.
  assert (0 <= cl / 256 < 256)
    by (split; [apply Z.div_pos; lia | apply Z.div_lt_upper_bound; lia]).
  assert (E1 : u8 (bswap16 cl / 256) = u8 cl).
  { unfold bswap16, u8. rewrite (Z.mod_small (cl / 256)) by lia.
    rewrite Z.div_add_l by lia. rewrite (Z.div_small (cl / 256)) by lia.
    rewrite Z.add_0_r. apply Z.mod_mod. lia. }
  assert (E2 : u8 (bswap16 cl) = u8 (cl / 256)).
  { unfold bswap16, u8. rewrite (Z.mod_small (cl / 256)) by lia.
    rewrite Z.add_comm, Z.mod_add by lia. apply Z.mod_small. lia. }
  rewrite (byte_of_Z_eq _ _ E1), (byte_of_Z_eq _ _ E2). reflexivity.
Qed.

Lemma host16_checksum_fold_orders l :
  Z.of_nat (length l) < 65536 ->
  host16 true (checksum_fold (lsum true true l))
  = host16 false (checksum_fold (lsum false true l)).
Proof.
  intros Hlen.
  destruct (lsum_orders l true) as (t & Ht & E).
  pose proof (lsum_range true true l).
  pose proof (lsum_range false true l).
  pose proof (lsum_word_bound_Z true l 32768 true ltac:(lia) ltac:(lia)).
  pose proof (lsum_word_bound_Z false l 32768 true ltac:(lia) ltac:(lia)).
  apply host16_orders; [apply checksum_fold_range|].
  apply (checksum_fold_orders _ _ t); try lia.
  apply lsum_zero_orders.
Qed.

(** X5: The checksum that the code stores does not depend on the byte order of
    the host: the sum is taken over host-order words and stored as a
    host-order word, and the two bytes that end up in memory are the same
    on a big-endian and on a little-endian machine. *)
Theorem checksum_byte_order_independent m p len :
  0 <= p -> 0 <= len < 65536 -> p + len <= Z.of_nat (length m) ->
  host16 true (checksum true m p len) = host16 false (checksum false m p len).
Proof.
  intros Hp Hlen Hm.
  rewrite !checksum_spec by lia.
  apply host16_checksum_fold_orders.
  rewrite bytes_at_length by lia. lia.
Qed.

Lemma wire_ip_length tot c s d :
  length c = 2%nat -> length s = 4%nat -> length d = 4%nat ->
  length (wire_ip tot c s d) = 20%nat.
Proof.
  intros Hc Hs Hd. unfold wire_ip, net16. rewrite !length_app, Hc, Hs, Hd.
  reflexivity.
Qed.

Lemma wire_dst_length a b c d : length (wire_dst [a; b; c; d]) = 4%nat.
Proof. unfold wire_dst. destruct (forallb _ _); reflexivity. Qed.

Lemma dhcp_frame_orders a b c d a' b' c' d' payload :
  Z.of_nat (length payload) + 28 <= 65535 ->
  dhcp_frame true (load32 true [a; b; c; d] 0) (load32 true [a'; b'; c'; d'] 0)
    payload
  = dhcp_frame false (load32 false [a; b; c; d] 0)
      (load32 false [a'; b'; c'; d'] 0) payload.
Proof.
  intros HL.
  rewrite !dhcp_frame_wire. cbv zeta.
  rewrite !host32_load32, !host32_coerce_dst.
  pose proof (wire_dst_length a' b' c' d') as Hd.
  set (D := wire_dst [a'; b'; c'; d']) in *.
  set (L := Z.of_nat (length payload)) in *.
  rewrite (host16_checksum_fold_orders (wire_ip _ _ _ _))
    by (rewrite wire_ip_length by (assumption || reflexivity); lia).
  rewrite (host16_checksum_fold_orders (wire_pseudo _ _ _ ++ _)).
  - reflexivity.
  - unfold wire_pseudo, wire_udp, net16.
    rewrite !length_app, Hd. cbn [length]. unfold L in *. lia.
Qed.

(** X8: The frame that ni_dhcp_build_send_header builds does not depend on the
    byte order of the host: for the same address bytes and the same
    payload, a big-endian and a little-endian machine put the same bytes
    on the wire, checksums included. *)
Theorem built_frame_byte_order_independent bp a b c d a' b' c' d' :
  28 <= head bp -> head bp <= tail bp ->
  tail bp <= Z.of_nat (length (base bp)) ->
  tail bp - head bp + 28 <= 65535 ->
  exists bpB bpL,
    ni_dhcp_build_send_header true bp (load32 true [a; b; c; d] 0)
      (load32 true [a'; b'; c'; d'] 0) = Some (0, bpB)
    /\ ni_dhcp_build_send_header false bp (load32 false [a; b; c; d] 0)
         (load32 false [a'; b'; c'; d'] 0) = Some (0, bpL)
    /\ ni_buffer_data bpB = ni_buffer_data bpL
    /\ head bpB = head bpL /\ tail bpB = tail bpL.
Proof.
  intros H1 H2 H3 H4.
  destruct (build_send_header_frame true bp (load32 true [a; b; c; d] 0)
              (load32 true [a'; b'; c'; d'] 0) H1 H2 H3 H4)
    as (bpB & EB & HhB & HtB & _ & FB).
  destruct (build_send_header_frame false bp (load32 false [a; b; c; d] 0)
              (load32 false [a'; b'; c'; d'] 0) H1 H2 H3 H4)
    as (bpL & EL & HhL & HtL & _ & FL).
  exists bpB, bpL. split; [exact EB|]. split; [exact EL|].
  split; [|split; congruence].
  rewrite FB, FL. apply dhcp_frame_orders.
  unfold ni_buffer_data. rewrite ni_buffer_count_eq by lia.
  rewrite bytes_at_length by lia. lia.
Qed.

(** * Concrete runs, continued *)

(** A device that has no interface index. *)
Definition dev_noindex : ni_dhcp_device_t :=
  {| ifname := "eth9"; listen_fd := -1; capture := None;
     system_ifindex := 0; system_iftype := 1; system_arp_type := 1;
     system_mtu := 0; retrans_deadline := idle |}.

(** A socket wrapper that was never given a capture. *)
Definition sock_bare : ni_socket_t :=
  {| __fd := 9; error := false; user_data := None; data_ready := None;
     get_timeout := Some __ni_dhcp_socket_get_timeout_fn;
     check_timeout := Some __ni_dhcp_socket_check_timeout_fn;
     active := true |}.


Lemma world_fresh d c answers rx : heap_fresh (world d c answers rx).
Proof.
  intros p Hp. cbn in Hp. cbn [captures sockets world].
  split; apply lookup_singleton_ne; lia.
Qed.

Lemma world_closed_fresh answers : heap_fresh (world_closed answers).
Proof. intros p _. split; apply lookup_empty. Qed.

Lemma world_linked fd deadline proto buf answers rx :
  device_linked (world (dev0 fd deadline) (cap0 proto buf) answers rx) 0.
Proof.
  intros d cp H0 H1. cbn [devices world] in H0.
  rewrite lookup_singleton_eq in H0. injection H0 as <-.
  cbn in H1. injection H1 as <-.
  exists (cap0 proto buf), 0%nat, sock0, buf.
  cbn [captures sockets world]. rewrite !lookup_singleton_eq.
  repeat split. cbn [mtu cap0]. rewrite Nat2Z.id. reflexivity.
Qed.

Lemma world_closed_linked answers : device_linked (world_closed answers) 0.
Proof.
  intros d cp H0 H1. cbn [devices world_closed] in H0.
  rewrite lookup_singleton_eq in H0. injection H0 as <-. discriminate H1.
Qed.

(** The fold of a sum with carries in both halves. *)
Lemma checksum_fold_of_0x1fffe :
  0 <= checksum_fold 0x1fffe < 65536
  /\ (0x1fffe + checksum_fold 0x1fffe) mod 65535 = 0
  /\ (checksum_fold 0x1fffe = 0 <-> 0x1fffe mod 65535 = 0 /\ 0x1fffe <> 0).
Proof. apply (checksum_fold_ones_complement 0x1fffe). lia. Defined.

(** The 12 bytes of addresses and the 8 bytes of the UDP header of
    [reply_frame], summed in one go and in two steps. *)
Lemma checksum_partial_chains_in_reply :
  checksum_partial LE (checksum_partial LE 0 reply_frame 12 8) reply_frame
    (12 + 8) 8
  = checksum_partial LE 0 reply_frame 12 (8 + 8).
Proof.
  apply (checksum_partial_chains LE reply_frame 0 12 8 8); try lia.
  reflexivity.
Defined.

(** Three bytes and the same three bytes with a zero byte behind them. *)
Lemma checksum_of_three_bytes_padded :
  checksum LE [x12; x34; x56; x00] 0 (3 + 1) = checksum LE [x12; x34; x56; x00] 0 3.
Proof.
  apply (checksum_zero_padding LE [x12; x34; x56; x00] 0 3 1); try lia.
  - cbn. lia.
  - reflexivity.
Defined.

(** The IP header of [reply_frame] with its checksum field recomputed. *)
Lemma checksum_fill_in_reply :
  let m0 := store16 LE reply_frame (0 + 10) 0 in
  checksum LE (store16 LE m0 (0 + 10) (checksum LE m0 0 20)) 0 20 = 0.
Proof.
  apply (checksum_fill_verifies LE reply_frame 0 20 10); try lia.
  - reflexivity.
  - cbn. lia.
Defined.

Lemma checksum_byte_order_in_reply :
  host16 true (checksum true reply_frame 0 20)
  = host16 false (checksum false reply_frame 0 20).
Proof.
  apply (checksum_byte_order_independent reply_frame 0 20); try lia.
  cbn. lia.
Defined.

Lemma small_bp_bounds :
  28 <= head small_bp /\ head small_bp <= tail small_bp
  /\ tail small_bp <= Z.of_nat (length (base small_bp))
  /\ tail small_bp - head small_bp + 28 <= 65535.
Proof. cbn. lia. Qed.

(** [small_bp] sent from 10.0.0.1 to 192.0.2.1 on either kind of host. *)
Lemma small_frame_byte_order :
  exists bpB bpL,
    ni_dhcp_build_send_header true small_bp (load32 true [x0a; x00; x00; x01] 0)
      (load32 true [xc0; x00; x02; x01] 0) = Some (0, bpB)
    /\ ni_dhcp_build_send_header false small_bp
         (load32 false [x0a; x00; x00; x01] 0)
         (load32 false [xc0; x00; x02; x01] 0) = Some (0, bpL)
    /\ ni_buffer_data bpB = ni_buffer_data bpL
    /\ head bpB = head bpL /\ tail bpB = tail bpL.
Proof.
  destruct small_bp_bounds as (H1 & H2 & H3 & H4).
  exact (built_frame_byte_order_independent small_bp x0a x00 x00 x01
           xc0 x00 x02 x01 H1 H2 H3 H4).
Defined.

Lemma reply_cut_short_dropped :
  cph_payload (check_packet_header LE reply_frame 0 27 0) = None.
Proof. apply (check_packet_header_short_read LE reply_frame 0 27 0). lia. Defined.

(** [reply_frame] followed by two bytes of padding. *)
Lemma padded_reply_accepted :
  check_packet_header LE (reply_frame ++ [x00; x00]) 0 (36 + 2) 0
  = check_packet_header LE (reply_frame ++ [x00; x00]) 0 36 0.
Proof.
  apply (check_packet_header_zero_padding LE (reply_frame ++ [x00; x00])
           0 36 2 0 28); try lia.
  - cbn. lia.
  - reflexivity.
  - vm_compute. reflexivity.
Defined.

(** The first fragment of the C3 example behind an Ethernet header and on
    its own. *)
Lemma cooked_program_on_first_fragment :
  filter dhcp_bpf_filter_cooked first_fragment_ip
  = filter dhcp_bpf_filter_init
      ([xff; xff; xff; xff; xff; xff; x02; x00; x00; x00; x00; x01; x08; x00]
       ++ first_fragment_ip)
  /\ filter dhcp_bpf_filter_cooked [x45; x00] = 0.
Proof.
  destruct (cooked_programs_compensate
              [xff; xff; xff; xff; xff; xff; x02; x00; x00; x00; x00; x01; x08; x00]
              first_fragment_ip eq_refl) as [H _].
  destruct (cooked_programs_compensate
              [xff; xff; xff; xff; xff; xff; x02; x00; x00; x00; x00; x01; x08; x00]
              [x45; x00] eq_refl) as [_ H'].
  split.
  - apply H; [unfold pkt_len; cbn; lia | reflexivity].
  - apply H'. unfold pkt_len. cbn. lia.
Defined.

Lemma small_frame_not_captured :
  exists bp',
    ni_dhcp_build_send_header LE small_bp 0x0100000a 0x010200c0 = Some (0, bp')
    /\ filter dhcp_bpf_filter_cooked (ni_buffer_data bp') = 0
    /\ filter dhcp_bpf_filter_init
         ([xff; xff; xff; xff; xff; xff; x02; x00; x00; x00; x00; x01; x08; x00]
          ++ ni_buffer_data bp') = 0.
Proof.
  destruct small_bp_bounds as (H1 & H2 & H3 & H4).
  exact (built_frame_not_captured LE small_bp 0x0100000a 0x010200c0
           [xff; xff; xff; xff; xff; xff; x02; x00; x00; x00; x00; x01; x08; x00]
           H1 H2 H3 H4 eq_refl).
Defined.

Lemma small_frame_in_place :
  exists bp',
    ni_dhcp_build_send_header LE small_bp 0x0100000a 0x010200c0 = Some (0, bp')
    /\ head bp' = 0 /\ tail bp' = 33
    /\ length (base bp') = 35%nat
    /\ skipn 28 (base bp') = [x01; x02; x03; x04; x05; x07; x07].
Proof.
  destruct small_bp_bounds as (H1 & H2 & H3 & H4).
  destruct (build_send_header_in_place LE small_bp 0x0100000a 0x010200c0
              H1 H2 H3 H4) as (bp' & Hb & Hh & Ht & Hl & _ & Hs).
  exists bp'. split; [exact Hb|]. split; [exact Hh|]. split; [exact Ht|].
  split; [exact Hl | exact Hs].
Defined.


(** The same open with the kernel refusing the classifier program. *)
Lemma capture_open_filter_refused :
  exists st' calls,
    ni_capture_open LE 1500 eth_broadcast stale 0 ETHERTYPE_IP
      ni_dhcp_socket_recv_fn
      (world_closed [5; -1]) = Some (None, st')
    /\ sys_trace st' = calls
    /\ captures st' = ∅ /\ sockets st' = ∅
    /\ no_fd_left 5 calls.
Proof.
  destruct (ni_capture_open_failure_is_clean LE 1500 eth_broadcast stale
              (world_closed [5; -1]) 0%nat dev_closed ETHERTYPE_IP
              ni_dhcp_socket_recv_fn eq_refl (world_closed_fresh _))
    as (res & st' & calls & E & Ht & H).
  assert (Hres : res = None).
  { assert (E' : fst <$> ni_capture_open LE 1500 eth_broadcast stale 0 ETHERTYPE_IP
                   ni_dhcp_socket_recv_fn (world_closed [5; -1]) = Some None)
      by (vm_compute; reflexivity).
    rewrite E in E'. cbn in E'. congruence. }
  destruct (H Hres) as (_ & Hc & Hs & Hn).
  exists st', calls. rewrite Hres in E. split; [exact E|].
  split; [exact Ht|]. split; [exact Hc|]. split; [exact Hs | exact Hn].
Defined.

Lemma capture_open_without_ifindex :
  let st := set_devices (fun _ => {[ 0%nat := dev_noindex ]}) (world_closed [5]) in
  exists msg,
    ni_capture_open LE 1500 eth_broadcast stale 0 ETHERTYPE_IP
      ni_dhcp_socket_recv_fn st
    = Some (None, set_log (log st ++ [log_error msg]) st).
Proof.
  cbv zeta.
  apply (ni_capture_open_refuses_device LE 1500 eth_broadcast stale
           _ 0%nat dev_noindex).
  - reflexivity.
  - left. reflexivity.
Defined.

(** The ARP socket opened on a device that holds the DHCP capture. *)
Lemma arp_open_on_dhcp_device :
  let st := world (dev0 5 idle) (cap0 ETHERTYPE_IP (repeat x00 64)) [6; 0; 0] [] in
  exists r st' d',
    __ni_dhcp_common_open LE 1500 eth_broadcast stale 0 ETHERTYPE_ARP
      ni_arp_socket_recv_fn st = Some (r, st')
    /\ heap_fresh st' /\ device_linked st' 0
    /\ devices st' !! 0%nat = Some d'
    /\ ((r = 0 /\ exists cp cap,
           capture d' = Some cp /\ captures st' !! cp = Some cap
           /\ protocol cap = ETHERTYPE_ARP)
        \/ (r = -1 /\ capture d' = None)).
Proof.
  cbv zeta.
  apply (common_open_keeps_device_linked LE 1500 eth_broadcast stale _ 0%nat
           (dev0 5 idle)).
  - reflexivity.
  - apply world_fresh.
  - apply world_linked.
Defined.

Lemma arp_open_closes_dhcp_capture :
  let st := world (dev0 5 idle) (cap0 ETHERTYPE_IP (repeat x00 64)) [6; 0; 0] [] in
  exists r st' rest d',
    ni_arp_socket_open LE 1500 eth_broadcast stale 0 st = Some (r, st')
    /\ sys_trace st' = sys_close 4 :: rest
    /\ captures st' !! 0%nat = None /\ sockets st' !! 0%nat = None
    /\ devices st' !! 0%nat = Some d'.
Proof.
  cbv zeta.
  destruct (open_replaces_other_capture LE 1500 eth_broadcast stale
              (world (dev0 5 idle) (cap0 ETHERTYPE_IP (repeat x00 64)) [6; 0; 0] [])
              0%nat (dev0 5 idle) ETHERTYPE_ARP ni_arp_socket_recv_fn
              0%nat (cap0 ETHERTYPE_IP (repeat x00 64)) 0%nat sock0
              eq_refl (world_fresh _ _ _ _) (world_linked _ _ _ _ _ _)
              eq_refl eq_refl eq_refl eq_refl)
    as (r & st' & rest & d' & E & Ht & Hc & Hs & Hd & _).
  - left. cbn. discriminate.
  - exists r, st', rest, d'. split; [exact E|]. split; [exact Ht|].
    split; [exact Hc|]. split; [exact Hs | exact Hd].
Defined.

(** The dummy socket with SO_REUSEADDR and SO_BINDTODEVICE refused. *)
Lemma dummy_socket_with_failing_setsockopt :
  let st := world_closed [5; -1; 0; -1; 0; 6; 0; 0] in
  exists st1,
    ni_dhcp_socket_open LE 1500 eth_broadcast stale 0 st
    = __ni_dhcp_common_open LE 1500 eth_broadcast stale 0 ETHERTYPE_IP
        ni_dhcp_socket_recv_fn st1
    /\ listen_fd <$> devices st1 !! 0%nat = Some 5
    /\ log st1 = [log_error "SO_REUSEADDR: %m"; log_error "SO_SOBINDTODEVICE: %m"].
Proof.
  cbv zeta.
  destruct (dummy_socket_setsockopt_failures_tolerated LE 1500 eth_broadcast stale
              (world_closed [5; -1; 0; -1; 0; 6; 0; 0]) 0%nat dev_closed
              5 (-1) 0 (-1) 0 [6; 0; 0] eq_refl eq_refl eq_refl)
    as (st1 & E & Hd & _ & _ & _ & _ & Hl); [lia | lia |].
  exists st1. split; [exact E|]. split.
  - rewrite Hd, lookup_insert_eq. reflexivity.
  - exact Hl.
Defined.

Lemma dhcp_open_on_closed_device :
  exists r st',
    ni_dhcp_socket_open LE 1500 eth_broadcast stale 0
      (world_closed [5; 0; 0; 0; 0; 6; 0; 0]) = Some (r, st')
    /\ heap_fresh st' /\ device_linked st' 0
    /\ (r = 0 \/ r = -1).
Proof.
  destruct (dhcp_socket_open_keeps_device_linked LE 1500 eth_broadcast stale
              (world_closed [5; 0; 0; 0; 0; 6; 0; 0]) 0%nat dev_closed
              eq_refl (world_closed_fresh _) (world_closed_linked _))
    as (r & st' & E & Hf & Hl & Hr & _).
  exists r, st'. auto.
Defined.

(** [reply_frame] arriving in a receive buffer of 64 bytes. *)
Lemma dhcp_recv_of_reply :
  let c := cap0 ETHERTYPE_IP (repeat xee 64) in
  let st := world (dev0 5 idle) c [] [Some reply_frame] in
  exists st' len,
    ni_dhcp_socket_recv LE 0 st = Some (tt, st')
    /\ sys_trace st' = [sys_read 4 64]
    /\ fsm_trace st'
       = [ni_dhcp_fsm_process_dhcp_packet_call 0
            (ni_buffer_init_reader (reply_frame ++ repeat xee 28) 28 len)].
Proof.
  cbv zeta.
  destruct (dhcp_recv_hands_over_only_valid_packets LE
              (world (dev0 5 idle) (cap0 ETHERTYPE_IP (repeat xee 64)) []
                 [Some reply_frame])
              0%nat sock0 0%nat (cap0 ETHERTYPE_IP (repeat xee 64)) 0%nat
              (dev0 5 idle) (repeat xee 64)
              eq_refl eq_refl eq_refl eq_refl eq_refl eq_refl)
    as (st' & E & _ & _ & _ & Ht & Hv & _).
  destruct Hv as (len & Hf).
  { split; [vm_compute; congruence|]. split; [|vm_compute; congruence].
    refine (proj1 (cph_accept_inv LE _ 0 _ 0 28 _)).
    vm_compute. reflexivity. }
  exists st', len. split; [exact E|]. split; [exact Ht | exact Hf].
Defined.


Lemma timeout_hooks_on_bare_socket :
  let st := set_sockets (fun _ => {[ 0%nat := sock_bare ]}) (world_closed []) in
  exists msg,
    __ni_dhcp_socket_get_timeout 0 T0 st
    = Some ((-1, T0), set_log (log st ++ [log_error msg]) st)
    /\ __ni_dhcp_socket_check_timeout 0 T0 st
       = Some (tt, set_log (log st ++ [log_error msg]) st).
Proof.
  cbv zeta.
  apply (timeout_hooks_on_unlinked_socket _ 0%nat sock_bare T0 T0).
  - reflexivity.
  - left. reflexivity.
Defined.




(** * The wire format at concrete frames *)



(** Reads of more than 65535 bytes are outside the amended claim: the
    count of bytes behind the UDP header is passed on as a uint16_t, here
    65536 as 0, so that this read is accepted on its headers alone although
    the 65536 bytes behind them do not verify. *)
Definition long_read : list byte :=
  [ x45; x10; x00; x1c; x00; x00; x40; x00; x40; x11; x78; xc0;
    xc0; x00; x02; x01; xff; xff; xff; xff;
    x00; x43; x00; x44; x00; x08; x3d; x56 ] ++ repeat x01 (Z.to_nat 65536).

Lemma long_read_accepted :
  cph_payload (check_packet_header LE long_read 0 65564 0) = Some 28
  /\ ~ valid_read LE long_read 0 65564.
Proof.
  split; [vm_compute; reflexivity|].
  intros (_ & _ & _ & _ & _ & Hu). vm_compute in Hu. discriminate Hu.
Qed.


(** X10, at the reply: the conditions hold for its 36 bytes, so it is
    accepted with the payload at offset 28. *)
Lemma reply_accepted :
  cph_payload (check_packet_header LE reply_frame 0 36 0) = Some 28.
Proof.
  apply (check_packet_header_accepts_iff LE reply_frame 0 36 0 28);
    [vm_compute; discriminate | vm_compute; discriminate
     | vm_compute; discriminate |].
  split; [|split; [vm_compute; discriminate | reflexivity]].
  unfold valid_read. cbv zeta.
  repeat split; vm_compute; congruence.
Defined.

(** C4, at a payload of 300 bytes: the IP checksum is 39 96 and the UDP
    checksum f5 fe. *)
Lemma discover_egress_frame_300 :
  (28 <= head discover_bp /\ tail discover_bp = head discover_bp + 300
   /\ tail discover_bp <= Z.of_nat (length (base discover_bp)))
  /\ exists bp',
      ni_dhcp_build_send_header LE discover_bp 0 0 = Some (0, bp')
      /\ length (ni_buffer_data bp') = 328%nat
      /\ bytes_at (ni_buffer_data bp') ip_dst_off 4 = [xff; xff; xff; xff]
      /\ bytes_at (ni_buffer_data bp') ip_sum_off 2 = [x39; x96]
      /\ inet_checksum (bytes_at (ni_buffer_data bp') 0 sizeof_ip) = 0
      /\ bytes_at (ni_buffer_data bp') (sizeof_ip + uh_sum_off) 2 = [xf5; xfe]
      /\ inet_checksum (udp_pseudo_header (ni_buffer_data bp') 0 sizeof_ip
                        ++ bytes_at (ni_buffer_data bp') sizeof_ip 308) = 0.
Proof.
  assert (H : 28 <= head discover_bp /\ tail discover_bp = head discover_bp + 300
              /\ tail discover_bp <= Z.of_nat (length (base discover_bp))).
  { repeat split; vm_compute; congruence. }
  split; [exact H|].
  destruct H as (H1 & H2 & H3).
  destruct (discover_egress_frame LE discover_bp H1 H2 H3) as (bp' & Hb & Hf).
  exists bp'. cbv zeta in Hf.
  destruct Hf as (Hlen & _ & _ & _ & _ & _ & _ & _ & _ & _ & _ & Hdst & Hsum
                  & Hwi & _ & _ & _ & _ & Hwu & _).
  split; [exact Hb|]. split; [exact Hlen|]. split; [exact Hdst|].
  split; [exact Hsum|]. split; [exact Hwi|]. split; [|exact Hwu].
  vm_compute in Hb. injection Hb as <-. vm_compute. reflexivity.
Defined.

(** X6, at the five-byte payload sent to 0.0.0.0: the frame on the wire. *)
Lemma small_frame_fields :
  exists bp',
    ni_dhcp_build_send_header LE small_bp 0x0100000a 0 = Some (0, bp')
    /\ ntohs LE (load16 LE (ni_buffer_data bp') ip_len_off) = 33
    /\ load32 LE (ni_buffer_data bp') ip_dst_off = INADDR_BROADCAST
    /\ inet_checksum (bytes_at (ni_buffer_data bp') 0 sizeof_ip) = 0
    /\ inet_checksum (udp_pseudo_header (ni_buffer_data bp') 0 sizeof_ip
                      ++ bytes_at (ni_buffer_data bp') sizeof_ip 13) = 0
    /\ ni_buffer_data bp'
       = [ x45; x10; x00; x21; x00; x00; x40; x00; x40; x11; x30; xbc;
           x0a; x00; x00; x01; xff; xff; xff; xff;
           x00; x44; x00; x43; x00; x0d; xec; x46;
           x01; x02; x03; x04; x05 ].
Proof.
  destruct small_bp_bounds as (H1 & H2 & H3 & H4).
  destruct (build_send_header_any_frame LE small_bp 0x0100000a 0 H1 H2 H3 H4)
    as (bp' & Hb & Hf).
  exists bp'. split; [exact Hb|]. cbv zeta in Hf.
  destruct Hf as (_ & _ & _ & _ & Hlen & _ & _ & _ & _ & _ & Hdst & Hwi & _
                  & _ & _ & _ & Hwu & _).
  split; [exact Hlen|]. split; [exact Hdst|]. split; [exact Hwi|].
  split; [exact Hwu|].
  vm_compute in Hb. injection Hb as <-. vm_compute. reflexivity.
Defined.
